(** * Portfolio backend (server.js): content and project records behind an
      admin password, with files kept on Cloudinary

    A shallow embedding of [src/server.js].  The Express application is a
    function from an incoming request and a world (the two MongoDB
    collections, the clock and the log of calls made to the outside) to a
    response and a new world.  What the outside decides during one request
    (what Cloudinary answers, how much time passes) is an explicit [oracle].

    Where the model stops: a body field is text or absent and sent once,
    before or after the file part; an [:id] is a well-formed ObjectId or
    not; requests are served one after the other; multer and the Cloudinary
    storage behave as their sources have it;
    MongoDB itself does not fail, so a handler's [catch] is reached by the
    errors the handler's own calls raise (validation, cast, TypeError). *)

From Stdlib Require Import ZArith String List Lia.
From stdpp Require Import base option gmap strings list fin_maps sorting.

Local Open Scope string_scope.
Local Open Scope Z_scope.
Local Open Scope list_scope.

(** ** JavaScript values used by the program *)

(** A value that is a string or [undefined] is an [option string]. *)

(** JavaScript truthiness of such a value: [undefined] and [''] are falsy. *)
Definition truthy (v : option string) : bool :=
  match v with
  | Some s => negb (String.eqb s EmptyString)
  | None => false
  end.

(** [a || b] *)
Definition js_or (a b : option string) : option string :=
  if truthy a then a else b.

(** [a === b] on values that are strings or [undefined] *)
Definition strict_eq (a b : option string) : bool := bool_decide (a = b).

(** [s.startsWith(p)] *)
Definition startsWith (s p : string) : bool := String.prefix p s.

(** [s.includes(sub)] *)
Fixpoint includes (s sub : string) : bool :=
  String.prefix sub s ||
  match s with
  | EmptyString => false
  | String _ s' => includes s' sub
  end.

(** [arr.includes(x)] on an array of strings *)
Definition array_includes (arr : list string) (x : string) : bool :=
  existsb (String.eqb x) arr.

(** ** Data model *)

(** Documents of the [Content] model ([contentSchema]).  A path of type
    String holds a string or is undefined; the two dates are milliseconds. *)
Module Content.
Record t : Type := Build {
  _id : nat;
  title : option string;
  description : option string;
  fileUrl : option string;
  fileType : option string;
  publicId : option string;
  category : option string;
  createdAt : Z;
  updatedAt : Z
}.

(** The paths declared [required: true], in schema order. *)
Definition required (d : t) : list (string * option string) :=
  [ ("title", title d); ("description", description d);
    ("fileUrl", fileUrl d); ("fileType", fileType d);
    ("publicId", publicId d); ("category", category d) ].

(** Assignments [d.path = v]. *)
Definition set_title (v : option string) (d : t) : t :=
  Build (_id d) v (description d) (fileUrl d) (fileType d) (publicId d)
        (category d) (createdAt d) (updatedAt d).
Definition set_description (v : option string) (d : t) : t :=
  Build (_id d) (title d) v (fileUrl d) (fileType d) (publicId d)
        (category d) (createdAt d) (updatedAt d).
Definition set_fileUrl (v : option string) (d : t) : t :=
  Build (_id d) (title d) (description d) v (fileType d) (publicId d)
        (category d) (createdAt d) (updatedAt d).
Definition set_fileType (v : option string) (d : t) : t :=
  Build (_id d) (title d) (description d) (fileUrl d) v (publicId d)
        (category d) (createdAt d) (updatedAt d).
Definition set_publicId (v : option string) (d : t) : t :=
  Build (_id d) (title d) (description d) (fileUrl d) (fileType d) v
        (category d) (createdAt d) (updatedAt d).
Definition set_updatedAt (v : Z) (d : t) : t :=
  Build (_id d) (title d) (description d) (fileUrl d) (fileType d) (publicId d)
        (category d) (createdAt d) v.
End Content.

(** Documents of the [Project] model ([projectSchema]). *)
Module Project.
Record t : Type := Build {
  _id : nat;
  projectTitle : option string;
  studentName : option string;
  rollNo : option string;
  department : option string;
  year : option string;
  description : option string;
  fileUrl : option string;
  fileType : option string;
  publicId : option string;
  createdAt : Z;
  updatedAt : Z
}.

Definition required (d : t) : list (string * option string) :=
  [ ("projectTitle", projectTitle d); ("studentName", studentName d);
    ("rollNo", rollNo d); ("department", department d);
    ("year", year d); ("description", description d);
    ("fileUrl", fileUrl d); ("fileType", fileType d);
    ("publicId", publicId d) ].

Definition set_projectTitle (v : option string) (d : t) : t :=
  Build (_id d) v (studentName d) (rollNo d) (department d) (year d)
        (description d) (fileUrl d) (fileType d) (publicId d)
        (createdAt d) (updatedAt d).
Definition set_studentName (v : option string) (d : t) : t :=
  Build (_id d) (projectTitle d) v (rollNo d) (department d) (year d)
        (description d) (fileUrl d) (fileType d) (publicId d)
        (createdAt d) (updatedAt d).
Definition set_rollNo (v : option string) (d : t) : t :=
  Build (_id d) (projectTitle d) (studentName d) v (department d) (year d)
        (description d) (fileUrl d) (fileType d) (publicId d)
        (createdAt d) (updatedAt d).
Definition set_department (v : option string) (d : t) : t :=
  Build (_id d) (projectTitle d) (studentName d) (rollNo d) v (year d)
        (description d) (fileUrl d) (fileType d) (publicId d)
        (createdAt d) (updatedAt d).
Definition set_year (v : option string) (d : t) : t :=
  Build (_id d) (projectTitle d) (studentName d) (rollNo d) (department d) v
        (description d) (fileUrl d) (fileType d) (publicId d)
        (createdAt d) (updatedAt d).
Definition set_description (v : option string) (d : t) : t :=
  Build (_id d) (projectTitle d) (studentName d) (rollNo d) (department d)
        (year d) v (fileUrl d) (fileType d) (publicId d)
        (createdAt d) (updatedAt d).
Definition set_fileUrl (v : option string) (d : t) : t :=
  Build (_id d) (projectTitle d) (studentName d) (rollNo d) (department d)
        (year d) (description d) v (fileType d) (publicId d)
        (createdAt d) (updatedAt d).
Definition set_fileType (v : option string) (d : t) : t :=
  Build (_id d) (projectTitle d) (studentName d) (rollNo d) (department d)
        (year d) (description d) (fileUrl d) v (publicId d)
        (createdAt d) (updatedAt d).
Definition set_publicId (v : option string) (d : t) : t :=
  Build (_id d) (projectTitle d) (studentName d) (rollNo d) (department d)
        (year d) (description d) (fileUrl d) (fileType d) v
        (createdAt d) (updatedAt d).
Definition set_updatedAt (v : Z) (d : t) : t :=
  Build (_id d) (projectTitle d) (studentName d) (rollNo d) (department d)
        (year d) (description d) (fileUrl d) (fileType d) (publicId d)
        (createdAt d) v.
End Project.

Inductive model : Type := ContentModel | ProjectModel.

(** ** Errors and responses *)

Inductive error : Type :=
| Error (message : string)                        (* new Error(message) *)
| MulterError (code : string)                     (* raised by multer *)
| CloudinaryError                                 (* the upload was rejected *)
| ValidationError (m : model) (paths : list string) (* raised by save() *)
| CastError (m : model)                           (* id is not an ObjectId *)
| TypeError.                                      (* property of undefined *)

(** The text of a response's [error] field: either a literal of the program
    or the [message] property of an error object raised by a library. *)
Inductive message : Type :=
| Text (s : string)
| MessageOf (e : error).

Definition error_message (e : error) : message :=
  match e with
  | Error s => Text s
  | _ => MessageOf e
  end.

(** None of these error objects carries a [status] property. *)
Definition error_status (e : error) : option nat := None.

Inductive json : Type :=
| JError (error : message)                (* { error: ... } *)
| JMessage (message : string)             (* { message: ... } *)
| JValid (valid : bool)                   (* { valid: ... } *)
| JContent (d : Content.t)
| JContents (l : list Content.t)
| JProject (d : Project.t)
| JProjects (l : list Project.t).

Record response : Type := Resp { status : nat; sent : json }.

(** ** The world *)

(** Calls that leave the process, in the order they are made. *)
Inductive event : Type :=
| cloudinary_upload (folder resource_type : string)
| cloudinary_destroy (publicId : option string) (resource_type : string)
| cloudinary_remove (publicId : option string)
| db_find (m : model)
| db_findById (m : model) (id : nat)
| db_save (m : model) (id : nat)
| db_findByIdAndDelete (m : model) (id : nat)
| console_log (text : string)
| console_error (text : string).

Record world : Type := World {
  contents : gmap nat Content.t;    (* the Content collection, by _id *)
  projects : gmap nat Project.t;    (* the Project collection, by _id *)
  next_id : nat;                    (* ObjectId generator *)
  clock : Z;                        (* last reading of the clock, in ms *)
  trace : list event                (* calls made so far, oldest first *)
}.

(** What Cloudinary answers to an upload. *)
Record upload_response : Type := { secure_url : string; public_id : string }.

(** What the outside decides while one request is served. *)
Record oracle : Type := Oracle {
  uploaded : option upload_response;  (* [None]: the upload is rejected *)
  destroy_throws : bool;              (* cloudinary.uploader.destroy rejects *)
  elapsed1 : Z;                       (* clock change before the 1st Date.now() *)
  elapsed2 : Z                        (* clock change before the 2nd Date.now() *)
}.

(** Configuration read from the environment. *)
Record env : Type := Env { ADMIN_PASSWORD : option string }.

(** ** A monad for handlers: state and exceptions *)

Inductive result (A : Type) : Type :=
| Ok (a : A)
| Throw (e : error).
Arguments Ok {A} a.
Arguments Throw {A} e.

Definition M (A : Type) : Type := world -> result A * world.

#[export] Instance M_ret : MRet M := fun A a w => (Ok a, w).
#[export] Instance M_bind : MBind M := fun A B k m w =>
  match m w with
  | (Ok a, w') => k a w'
  | (Throw e, w') => (Throw e, w')
  end.

Definition throw {A : Type} (e : error) : M A := fun w => (Throw e, w).

(** [try { m } catch (error) { h error }] *)
Definition try_catch {A : Type} (m : M A) (h : error -> M A) : M A := fun w =>
  match m w with
  | (Ok a, w') => (Ok a, w')
  | (Throw e, w') => h e w'
  end.

Definition emit (e : event) : M unit := fun w =>
  (Ok tt, World (contents w) (projects w) (next_id w) (clock w) (trace w ++ [e])).

(** [Date.now()], reached after the clock has moved by [dt]. *)
Definition Date_now (dt : Z) : M Z := fun w =>
  let t := clock w + dt in
  (Ok t, World (contents w) (projects w) (next_id w) t (trace w)).

(** A fresh ObjectId. *)
Definition new_ObjectId : M nat := fun w =>
  (Ok (next_id w),
   World (contents w) (projects w) (S (next_id w)) (clock w) (trace w)).

Definition gets {A : Type} (f : world -> A) : M A := fun w => (Ok (f w), w).

Definition set_contents (f : gmap nat Content.t -> gmap nat Content.t) : M unit :=
  fun w => (Ok tt, World (f (contents w)) (projects w) (next_id w) (clock w) (trace w)).

Definition set_projects (f : gmap nat Project.t -> gmap nat Project.t) : M unit :=
  fun w => (Ok tt, World (contents w) (f (projects w)) (next_id w) (clock w) (trace w)).

(** ** Requests *)

(** The [:id] of a path: a well-formed ObjectId or some other string. *)
Inductive id_param : Type :=
| ObjectId (n : nat)
| Malformed.

(** The routes registered as [app.METHOD(path, authenticate, ...)]. *)
Inductive protected_route : Type :=
| POST_content                               (* POST /api/content *)
| PUT_content (id : id_param)                (* PUT /api/content/:id *)
| DELETE_content (id : id_param)             (* DELETE /api/content/:id *)
| POST_projects                              (* POST /api/projects *)
| PUT_project (id : id_param)                (* PUT /api/projects/:id *)
| DELETE_project (id : id_param).            (* DELETE /api/projects/:id *)

Inductive route : Type :=
| GET_content_category (category : string)   (* GET /api/content/:category *)
| GET_content_item (id : id_param)           (* GET /api/content/item/:id *)
| GET_projects                               (* GET /api/projects *)
| GET_project (id : id_param)                (* GET /api/projects/:id *)
| POST_verify_admin                          (* POST /api/verify-admin *)
| Protected (p : protected_route).

(** The file part of a multipart body, sent under the field name [file]. *)
Record file_part : Type := FilePart {
  part_mimetype : string;     (* declared MIME type *)
  part_size : Z;              (* bytes *)
  sent_before : list string   (* names of the text fields sent before it *)
}.

(** A request as it arrives.  Body fields are text: [fields !! "title"] is
    [req.body.title]. *)
Record request : Type := Request {
  target : route;
  x_admin_password : option string;   (* req.headers['x-admin-password'] *)
  fields : gmap string string;        (* text fields of the body *)
  attachment : option file_part
}.

(** [req.file] once multer and the Cloudinary storage have stored the file. *)
Record file : Type := File {
  path : string;        (* Cloudinary URL *)
  mimetype : string;
  filename : string     (* Cloudinary public ID *)
}.

(** The [req] object seen by middleware and handlers. *)
Record req : Type := Req {
  baseUrl : string;
  headers_x_admin_password : option string;
  body : gmap string string;
  incoming : option file_part;
  req_file : option file
}.

(** ** Upload pipeline (multer with the Cloudinary storage) *)

Record upload_options : Type := UploadOptions {
  folder : string;
  resource_type : string;
  allowed_formats : list string;
  transformation : option (list (Z * Z * string))
}.

(** [params] of [new CloudinaryStorage({...})]. *)
Definition storage_params (r : req) (f : file_part) : upload_options :=
  let folder := "portfolio" in
  let folder :=
    if includes (baseUrl r) "projects" then "portfolio/projects"
    else if strict_eq (body r !! "category") (Some "curriculum")
         then "portfolio/curriculum"
    else if strict_eq (body r !! "category") (Some "hobbies")
         then "portfolio/hobbies"
    else folder in
  let resourceType := "auto" in
  let resourceType :=
    if startsWith (part_mimetype f) "video/" then "video"
    else if startsWith (part_mimetype f) "image/" then "image"
    else "raw" in
  {| folder := folder;
     resource_type := resourceType;
     allowed_formats :=
       ["jpg"; "jpeg"; "png"; "gif"; "mp4"; "webm"; "pdf"; "doc"; "docx"];
     transformation :=
       if startsWith (part_mimetype f) "image/"
       then Some [(1200, 1200, "limit")] else None |}.

Definition allowedTypes : list string :=
  [ "image/jpeg"; "image/png"; "image/gif";
    "video/mp4"; "video/webm";
    "application/pdf";
    "application/msword";
    "application/vnd.openxmlformats-officedocument.wordprocessingml.document" ].

(** [fileFilter]: [cb(null, true)] is [Ok true], [cb(new Error(..), false)]
    is [Throw]. *)
Definition fileFilter (r : req) (f : file_part) : result bool :=
  if array_includes allowedTypes (part_mimetype f) then Ok true
  else Throw (Error
    "Invalid file type. Only images, videos, PDFs, and Word documents are allowed.").

(** [limits: { fileSize: 50 * 1024 * 1024 }] *)
Definition limits_fileSize : Z := 50 * 1024 * 1024.

(** [req.body] as it stands when the file part arrives: multer adds the
    text fields to [req.body] one by one, in the order of the multipart
    body, so that only the fields sent before the file are there yet. *)
Definition body_so_far (f : file_part) (body : gmap string string)
    : gmap string string :=
  filter (fun kv => kv.1 ∈ sent_before f) body.

(** The request as [params] gets it, while the body is still being read. *)
Definition when_file_arrives (r : req) (f : file_part) : req :=
  Req (baseUrl r) (headers_x_admin_password r) (body_so_far f (body r))
      (incoming r) (req_file r).

(** [_removeFile] of the Cloudinary storage:
    [cloudinary.uploader.destroy(file.filename, { invalidate: true })].
    multer collects a failure of this call in [storageErrors] and goes on. *)
Definition storage_removeFile (filename : option string) : M unit :=
  emit (cloudinary_remove filename).

(** [upload.single('file')].  multer asks [fileFilter] first; an accepted
    file is streamed to the storage, which computes [params] from the
    request as it stands and opens the Cloudinary upload.  A stream that
    reaches [limits.fileSize] bytes is cut there: multer waits for the
    storage to finish with the part it got, removes what was stored
    ([filename] is [undefined] when Cloudinary stored nothing) and passes
    LIMIT_FILE_SIZE to [next].  Otherwise [req.file] holds what Cloudinary
    answered and [req.body] all the text fields; an error of the upload
    goes to [next(err)]. *)
Definition upload_single (o : oracle) (r : req) : M req :=
  match incoming r with
  | None => mret r
  | Some f =>
    match fileFilter r f with
    | Throw e => throw e
    | Ok false => mret r
    | Ok true =>
      let p := storage_params (when_file_arrives r f) f in
      emit (cloudinary_upload (folder p) (resource_type p));;
      if bool_decide (limits_fileSize <= part_size f)
      then
        storage_removeFile (public_id <$> uploaded o);;
        throw (MulterError "LIMIT_FILE_SIZE")
      else
        match uploaded o with
        | None => throw CloudinaryError
        | Some resp =>
          mret (Req (baseUrl r) (headers_x_admin_password r) (body r)
                    (incoming r)
                    (Some (File (secure_url resp) (part_mimetype f)
                                (public_id resp))))
        end
    end
  end.

(** ** Authentication middleware *)

Definition Unauthorized : response := Resp 401 (JError (Text "Unauthorized")).

(** [authenticate(req, res, next)] *)
Definition authenticate (e : env) (r : req) (next : M response) : M response :=
  let password := headers_x_admin_password r in
  if strict_eq password (ADMIN_PASSWORD e) then next
  else mret Unauthorized.

(** ** Cloudinary helpers *)

(** [cloudinary.uploader.destroy(publicId, { resource_type })] *)
Definition cloudinary_uploader_destroy (o : oracle)
    (publicId : option string) (resourceType : string) : M unit :=
  emit (cloudinary_destroy publicId resourceType);;
  if destroy_throws o then throw CloudinaryError else mret tt.

(** [deleteFromCloudinary(publicId, resourceType = 'image')]; both callers
    pass a resource type, so the default is never used. *)
Definition deleteFromCloudinary (o : oracle)
    (publicId : option string) (resourceType : string) : M unit :=
  try_catch
    (cloudinary_uploader_destroy o publicId resourceType;;
     emit (console_log ("Deleted file from Cloudinary: " +:+
                        default "undefined" publicId)))
    (fun error => emit (console_error "Error deleting from Cloudinary:")).

(** [getResourceType(fileType)]; reading [startsWith] of [undefined] is a
    TypeError. *)
Definition getResourceType (fileType : option string) : M string :=
  match fileType with
  | None => throw TypeError
  | Some fileType =>
    if startsWith fileType "video/" then mret "video"
    else if startsWith fileType "image/" then mret "image"
    else mret "raw"
  end.

(** ** Mongoose models *)

(** The validation run by [save()]: a required String path must hold a
    non-empty string. *)
Definition invalid_paths (required : list (string * option string)) : list string :=
  (filter (fun p => truthy p.2 = false) required).*1.

Definition validate (m : model) (required : list (string * option string)) : M unit :=
  match invalid_paths required with
  | [] => mret tt
  | paths => throw (ValidationError m paths)
  end.

(** The order of [.sort({ createdAt: -1 })]: [a] may come before [b]. *)
Definition not_older {A : Type} (createdAt : A -> Z) (a b : A) : Prop :=
  createdAt b <= createdAt a.

#[export] Instance not_older_dec {A : Type} (createdAt : A -> Z) (a b : A) :
  Decision (not_older createdAt a b) := Z_le_dec (createdAt b) (createdAt a).

(** [.sort({ createdAt: -1 })] *)
Definition newest_first {A : Type} (createdAt : A -> Z) (l : list A) : list A :=
  merge_sort (not_older createdAt) l.

(** [new Content({ title, description, fileUrl, fileType, publicId, category })]:
    the two dates are not given, so each takes its own default [Date.now]. *)
Definition new_Content (o : oracle)
    (title description fileUrl fileType publicId category : option string)
    : M Content.t :=
  createdAt ← Date_now (elapsed1 o);
  updatedAt ← Date_now (elapsed2 o);
  _id ← new_ObjectId;
  mret (Content.Build _id title description fileUrl fileType publicId category
                      createdAt updatedAt).

Definition Content_save (d : Content.t) : M unit :=
  validate ContentModel (Content.required d);;
  emit (db_save ContentModel (Content._id d));;
  set_contents (insert (Content._id d) d).

Definition Content_findById (id : id_param) : M (option Content.t) :=
  match id with
  | Malformed => throw (CastError ContentModel)
  | ObjectId n =>
    emit (db_findById ContentModel n);;
    gets (fun w => contents w !! n)
  end.

Definition Content_findByIdAndDelete (id : id_param) : M unit :=
  match id with
  | Malformed => throw (CastError ContentModel)
  | ObjectId n =>
    emit (db_findByIdAndDelete ContentModel n);;
    set_contents (delete n)
  end.

(** [Content.find({ category }).sort({ createdAt: -1 })] *)
Definition Content_find_by_category (category : string) : M (list Content.t) :=
  emit (db_find ContentModel);;
  gets (fun w =>
    newest_first Content.createdAt
      (filter (fun d => Content.category d = Some category)
              (map_to_list (contents w)).*2)).

Definition new_Project (o : oracle)
    (projectTitle studentName rollNo department year description
     fileUrl fileType publicId : option string) : M Project.t :=
  createdAt ← Date_now (elapsed1 o);
  updatedAt ← Date_now (elapsed2 o);
  _id ← new_ObjectId;
  mret (Project.Build _id projectTitle studentName rollNo department year
                      description fileUrl fileType publicId
                      createdAt updatedAt).

Definition Project_save (d : Project.t) : M unit :=
  validate ProjectModel (Project.required d);;
  emit (db_save ProjectModel (Project._id d));;
  set_projects (insert (Project._id d) d).

Definition Project_findById (id : id_param) : M (option Project.t) :=
  match id with
  | Malformed => throw (CastError ProjectModel)
  | ObjectId n =>
    emit (db_findById ProjectModel n);;
    gets (fun w => projects w !! n)
  end.

Definition Project_findByIdAndDelete (id : id_param) : M unit :=
  match id with
  | Malformed => throw (CastError ProjectModel)
  | ObjectId n =>
    emit (db_findByIdAndDelete ProjectModel n);;
    set_projects (delete n)
  end.

(** [Project.find().sort({ createdAt: -1 })] *)
Definition Project_find_all : M (list Project.t) :=
  emit (db_find ProjectModel);;
  gets (fun w => newest_first Project.createdAt (map_to_list (projects w)).*2).

(** ** Route handlers *)

(** [catch (error) { res.status(500).json({ error: error.message }) }] *)
Definition respond_500 (error : error) : M response :=
  mret (Resp 500 (JError (error_message error))).

(** GET /api/content/:category *)
Definition get_content_by_category (category : string) : M response :=
  try_catch
    (content ← Content_find_by_category category;
     mret (Resp 200 (JContents content)))
    respond_500.

(** GET /api/content/item/:id *)
Definition get_content_item (id : id_param) : M response :=
  try_catch
    (content ← Content_findById id;
     match content with
     | None => mret (Resp 404 (JError (Text "Content not found")))
     | Some content => mret (Resp 200 (JContent content))
     end)
    respond_500.

(** POST /api/content, after [authenticate] and [upload.single('file')] *)
Definition post_content (o : oracle) (r : req) : M response :=
  try_catch
    (let title := body r !! "title" in
     let description := body r !! "description" in
     let category := body r !! "category" in
     match req_file r with
     | None => mret (Resp 400 (JError (Text "No file uploaded")))
     | Some file =>
       newContent ← new_Content o title description
                      (Some (path file)) (Some (mimetype file))
                      (Some (filename file)) category;
       Content_save newContent;;
       mret (Resp 201 (JContent newContent))
     end)
    respond_500.

(** PUT /api/content/:id, after [authenticate] and [upload.single('file')] *)
Definition put_content (o : oracle) (id : id_param) (r : req) : M response :=
  try_catch
    (let title := body r !! "title" in
     let description := body r !! "description" in
     content ← Content_findById id;
     match content with
     | None => mret (Resp 404 (JError (Text "Content not found")))
     | Some content =>
       let content := Content.set_title (js_or title (Content.title content)) content in
       let content :=
         Content.set_description
           (js_or description (Content.description content)) content in
       now ← Date_now (elapsed1 o);
       let content := Content.set_updatedAt now content in
       content ←
         match req_file r with
         | Some file =>
           resourceType ← getResourceType (Content.fileType content);
           deleteFromCloudinary o (Content.publicId content) resourceType;;
           let content := Content.set_fileUrl (Some (path file)) content in
           let content := Content.set_fileType (Some (mimetype file)) content in
           let content := Content.set_publicId (Some (filename file)) content in
           mret content
         | None => mret content
         end;
       Content_save content;;
       mret (Resp 200 (JContent content))
     end)
    respond_500.

(** DELETE /api/content/:id, after [authenticate] *)
Definition delete_content (o : oracle) (id : id_param) : M response :=
  try_catch
    (content ← Content_findById id;
     match content with
     | None => mret (Resp 404 (JError (Text "Content not found")))
     | Some content =>
       resourceType ← getResourceType (Content.fileType content);
       deleteFromCloudinary o (Content.publicId content) resourceType;;
       Content_findByIdAndDelete id;;
       mret (Resp 200 (JMessage "Content deleted successfully"))
     end)
    respond_500.

(** GET /api/projects *)
Definition get_projects : M response :=
  try_catch
    (projects ← Project_find_all;
     mret (Resp 200 (JProjects projects)))
    respond_500.

(** GET /api/projects/:id *)
Definition get_project (id : id_param) : M response :=
  try_catch
    (project ← Project_findById id;
     match project with
     | None => mret (Resp 404 (JError (Text "Project not found")))
     | Some project => mret (Resp 200 (JProject project))
     end)
    respond_500.

(** POST /api/projects, after [authenticate] and [upload.single('file')] *)
Definition post_project (o : oracle) (r : req) : M response :=
  try_catch
    (let projectTitle := body r !! "projectTitle" in
     let studentName := body r !! "studentName" in
     let rollNo := body r !! "rollNo" in
     let department := body r !! "department" in
     let year := body r !! "year" in
     let description := body r !! "description" in
     match req_file r with
     | None => mret (Resp 400 (JError (Text "No file uploaded")))
     | Some file =>
       newProject ← new_Project o projectTitle studentName rollNo department
                      year description
                      (Some (path file)) (Some (mimetype file))
                      (Some (filename file));
       Project_save newProject;;
       mret (Resp 201 (JProject newProject))
     end)
    respond_500.

(** PUT /api/projects/:id, after [authenticate] and [upload.single('file')] *)
Definition put_project (o : oracle) (id : id_param) (r : req) : M response :=
  try_catch
    (let projectTitle := body r !! "projectTitle" in
     let studentName := body r !! "studentName" in
     let rollNo := body r !! "rollNo" in
     let department := body r !! "department" in
     let year := body r !! "year" in
     let description := body r !! "description" in
     project ← Project_findById id;
     match project with
     | None => mret (Resp 404 (JError (Text "Project not found")))
     | Some project =>
       let project :=
         Project.set_projectTitle
           (js_or projectTitle (Project.projectTitle project)) project in
       let project :=
         Project.set_studentName
           (js_or studentName (Project.studentName project)) project in
       let project := Project.set_rollNo (js_or rollNo (Project.rollNo project)) project in
       let project :=
         Project.set_department
           (js_or department (Project.department project)) project in
       let project := Project.set_year (js_or year (Project.year project)) project in
       let project :=
         Project.set_description
           (js_or description (Project.description project)) project in
       now ← Date_now (elapsed1 o);
       let project := Project.set_updatedAt now project in
       project ←
         match req_file r with
         | Some file =>
           resourceType ← getResourceType (Project.fileType project);
           deleteFromCloudinary o (Project.publicId project) resourceType;;
           let project := Project.set_fileUrl (Some (path file)) project in
           let project := Project.set_fileType (Some (mimetype file)) project in
           let project := Project.set_publicId (Some (filename file)) project in
           mret project
         | None => mret project
         end;
       Project_save project;;
       mret (Resp 200 (JProject project))
     end)
    respond_500.

(** DELETE /api/projects/:id, after [authenticate] *)
Definition delete_project (o : oracle) (id : id_param) : M response :=
  try_catch
    (project ← Project_findById id;
     match project with
     | None => mret (Resp 404 (JError (Text "Project not found")))
     | Some project =>
       resourceType ← getResourceType (Project.fileType project);
       deleteFromCloudinary o (Project.publicId project) resourceType;;
       Project_findByIdAndDelete id;;
       mret (Resp 200 (JMessage "Project deleted successfully"))
     end)
    respond_500.

(** POST /api/verify-admin *)
Definition verify_admin (e : env) (r : req) : M response :=
  let password := body r !! "password" in
  if strict_eq password (ADMIN_PASSWORD e)
  then mret (Resp 200 (JValid true))
  else mret (Resp 200 (JValid false)).

(** ** The application *)

(** The error-handling middleware registered last with [app.use]. *)
Definition error_middleware (error : error) : M response :=
  emit (console_error "Error:");;
  mret (Resp (default 500%nat (error_status error))
             (JError (error_message error))).

(** The [req] object built for a route registered on [app] itself: no router
    is mounted anywhere, so [req.baseUrl] is the empty string. *)
Definition make_req (rq : request) : req :=
  Req EmptyString (x_admin_password rq) (fields rq) (attachment rq) None.

(** What follows [authenticate] in the chain of a protected route. *)
Definition after_authenticate (o : oracle) (p : protected_route) (r : req)
    : M response :=
  match p with
  | POST_content => r ← upload_single o r; post_content o r
  | PUT_content id => r ← upload_single o r; put_content o id r
  | DELETE_content id => delete_content o id
  | POST_projects => r ← upload_single o r; post_project o r
  | PUT_project id => r ← upload_single o r; put_project o id r
  | DELETE_project id => delete_project o id
  end.

(** One request through the application. *)
Definition app (e : env) (o : oracle) (rq : request) : M response :=
  let r := make_req rq in
  try_catch
    (match target rq with
     | GET_content_category category => get_content_by_category category
     | GET_content_item id => get_content_item id
     | GET_projects => get_projects
     | GET_project id => get_project id
     | POST_verify_admin => verify_admin e r
     | Protected p => authenticate e r (after_authenticate o p r)
     end)
    error_middleware.


(** ** Runs, and what a request did *)

(** The calls made while a request took the world from [w] to [w']. *)
Definition calls_since (w w' : world) : list event :=
  drop (length (trace w)) (trace w').

(** The public IDs handed to [cloudinary.uploader.destroy], in order. *)
Definition destroyed (t : list event) : list (option string) :=
  omap (fun ev => match ev with
                  | cloudinary_destroy publicId _ => Some publicId
                  | cloudinary_remove publicId => Some publicId
                  | _ => None
                  end) t.

Definition is_db_save (ev : event) : bool :=
  match ev with db_save _ _ => true | _ => false end.

(** The calls made before the first [save()] reaches the database. *)
Fixpoint before_first_save (t : list event) : list event :=
  match t with
  | [] => []
  | ev :: t' => if is_db_save ev then [] else ev :: before_first_save t'
  end.

(** The world after one request. *)
Definition step (e : env) (w : world) (x : oracle * request) : world :=
  (app e x.1 x.2 w).2.

(** The world after a sequence of requests, served one after the other. *)
Definition run (e : env) (xs : list (oracle * request)) (w : world) : world :=
  foldl (step e) w xs.

(** Both collections empty; [t] is the last reading of the clock. *)
Definition empty_db (t : Z) : world := World ∅ ∅ 0 t [].

(** Every reading of the clock is at least the reading before it. *)
Definition clock_never_set_back (xs : list (oracle * request)) : Prop :=
  Forall (fun x => 0 <= elapsed1 x.1 /\ 0 <= elapsed2 x.1) xs.

(** The stored records of the Content collection. *)
Definition stored_contents (w : world) : list Content.t :=
  (map_to_list (contents w)).*2.

(** A document that passes the validation of [save()]. *)
Definition valid_Content (d : Content.t) : Prop :=
  invalid_paths (Content.required d) = [].

Definition valid_Project (d : Project.t) : Prop :=
  invalid_paths (Project.required d) = [].

(** What the database guarantees about a collection: a document is stored
    under its own [_id], and every ObjectId in use was generated before. *)
Definition consistent (w : world) : Prop :=
  (forall n d, contents w !! n = Some d ->
     Content._id d = n /\ (n < next_id w)%nat) /\
  (forall n d, projects w !! n = Some d ->
     Project._id d = n /\ (n < next_id w)%nat).

(** Every stored record was last updated no earlier than it was created,
    and no later than the last reading of the clock. *)
Definition dates_ordered (w : world) : Prop :=
  (forall n d, contents w !! n = Some d ->
     Content.createdAt d <= Content.updatedAt d <= clock w) /\
  (forall n d, projects w !! n = Some d ->
     Project.createdAt d <= Project.updatedAt d <= clock w).

(** ** Notions used in the statements *)

(** The two errors by which the upload stage refuses a file on its own:
    the one raised by [fileFilter] and multer's LIMIT_FILE_SIZE. *)
Definition refused (out : result req) : Prop :=
  out = Throw (Error
    "Invalid file type. Only images, videos, PDFs, and Word documents are allowed.")
  \/ out = Throw (MulterError "LIMIT_FILE_SIZE").

(** The upload [upload.single] opens for the file part [f] of [r]. *)
Definition upload_call (r : req) (f : file_part) : event :=
  cloudinary_upload (folder (storage_params (when_file_arrives r f) f))
                    (resource_type (storage_params (when_file_arrives r f) f)).

(** A computation that only ever adds calls at the end of the trace. *)
Definition appends {A : Type} (m : M A) : Prop :=
  forall w, exists t, trace (m w).2 = trace w ++ t.

(** What [getResourceType] returns on a string. *)
Definition resource_kind (fileType : string) : string :=
  if startsWith fileType "video/" then "video"
  else if startsWith fileType "image/" then "image"
  else "raw".

(** What [deleteFromCloudinary] writes to the console. *)
Definition destroy_report (o : oracle) (publicId : option string) : event :=
  if destroy_throws o
  then console_error "Error deleting from Cloudinary:"
  else console_log ("Deleted file from Cloudinary: " +:+ default "undefined" publicId).

(** The document PUT /api/content/:id is about to save: [was] as found,
    with the text fields of the body merged in, [updatedAt] refreshed and,
    when a new file was stored, its reference. *)
Definition updated_Content (r : req) (now : Z) (was : Content.t) : Content.t :=
  let d := Content.set_title (js_or (body r !! "title") (Content.title was)) was in
  let d := Content.set_description
             (js_or (body r !! "description") (Content.description d)) d in
  let d := Content.set_updatedAt now d in
  match req_file r with
  | Some file =>
    Content.set_publicId (Some (filename file))
      (Content.set_fileType (Some (mimetype file))
         (Content.set_fileUrl (Some (path file)) d))
  | None => d
  end.

(** The same for PUT /api/projects/:id. *)
Definition updated_Project (r : req) (now : Z) (was : Project.t) : Project.t :=
  let d := Project.set_projectTitle
             (js_or (body r !! "projectTitle") (Project.projectTitle was)) was in
  let d := Project.set_studentName
             (js_or (body r !! "studentName") (Project.studentName d)) d in
  let d := Project.set_rollNo (js_or (body r !! "rollNo") (Project.rollNo d)) d in
  let d := Project.set_department
             (js_or (body r !! "department") (Project.department d)) d in
  let d := Project.set_year (js_or (body r !! "year") (Project.year d)) d in
  let d := Project.set_description
             (js_or (body r !! "description") (Project.description d)) d in
  let d := Project.set_updatedAt now d in
  match req_file r with
  | Some file =>
    Project.set_publicId (Some (filename file))
      (Project.set_fileType (Some (mimetype file))
         (Project.set_fileUrl (Some (path file)) d))
  | None => d
  end.

(** Two worlds with the same database and the same clock; only the trace
    may differ. *)
Definition same_db (w w' : world) : Prop :=
  contents w' = contents w /\ projects w' = projects w /\
  next_id w' = next_id w /\ clock w' = clock w.

(** The clock after a request: not read, read once, or read twice. *)
Definition clock_read (o : oracle) (w w' : world) : Prop :=
  clock w' = clock w \/
  clock w' = clock w + elapsed1 o \/
  clock w' = clock w + elapsed1 o + elapsed2 o.

(** What one request can do to the database: nothing, or one create,
    update or delete in one of the two collections. *)
Inductive db_step (o : oracle) (w w' : world) : Prop :=
| db_same :
    contents w' = contents w -> projects w' = projects w ->
    (next_id w <= next_id w')%nat -> clock_read o w w' ->
    db_step o w w'
| db_content_created (d : Content.t) :
    contents w' = <[next_id w := d]> (contents w) ->
    projects w' = projects w ->
    next_id w' = S (next_id w) ->
    Content._id d = next_id w ->
    Content.createdAt d = clock w + elapsed1 o ->
    Content.updatedAt d = clock w + elapsed1 o + elapsed2 o ->
    clock w' = clock w + elapsed1 o + elapsed2 o ->
    db_step o w w'
| db_content_updated (n : nat) (was d : Content.t) :
    contents w !! n = Some was ->
    contents w' = <[Content._id was := d]> (contents w) ->
    projects w' = projects w ->
    next_id w' = next_id w ->
    Content._id d = Content._id was ->
    Content.createdAt d = Content.createdAt was ->
    Content.updatedAt d = clock w + elapsed1 o ->
    clock w' = clock w + elapsed1 o ->
    db_step o w w'
| db_content_deleted (n : nat) :
    contents w' = delete n (contents w) ->
    projects w' = projects w ->
    next_id w' = next_id w ->
    clock w' = clock w ->
    db_step o w w'
| db_project_created (d : Project.t) :
    projects w' = <[next_id w := d]> (projects w) ->
    contents w' = contents w ->
    next_id w' = S (next_id w) ->
    Project._id d = next_id w ->
    Project.createdAt d = clock w + elapsed1 o ->
    Project.updatedAt d = clock w + elapsed1 o + elapsed2 o ->
    clock w' = clock w + elapsed1 o + elapsed2 o ->
    db_step o w w'
| db_project_updated (n : nat) (was d : Project.t) :
    projects w !! n = Some was ->
    projects w' = <[Project._id was := d]> (projects w) ->
    contents w' = contents w ->
    next_id w' = next_id w ->
    Project._id d = Project._id was ->
    Project.createdAt d = Project.createdAt was ->
    Project.updatedAt d = clock w + elapsed1 o ->
    clock w' = clock w + elapsed1 o ->
    db_step o w w'
| db_project_deleted (n : nat) :
    projects w' = delete n (projects w) ->
    contents w' = contents w ->
    next_id w' = next_id w ->
    clock w' = clock w ->
    db_step o w w'.

(** [w'] keeps the creation date of every record of [w] it still holds,
    and whatever it holds under an ObjectId that [w] had already generated
    is such a record. *)
Definition keeps_createdAt (w w' : world) : Prop :=
  (next_id w <= next_id w')%nat /\
  (forall n d', contents w' !! n = Some d' -> (n < next_id w)%nat ->
     exists d, contents w !! n = Some d /\
               Content.createdAt d' = Content.createdAt d) /\
  (forall n d', projects w' !! n = Some d' -> (n < next_id w)%nat ->
     exists d, projects w !! n = Some d /\
               Project.createdAt d' = Project.createdAt d).

(** ** Notions used in the further properties *)

(** A call that reaches Cloudinary. *)
Definition is_cloudinary_call (ev : event) : bool :=
  match ev with
  | cloudinary_upload _ _ | cloudinary_destroy _ _ | cloudinary_remove _ => true
  | _ => false
  end.

(** A call that reaches MongoDB. *)
Definition is_db_call (ev : event) : bool :=
  match ev with
  | db_find _ | db_findById _ _ | db_save _ _ | db_findByIdAndDelete _ _ => true
  | _ => false
  end.

(** Every stored record passes the validation of [save()]. *)
Definition valid_db (w : world) : Prop :=
  (forall n d, contents w !! n = Some d -> valid_Content d) /\
  (forall n d, projects w !! n = Some d -> valid_Project d).

(** The status codes the application answers with. *)
Definition answer_codes : list nat := [200; 201; 400; 401; 404; 500]%nat.

(** A computation that always ends in a response with one of the
    [answer_codes], never in an exception. *)
Definition answers (m : M response) : Prop :=
  forall w, exists res w', m w = (Ok res, w') /\ In (status res) answer_codes.

(** ** Sample inputs *)

(** Two file parts of 10 KB, each sent after the text fields. *)
Definition text_fields : list string :=
  [ "title"; "description"; "category"; "projectTitle"; "studentName";
    "rollNo"; "department"; "year" ].

Definition sample_png : file_part := FilePart "image/png" 10240 text_fields.
Definition sample_zip : file_part := FilePart "application/zip" 10240 text_fields.

(** A PDF of exactly 50 MB. *)
Definition sample_50MB : file_part :=
  FilePart "application/pdf" (50 * 1024 * 1024) text_fields.

Definition sample_answer : upload_response :=
  {| secure_url := "https://res.cloudinary.com/demo/a.png";
     public_id := "portfolio/a" |}.

(** Cloudinary stores the file, destroy succeeds, the clock stands still. *)
Definition calm : oracle := Oracle (Some sample_answer) false 0 0.

(** As [calm], but one millisecond passes between the two [Date.now()]. *)
Definition ticking : oracle := Oracle (Some sample_answer) false 0 1.

(** The clock is set back by five milliseconds before it is read. *)
Definition set_back : oracle := Oracle None false (-5) 0.

(** As [calm], but [cloudinary.uploader.destroy] rejects. *)
Definition destroy_fails : oracle := Oracle (Some sample_answer) true 0 0.

Definition secret_env : env := Env (Some "s3cret").
Definition unset_env : env := Env None.

Definition sample_content : Content.t :=
  Content.Build 0 (Some "A") (Some "d") (Some "https://res.cloudinary.com/demo/old.png")
                (Some "image/png") (Some "portfolio/old") (Some "hobbies")
                1000 1000.

Definition sample_project : Project.t :=
  Project.Build 0 (Some "P") (Some "N") (Some "7") (Some "CS") (Some "2024")
                (Some "d") (Some "https://res.cloudinary.com/demo/old.pdf")
                (Some "application/pdf") (Some "portfolio/old") 1000 1000.

(** One content record and one project record, both under ObjectId 0 of
    their collection. *)
Definition sample_world : world :=
  World {[ 0%nat := sample_content ]} {[ 0%nat := sample_project ]} 1 1000 [].

(** Text fields of a create request for Content that leaves out [title]. *)
Definition fields_without_title : gmap string string :=
  {[ "description" := "d"; "category" := "hobbies" ]}.

(** Text fields of a complete create request for a Project. *)
Definition project_fields : gmap string string :=
  {[ "projectTitle" := "T"; "studentName" := "N"; "rollNo" := "7";
     "department" := "CS"; "year" := "2024"; "description" := "d" ]}.

(** Text fields of a complete create request for Content. *)
Definition content_fields : gmap string string :=
  {[ "title" := "A"; "description" := "d"; "category" := "hobbies" ]}.

(** POST /api/content with the right password, all fields and a PNG. *)
Definition create_content : request :=
  Request (Protected POST_content) (Some "s3cret") content_fields (Some sample_png).

(** The record that [create_content] creates in [empty_db 1000] when one
    millisecond passes between the two [Date.now()]. *)
Definition created_while_ticking : Content.t :=
  Content.Build 0 (Some "A") (Some "d")
                (Some "https://res.cloudinary.com/demo/a.png")
                (Some "image/png") (Some "portfolio/a") (Some "hobbies")
                1000 1001.

(** The record that [create_content] creates in [empty_db 1000] when the
    clock stands still. *)
Definition created_while_calm : Content.t :=
  Content.Build 0 (Some "A") (Some "d")
                (Some "https://res.cloudinary.com/demo/a.png")
                (Some "image/png") (Some "portfolio/a") (Some "hobbies")
                1000 1000.

(** * Properties *)

(** ** The scenarios of the specification, run on the model *)

Example scenario_create_content :
  exists d w',
    app secret_env calm create_content (empty_db 1000)
    = (Ok (Resp 201 (JContent d)), w') /\
    Content.category d = Some "hobbies" /\
    Content.fileType d = Some "image/png" /\
    contents w' !! 0%nat = Some d /\
    trace w' = [cloudinary_upload "portfolio/hobbies" "image";
                db_save ContentModel 0].
Proof. eexists _, _. split; [by vm_compute |]. by vm_compute. Qed.

Example scenario_create_with_zip :
  app secret_env calm
      (Request (Protected POST_content) (Some "s3cret") content_fields
               (Some sample_zip)) (empty_db 1000)
  = (Ok (Resp 500 (JError (Text
       "Invalid file type. Only images, videos, PDFs, and Word documents are allowed."))),
     World ∅ ∅ 0 1000 [console_error "Error:"]).
Proof. by vm_compute. Qed.

Example scenario_update_description_only :
  exists d w',
    app secret_env (Oracle None false 5 0)
        (Request (Protected (PUT_content (ObjectId 0))) (Some "s3cret")
                 {[ "description" := "new" ]} None) sample_world
    = (Ok (Resp 200 (JContent d)), w') /\
    Content.title d = Some "A" /\
    Content.description d = Some "new" /\
    Content.updatedAt d = 1005 /\
    Content.createdAt d = 1000 /\
    Content.fileUrl d = Content.fileUrl sample_content /\
    contents w' !! 0%nat = Some d.
Proof. eexists _, _. split; [by vm_compute |]. by vm_compute. Qed.

Example scenario_delete_project_while_destroy_fails :
  app secret_env destroy_fails
      (Request (Protected (DELETE_project (ObjectId 0))) (Some "s3cret") ∅ None)
      sample_world
  = (Ok (Resp 200 (JMessage "Project deleted successfully")),
     World {[ 0%nat := sample_content ]} ∅ 1 1000
           [ db_findById ProjectModel 0;
             cloudinary_destroy (Some "portfolio/old") "raw";
             console_error "Error deleting from Cloudinary:";
             db_findByIdAndDelete ProjectModel 0 ]).
Proof. by vm_compute. Qed.

(** ** Helper lemmas *)

Lemma strict_eq_true (a b : option string) : strict_eq a b = true <-> a = b.
Proof. unfold strict_eq. apply bool_decide_eq_true. Qed.

Lemma strict_eq_false (a b : option string) : strict_eq a b = false <-> a <> b.
Proof. unfold strict_eq. apply bool_decide_eq_false. Qed.

Lemma array_includes_In (arr : list string) (x : string) :
  array_includes arr x = true <-> In x arr.
Proof.
  unfold array_includes. rewrite existsb_exists. split.
  - intros (y & Hy & Heq). apply String.eqb_eq in Heq. by subst.
  - intros Hx. exists x. split; [done | apply String.eqb_refl].
Qed.

Arguments invalid_paths : simpl never.
Arguments newest_first : simpl never.

Ltac unfold_chain :=
  unfold app, authenticate, after_authenticate,
    post_content, put_content, delete_content,
    post_project, put_project, delete_project,
    get_content_by_category, get_content_item, get_projects, get_project,
    verify_admin, error_middleware, respond_500, make_req.

Ltac unfold_M :=
  unfold new_Content, new_Project, Content_save, Project_save,
    Content_findById, Project_findById,
    Content_findByIdAndDelete, Project_findByIdAndDelete,
    Content_find_by_category, Project_find_all,
    deleteFromCloudinary, cloudinary_uploader_destroy, getResourceType,
    storage_removeFile, validate, Date_now, new_ObjectId, emit, gets, set_contents, set_projects,
    try_catch, throw, mbind, M_bind, mret, M_ret.

(** The upload stage, case by case. *)

Lemma calls_since_trace (w w' : world) (t : list event) :
  trace w' = trace w ++ t -> calls_since w w' = t.
Proof. intros H. unfold calls_since. by rewrite H, drop_app_length. Qed.

Lemma upload_single_no_file (o : oracle) (r : req) (w : world) :
  incoming r = None -> upload_single o r w = (Ok r, w).
Proof. intros H. unfold upload_single. by rewrite H. Qed.

Lemma upload_single_bad_type (o : oracle) (r : req) (f : file_part) (w : world) :
  incoming r = Some f ->
  array_includes allowedTypes (part_mimetype f) = false ->
  upload_single o r w
  = (Throw (Error
      "Invalid file type. Only images, videos, PDFs, and Word documents are allowed."),
     w).
Proof.
  intros H Hty. unfold upload_single, fileFilter. by rewrite H, Hty.
Qed.

Lemma upload_single_too_large (o : oracle) (r : req) (f : file_part) (w : world) :
  incoming r = Some f ->
  array_includes allowedTypes (part_mimetype f) = true ->
  limits_fileSize <= part_size f ->
  upload_single o r w
  = (Throw (MulterError "LIMIT_FILE_SIZE"),
     World (contents w) (projects w) (next_id w) (clock w)
           (trace w ++ [upload_call r f; cloudinary_remove (public_id <$> uploaded o)])).
Proof.
  intros H Hty Hsz. unfold upload_single, fileFilter. rewrite H, Hty.
  unfold_M. cbn. rewrite bool_decide_eq_true_2 by done. cbn.
  by rewrite <- app_assoc.
Qed.

Lemma upload_single_stored (o : oracle) (r : req) (f : file_part)
    (resp : upload_response) (w : world) :
  incoming r = Some f ->
  array_includes allowedTypes (part_mimetype f) = true ->
  part_size f < limits_fileSize ->
  uploaded o = Some resp ->
  upload_single o r w
  = (Ok (Req (baseUrl r) (headers_x_admin_password r) (body r) (incoming r)
             (Some (File (secure_url resp) (part_mimetype f) (public_id resp)))),
     World (contents w) (projects w) (next_id w) (clock w)
           (trace w ++ [upload_call r f])).
Proof.
  intros H Hty Hsz Hup. unfold upload_single, fileFilter. rewrite H, Hty.
  unfold_M. cbn. rewrite bool_decide_eq_false_2 by lia. by rewrite Hup.
Qed.

Lemma upload_single_rejected_by_store (o : oracle) (r : req) (f : file_part)
    (w : world) :
  incoming r = Some f ->
  array_includes allowedTypes (part_mimetype f) = true ->
  part_size f < limits_fileSize ->
  uploaded o = None ->
  upload_single o r w
  = (Throw CloudinaryError,
     World (contents w) (projects w) (next_id w) (clock w)
           (trace w ++ [upload_call r f])).
Proof.
  intros H Hty Hsz Hup. unfold upload_single, fileFilter. rewrite H, Hty.
  unfold_M. cbn. rewrite bool_decide_eq_false_2 by lia. by rewrite Hup.
Qed.

(** ** C5: which files the upload stage takes *)

(** C5.  A file is refused by the upload stage exactly when its declared
    MIME type is not one of the eight listed types or its size reaches
    50 MB (52428800 bytes): the largest file taken has 52428799 bytes.  A
    file of a listed type below that size is placed in [req.file] once
    Cloudinary has stored it; a file of a listed type that reaches it is
    refused with LIMIT_FILE_SIZE after the upload was opened, and what was
    stored of it is removed again; and a file of any other type is refused
    with the world untouched, so before any call to Cloudinary. *)
Theorem upload_accepts_listed_types_below_50MB
    (o : oracle) (r : req) (f : file_part) (w : world) :
  incoming r = Some f ->
  let listed :=
    In (part_mimetype f)
       [ "image/jpeg"; "image/png"; "image/gif"; "video/mp4"; "video/webm";
         "application/pdf"; "application/msword";
         "application/vnd.openxmlformats-officedocument.wordprocessingml.document" ] in
  (listed /\ part_size f < 52428800 <-> ~ refused (upload_single o r w).1) /\
  (listed -> part_size f < 52428800 ->
   forall resp, uploaded o = Some resp ->
     exists r' w',
       upload_single o r w = (Ok r', w') /\
       req_file r' = Some (File (secure_url resp) (part_mimetype f) (public_id resp))) /\
  (listed -> 52428800 <= part_size f ->
   (upload_single o r w).1 = Throw (MulterError "LIMIT_FILE_SIZE") /\
   calls_since w (upload_single o r w).2
   = [upload_call r f; cloudinary_remove (public_id <$> uploaded o)]) /\
  (~ listed -> refused (upload_single o r w).1 /\ (upload_single o r w).2 = w).
Proof.
  intros Hin listed.
  assert (Hl : listed <-> array_includes allowedTypes (part_mimetype f) = true)
    by (symmetry; apply array_includes_In).
  change 52428800 with limits_fileSize.
  split; [split | split; [| split]].
  - intros [Hty Hsz]. apply Hl in Hty.
    destruct (uploaded o) as [resp|] eqn:Hup.
    + rewrite (upload_single_stored o r f resp w) by done.
      intros [H | H]; discriminate.
    + rewrite (upload_single_rejected_by_store o r f w) by done.
      intros [H | H]; discriminate.
  - intros Hnot.
    destruct (array_includes allowedTypes (part_mimetype f)) eqn:Hty.
    + split; [by apply Hl |].
      destruct (Z_lt_ge_dec (part_size f) limits_fileSize) as [|Hge]; [done |].
      exfalso. apply Hnot. right.
      rewrite (upload_single_too_large o r f w) by (done || lia). reflexivity.
    + exfalso. apply Hnot. left.
      rewrite (upload_single_bad_type o r f w) by done. reflexivity.
  - intros Hty Hsz resp Hup. apply Hl in Hty.
    eexists _, _. split; [by apply upload_single_stored |]. reflexivity.
  - intros Hty Hsz. apply Hl in Hty.
    rewrite (upload_single_too_large o r f w) by done.
    split; [done |]. by apply calls_since_trace.
  - intros Hnot.
    assert (Hty : array_includes allowedTypes (part_mimetype f) = false).
    { destruct (array_includes allowedTypes (part_mimetype f)) eqn:E; [|done].
      exfalso. apply Hnot. by apply Hl. }
    rewrite (upload_single_bad_type o r f w) by done. split; [by left | done].
Qed.

Lemma upload_accepts_listed_types_below_50MB_witness :
  incoming (Req EmptyString None ∅ (Some sample_png) None) = Some sample_png /\
  exists r' w',
    upload_single calm (Req EmptyString None ∅ (Some sample_png) None) sample_world
    = (Ok r', w') /\
    req_file r'
    = Some (File "https://res.cloudinary.com/demo/a.png" "image/png" "portfolio/a").
Proof.
  split; [reflexivity |].
  refine (proj1 (proj2
    (upload_accepts_listed_types_below_50MB calm
       (Req EmptyString None ∅ (Some sample_png) None) sample_png sample_world
       eq_refl)) _ _ sample_answer eq_refl).
  - simpl. tauto.
  - simpl. lia.
Defined.

(** C5 as stated fails at the bound: a PDF of exactly 50 MB does not exceed
    50 MB and has a listed type, yet the upload stage refuses it with
    LIMIT_FILE_SIZE, removes what Cloudinary stored of it, and the create
    request that carried it is answered 500 with nothing saved. *)
Lemma file_of_exactly_50MB_is_refused_counterexample :
  let r := Req EmptyString (Some "s3cret") content_fields (Some sample_50MB) None in
  let rq := Request (Protected POST_content) (Some "s3cret") content_fields
                    (Some sample_50MB) in
  array_includes allowedTypes (part_mimetype sample_50MB) = true /\
  part_size sample_50MB <= 52428800 /\
  refused (upload_single calm r (empty_db 1000)).1 /\
  (upload_single calm r (empty_db 1000)).1 = Throw (MulterError "LIMIT_FILE_SIZE") /\
  trace (upload_single calm r (empty_db 1000)).2
  = [ cloudinary_upload "portfolio/hobbies" "raw";
      cloudinary_remove (Some "portfolio/a") ] /\
  (app secret_env calm rq (empty_db 1000)).1
  = Ok (Resp 500 (JError (MessageOf (MulterError "LIMIT_FILE_SIZE")))) /\
  contents (app secret_env calm rq (empty_db 1000)).2 = ∅.
Proof.
  cbv zeta. split; [reflexivity |]. split; [by vm_compute |].
  split; [right; by vm_compute |]. by vm_compute.
Qed.

(** The create handlers, once [req.file] is set. *)

Lemma post_content_with_file (o : oracle) (r : req) (f : file) (w : world) :
  req_file r = Some f ->
  let d := Content.Build (next_id w) (body r !! "title")
             (body r !! "description") (Some (path f)) (Some (mimetype f))
             (Some (filename f)) (body r !! "category")
             (clock w + elapsed1 o) (clock w + elapsed1 o + elapsed2 o) in
  post_content o r w
  = match invalid_paths (Content.required d) with
    | [] =>
      (Ok (Resp 201 (JContent d)),
       World (<[next_id w := d]> (contents w)) (projects w) (S (next_id w))
             (clock w + elapsed1 o + elapsed2 o)
             (trace w ++ [db_save ContentModel (next_id w)]))
    | paths =>
      (Ok (Resp 500 (JError (MessageOf (ValidationError ContentModel paths)))),
       World (contents w) (projects w) (S (next_id w))
             (clock w + elapsed1 o + elapsed2 o) (trace w))
    end.
Proof.
  intros Hf d. unfold post_content. rewrite Hf. unfold_M. cbn. fold d.
  destruct (invalid_paths (Content.required d)); reflexivity.
Qed.

Lemma post_project_with_file (o : oracle) (r : req) (f : file) (w : world) :
  req_file r = Some f ->
  let d := Project.Build (next_id w) (body r !! "projectTitle")
             (body r !! "studentName") (body r !! "rollNo")
             (body r !! "department") (body r !! "year")
             (body r !! "description") (Some (path f)) (Some (mimetype f))
             (Some (filename f))
             (clock w + elapsed1 o) (clock w + elapsed1 o + elapsed2 o) in
  post_project o r w
  = match invalid_paths (Project.required d) with
    | [] =>
      (Ok (Resp 201 (JProject d)),
       World (contents w) (<[next_id w := d]> (projects w)) (S (next_id w))
             (clock w + elapsed1 o + elapsed2 o)
             (trace w ++ [db_save ProjectModel (next_id w)]))
    | paths =>
      (Ok (Resp 500 (JError (MessageOf (ValidationError ProjectModel paths)))),
       World (contents w) (projects w) (S (next_id w))
             (clock w + elapsed1 o + elapsed2 o) (trace w))
    end.
Proof.
  intros Hf d. unfold post_project. rewrite Hf. unfold_M. cbn. fold d.
  destruct (invalid_paths (Project.required d)); reflexivity.
Qed.

(** The gate in front of a protected route. *)

Lemma app_unauthorized (e : env) (o : oracle) (p : protected_route)
    (hdr : option string) (flds : gmap string string) (att : option file_part)
    (w : world) :
  hdr <> ADMIN_PASSWORD e ->
  app e o (Request (Protected p) hdr flds att) w = (Ok Unauthorized, w).
Proof.
  intros H. apply strict_eq_false in H.
  unfold app, authenticate, try_catch. cbn. by rewrite H.
Qed.

Lemma app_authorized (e : env) (o : oracle) (p : protected_route)
    (hdr : option string) (flds : gmap string string) (att : option file_part)
    (w : world) :
  hdr = ADMIN_PASSWORD e ->
  app e o (Request (Protected p) hdr flds att) w
  = try_catch (after_authenticate o p (Req EmptyString hdr flds att None))
              error_middleware w.
Proof.
  intros H. apply strict_eq_true in H.
  unfold app, authenticate. cbn. by rewrite H.
Qed.

Lemma invalid_paths_In (required : list (string * option string))
    (name : string) (v : option string) :
  In (name, v) required -> truthy v = false -> In name (invalid_paths required).
Proof.
  intros Hin Hv. unfold invalid_paths.
  apply list_elem_of_In, list_elem_of_fmap. exists (name, v). split; [done |].
  apply list_elem_of_filter. split; [done | by apply list_elem_of_In].
Qed.

(** ** C10: a create that omits a required text field *)

(** C10.  A create request that passes the gate and carries a file that is
    accepted and stored, but omits a text field the schema requires, is
    answered 500 with the message of the ValidationError raised by
    [save()], which names the omitted path; neither collection changes.
    The handler itself never looks at the text fields. *)
Theorem create_with_omitted_text_field
    (e : env) (o : oracle) (hdr : option string) (flds : gmap string string)
    (mt : string) (sz : Z) (before : list string) (resp : upload_response)
    (w : world) (name : string) :
  hdr = ADMIN_PASSWORD e ->
  array_includes allowedTypes mt = true ->
  sz < limits_fileSize ->
  uploaded o = Some resp ->
  flds !! name = None ->
  (In name ["title"; "description"; "category"] ->
   exists paths w',
     In name paths /\
     app e o (Request (Protected POST_content) hdr flds (Some (FilePart mt sz before))) w
     = (Ok (Resp 500 (JError (MessageOf (ValidationError ContentModel paths)))),
        w') /\
     contents w' = contents w /\ projects w' = projects w) /\
  (In name ["projectTitle"; "studentName"; "rollNo"; "department"; "year";
            "description"] ->
   exists paths w',
     In name paths /\
     app e o (Request (Protected POST_projects) hdr flds (Some (FilePart mt sz before))) w
     = (Ok (Resp 500 (JError (MessageOf (ValidationError ProjectModel paths)))),
        w') /\
     contents w' = contents w /\ projects w' = projects w).
Proof.
  intros Hauth Hty Hsz Hup Hnone. split; intros Hname.
  - rewrite app_authorized by done. unfold after_authenticate.
    unfold try_catch at 1, mbind, M_bind.
    rewrite (upload_single_stored o _ (FilePart mt sz before) resp) by done.
    erewrite post_content_with_file by reflexivity. cbn [body path mimetype filename].
    match goal with |- context [invalid_paths ?l] =>
      assert (Hp : In name (invalid_paths l)) end.
    { simpl in Hname.
      destruct Hname as [<- | [<- | [<- | []]]];
        (eapply invalid_paths_In;
         [ simpl; repeat (first [left; reflexivity | right])
         | simpl; by rewrite Hnone ]). }
    match goal with |- context [invalid_paths ?l] =>
      destruct (invalid_paths l) as [|p0 ps] eqn:E end; [destruct Hp |].
    eexists _, _. split; [exact Hp |]. split; [reflexivity |]. done.
  - rewrite app_authorized by done. unfold after_authenticate.
    unfold try_catch at 1, mbind, M_bind.
    rewrite (upload_single_stored o _ (FilePart mt sz before) resp) by done.
    erewrite post_project_with_file by reflexivity. cbn [body path mimetype filename].
    match goal with |- context [invalid_paths ?l] =>
      assert (Hp : In name (invalid_paths l)) end.
    { simpl in Hname.
      destruct Hname as [<- | [<- | [<- | [<- | [<- | [<- | []]]]]]];
        (eapply invalid_paths_In;
         [ simpl; repeat (first [left; reflexivity | right])
         | simpl; by rewrite Hnone ]). }
    match goal with |- context [invalid_paths ?l] =>
      destruct (invalid_paths l) as [|p0 ps] eqn:E end; [destruct Hp |].
    eexists _, _. split; [exact Hp |]. split; [reflexivity |]. done.
Qed.

Lemma create_with_omitted_text_field_witness :
  exists paths w',
    In "title" paths /\
    app secret_env calm
        (Request (Protected POST_content) (Some "s3cret") fields_without_title
                 (Some (FilePart "image/png" 10240 []))) sample_world
    = (Ok (Resp 500 (JError (MessageOf (ValidationError ContentModel paths)))),
       w') /\
    contents w' = contents sample_world /\ projects w' = projects sample_world.
Proof.
  refine (proj1 (create_with_omitted_text_field secret_env calm (Some "s3cret")
            fields_without_title "image/png" 10240 [] sample_answer sample_world
            "title" eq_refl eq_refl _ eq_refl eq_refl) _).
  - unfold limits_fileSize. lia.
  - simpl. tauto.
Defined.

(** ** C1: the access gate *)

(** C1, as amended.  On every protected route the gate compares the
    [x-admin-password] header, absent or not, with the configured secret,
    absent or not.  When the two differ the answer is 401
    [{error: "Unauthorized"}] and the world is untouched: no upload, no
    database call, nothing logged.  When they are equal the rest of the
    chain runs.  So a missing header is rejected whenever a secret is
    configured. *)
Theorem authenticate_gate (e : env) (o : oracle) (p : protected_route)
    (hdr : option string) (flds : gmap string string) (att : option file_part)
    (w : world) :
  let rq := Request (Protected p) hdr flds att in
  (hdr <> ADMIN_PASSWORD e -> app e o rq w = (Ok Unauthorized, w)) /\
  (hdr = ADMIN_PASSWORD e ->
   app e o rq w
   = try_catch (after_authenticate o p (make_req rq)) error_middleware w) /\
  (forall next : M response,
     authenticate e (make_req rq) next
     = if bool_decide (hdr = ADMIN_PASSWORD e) then next else mret Unauthorized) /\
  (forall secret, ADMIN_PASSWORD e = Some secret -> hdr = None ->
     app e o rq w = (Ok Unauthorized, w)).
Proof.
  intros rq. repeat split.
  - apply app_unauthorized.
  - apply app_authorized.
  - intros secret Hs ->. apply app_unauthorized. by rewrite Hs.
Qed.

Lemma authenticate_gate_witness :
  app secret_env calm
      (Request (Protected (DELETE_content (ObjectId 0))) (Some "guess") ∅ None)
      sample_world
  = (Ok Unauthorized, sample_world) /\
  app secret_env calm
      (Request (Protected (DELETE_content (ObjectId 0))) None ∅ None)
      sample_world
  = (Ok Unauthorized, sample_world).
Proof.
  split.
  - apply (proj1 (authenticate_gate secret_env calm (DELETE_content (ObjectId 0))
                    (Some "guess") ∅ None sample_world)).
    discriminate.
  - apply (proj2 (proj2 (proj2
             (authenticate_gate secret_env calm (DELETE_content (ObjectId 0))
                None ∅ None sample_world))) "s3cret"); reflexivity.
Defined.

(** C1 as stated fails: with no secret configured, a DELETE that carries no
    [x-admin-password] header is not answered 401; the record is looked up,
    its file destroyed on Cloudinary and the record deleted. *)
Lemma missing_header_passes_counterexample :
  let rq := Request (Protected (DELETE_content (ObjectId 0))) None ∅ None in
  x_admin_password rq = None /\
  app unset_env calm rq sample_world <> (Ok Unauthorized, sample_world) /\
  (app unset_env calm rq sample_world).1
  = Ok (Resp 200 (JMessage "Content deleted successfully")) /\
  trace (app unset_env calm rq sample_world).2
  = [ db_findById ContentModel 0;
      cloudinary_destroy (Some "portfolio/old") "image";
      console_log "Deleted file from Cloudinary: portfolio/old";
      db_findByIdAndDelete ContentModel 0 ] /\
  contents (app unset_env calm rq sample_world).2 !! 0%nat = None.
Proof.
  cbv zeta. split; [reflexivity |]. split; [| by vm_compute].
  intros H. apply (f_equal fst) in H. vm_compute in H. discriminate.
Qed.

(** ** C9: no secret configured *)

(** C9.  When ADMIN_PASSWORD is undefined, a request to a protected route
    without the [x-admin-password] header passes the gate (both sides of
    [===] are undefined) and the rest of its chain runs; and
    POST /api/verify-admin with no [password] field answers
    [{valid: true}]. *)
Theorem unset_secret_admits_missing_credential
    (e : env) (o : oracle) (p : protected_route)
    (flds : gmap string string) (att : option file_part) (w : world) :
  ADMIN_PASSWORD e = None ->
  let rq := Request (Protected p) None flds att in
  (forall next : M response, authenticate e (make_req rq) next = next) /\
  app e o rq w
  = try_catch (after_authenticate o p (make_req rq)) error_middleware w /\
  (flds !! "password" = None ->
   forall hdr,
     app e o (Request POST_verify_admin hdr flds att) w
     = (Ok (Resp 200 (JValid true)), w)).
Proof.
  intros He rq. repeat split.
  - intros next. unfold authenticate, rq. cbn. rewrite He. reflexivity.
  - apply app_authorized. by rewrite He.
  - intros Hpw hdr. unfold_chain. cbn. rewrite Hpw, He. reflexivity.
Qed.

Lemma unset_secret_admits_missing_credential_witness :
  ADMIN_PASSWORD unset_env = None /\
  app unset_env calm (Request POST_verify_admin None ∅ None) sample_world
  = (Ok (Resp 200 (JValid true)), sample_world).
Proof.
  split; [reflexivity |].
  refine (proj2 (proj2
    (unset_secret_admits_missing_credential unset_env calm POST_content ∅ None
       sample_world eq_refl)) _ None).
  reflexivity.
Defined.

(** ** C7: create without a file *)

(** C7.  A create request (Content or Project) that passes the gate but
    carries no file is answered 400 [{error: "No file uploaded"}]; the
    world is left as it was, so no record is persisted. *)
Theorem create_without_file (e : env) (o : oracle) (p : protected_route)
    (hdr : option string) (flds : gmap string string) (w : world) :
  p = POST_content \/ p = POST_projects ->
  hdr = ADMIN_PASSWORD e ->
  app e o (Request (Protected p) hdr flds None) w
  = (Ok (Resp 400 (JError (Text "No file uploaded"))), w).
Proof.
  intros Hp H. rewrite app_authorized by done.
  destruct Hp as [-> | ->]; reflexivity.
Qed.

Lemma create_without_file_witness :
  app secret_env calm
      (Request (Protected POST_content) (Some "s3cret") fields_without_title None)
      sample_world
  = (Ok (Resp 400 (JError (Text "No file uploaded"))), sample_world).
Proof.
  apply (create_without_file secret_env calm POST_content (Some "s3cret")
           fields_without_title sample_world (or_introl eq_refl) eq_refl).
Defined.

(** ** C8: listing by category *)

Lemma not_older_trans {A : Type} (createdAt : A -> Z) :
  Transitive (not_older createdAt).
Proof. unfold not_older. intros a b c Hab Hbc. lia. Qed.

Lemma not_older_total {A : Type} (createdAt : A -> Z) :
  Total (not_older createdAt).
Proof. unfold not_older. intros a b. lia. Qed.

Lemma newest_first_sorted {A : Type} (createdAt : A -> Z) (l : list A) :
  StronglySorted (fun a b => createdAt b <= createdAt a)
                 (newest_first createdAt l).
Proof.
  unfold newest_first.
  apply (@StronglySorted_merge_sort _ (not_older createdAt) _
           (not_older_trans createdAt) (not_older_total createdAt)).
Qed.

Lemma newest_first_Permutation {A : Type} (createdAt : A -> Z) (l : list A) :
  newest_first createdAt l ≡ₚ l.
Proof. unfold newest_first. apply merge_sort_Permutation. Qed.

Lemma elem_of_stored_contents (w : world) (d : Content.t) :
  d ∈ stored_contents w <-> exists n, contents w !! n = Some d.
Proof.
  unfold stored_contents. rewrite list_elem_of_fmap. split.
  - intros ([n d'] & -> & Hin). exists n. by apply elem_of_map_to_list.
  - intros (n & Hn). exists (n, d). split; [done |]. by apply elem_of_map_to_list.
Qed.

(** C8.  GET /api/content/:category answers 200 with a list that holds
    exactly the stored Content records whose category is the requested one
    (the same records, each as often as it is stored), newest first by
    createdAt; the collection is left as it was. *)
Theorem list_by_category_newest_first
    (e : env) (o : oracle) (hdr : option string) (flds : gmap string string)
    (att : option file_part) (w : world) (category : string) :
  exists l w',
    app e o (Request (GET_content_category category) hdr flds att) w
    = (Ok (Resp 200 (JContents l)), w') /\
    contents w' = contents w /\
    l ≡ₚ filter (fun d => Content.category d = Some category)
                (stored_contents w) /\
    (forall d, In d l <->
       (exists n, contents w !! n = Some d) /\
       Content.category d = Some category) /\
    StronglySorted (fun a b => Content.createdAt b <= Content.createdAt a) l.
Proof.
  eexists _, _. split; [reflexivity |]. cbn [contents].
  split; [reflexivity |].
  split; [apply newest_first_Permutation |].
  split; [| apply newest_first_sorted].
  intros d. rewrite <- list_elem_of_In, newest_first_Permutation.
  rewrite list_elem_of_filter, <- elem_of_stored_contents. tauto.
Qed.

(** ** The trace only grows *)

Section Appends.
Context {A B : Type}.

Lemma appends_ret (a : A) : appends (mret a : M A).
Proof. intros w. exists []. cbn. by rewrite app_nil_r. Qed.

Lemma appends_throw (e : error) : appends (throw e : M A).
Proof. intros w. exists []. cbn. by rewrite app_nil_r. Qed.

Lemma appends_bind (m : M A) (k : A -> M B) :
  appends m -> (forall a, appends (k a)) -> appends (m ≫= k).
Proof.
  intros Hm Hk w. unfold mbind, M_bind. destruct (Hm w) as [t Ht].
  destruct (m w) as [[a | e] w1]; cbn in *.
  - destruct (Hk a w1) as [t' Ht']. exists (t ++ t').
    by rewrite Ht', Ht, app_assoc.
  - by exists t.
Qed.

Lemma appends_try_catch (m : M A) (h : error -> M A) :
  appends m -> (forall e, appends (h e)) -> appends (try_catch m h).
Proof.
  intros Hm Hh w. unfold try_catch. destruct (Hm w) as [t Ht].
  destruct (m w) as [[a | e] w1]; cbn in *.
  - by exists t.
  - destruct (Hh e w1) as [t' Ht']. exists (t ++ t').
    by rewrite Ht', Ht, app_assoc.
Qed.

Lemma appends_gets (f : world -> A) : appends (gets f).
Proof. intros w. exists []. cbn. by rewrite app_nil_r. Qed.
End Appends.

Lemma appends_emit (ev : event) : appends (emit ev).
Proof. intros w. by exists [ev]. Qed.

Lemma appends_Date_now (dt : Z) : appends (Date_now dt).
Proof. intros w. exists []. cbn. by rewrite app_nil_r. Qed.

Lemma appends_new_ObjectId : appends new_ObjectId.
Proof. intros w. exists []. cbn. by rewrite app_nil_r. Qed.

Lemma appends_set_contents f : appends (set_contents f).
Proof. intros w. exists []. cbn. by rewrite app_nil_r. Qed.

Lemma appends_set_projects f : appends (set_projects f).
Proof. intros w. exists []. cbn. by rewrite app_nil_r. Qed.

Ltac appends_step :=
  first
    [ apply appends_bind | apply appends_try_catch
    | apply appends_ret | apply appends_throw | apply appends_gets
    | apply appends_emit | apply appends_Date_now | apply appends_new_ObjectId
    | apply appends_set_contents | apply appends_set_projects
    | match goal with
      | |- appends (match ?x with _ => _ end) => destruct x
      | |- appends (if ?x then _ else _) => destruct x
      end
    | intro ].

Lemma appends_deleteFromCloudinary (o : oracle) publicId resourceType :
  appends (deleteFromCloudinary o publicId resourceType).
Proof.
  unfold deleteFromCloudinary, cloudinary_uploader_destroy.
  repeat appends_step.
Qed.

Lemma appends_post_project (o : oracle) (r : req) : appends (post_project o r).
Proof.
  unfold post_project, respond_500, new_Project, Project_save, validate.
  repeat appends_step.
Qed.

Lemma appends_put_project (o : oracle) (id : id_param) (r : req) :
  appends (put_project o id r).
Proof.
  unfold put_project, respond_500, Project_findById, Project_save, validate,
    getResourceType.
  repeat first [apply appends_deleteFromCloudinary | appends_step].
Qed.

Lemma appends_error_middleware (e : error) : appends (error_middleware e).
Proof. unfold error_middleware. repeat appends_step. Qed.

(** ** C3: the folder an upload is stored in *)

Lemma body_so_far_seen (f : file_part) (m : gmap string string) (k : string) :
  k ∈ sent_before f -> body_so_far f m !! k = m !! k.
Proof.
  intros Hk. unfold body_so_far. apply option_eq. intros v.
  rewrite map_lookup_filter_Some. cbn. by split; [intros [? _] | intros ?].
Qed.

Lemma body_so_far_unseen (f : file_part) (m : gmap string string) (k : string) :
  k ∉ sent_before f -> body_so_far f m !! k = None.
Proof.
  intros Hk. unfold body_so_far. apply map_lookup_filter_None.
  right. intros v _ Hin. by apply Hk.
Qed.

Lemma upload_single_first_call (o : oracle) (r : req) (f : file_part) (w : world) :
  incoming r = Some f ->
  array_includes allowedTypes (part_mimetype f) = true ->
  exists rest, trace (upload_single o r w).2 = trace w ++ upload_call r f :: rest.
Proof.
  intros Hin Hty.
  destruct (Z_lt_ge_dec (part_size f) limits_fileSize) as [Hsz | Hsz].
  - destruct (uploaded o) as [resp |] eqn:Hup.
    + rewrite (upload_single_stored o r f resp w) by done. by eexists.
    + rewrite (upload_single_rejected_by_store o r f w) by done. by eexists.
  - rewrite (upload_single_too_large o r f w) by (done || lia). by eexists.
Qed.

Lemma calls_after_upload (o : oracle) (r : req) (f : file_part)
    (k : req -> M response) (w : world) :
  incoming r = Some f ->
  array_includes allowedTypes (part_mimetype f) = true ->
  (forall r', appends (k r')) ->
  exists rest,
    calls_since w (try_catch (upload_single o r ≫= k) error_middleware w).2
    = upload_call r f :: rest.
Proof.
  intros Hin Hty Hk.
  destruct (upload_single_first_call o r f w Hin Hty) as [rest Hup].
  assert (Hall : exists t,
            trace (try_catch (upload_single o r ≫= k) error_middleware w).2
            = trace (upload_single o r w).2 ++ t).
  { unfold try_catch, mbind, M_bind.
    destruct (upload_single o r w) as [[r' | err] w1]; cbn [snd].
    - destruct (Hk r' w1) as [t Ht].
      destruct (k r' w1) as [[res | err] w2]; cbn [snd] in *.
      + by exists t.
      + destruct (appends_error_middleware err w2) as [t' Ht'].
        exists (t ++ t'). by rewrite Ht', Ht, app_assoc.
    - apply appends_error_middleware. }
  destruct Hall as [t Ht]. exists (rest ++ t). unfold calls_since.
  rewrite Ht, Hup, <- app_assoc. by rewrite drop_app_length.
Qed.

(** C3, on the code.  Every route is registered on [app] itself, so
    [req.baseUrl] is the empty string and never includes 'projects': for a
    request to POST /api/projects or PUT /api/projects/:id that passes the
    gate with a file of a listed type, the first call made is the Cloudinary
    upload, and its folder is never "portfolio/projects"; it is
    "portfolio/curriculum" or "portfolio/hobbies" when the body has that
    category in a field sent before the file, and the generic "portfolio"
    otherwise, also when the category comes after the file. *)
Theorem project_upload_folder
    (e : env) (o : oracle) (p : protected_route) (hdr : option string)
    (flds : gmap string string) (f : file_part) (w : world) :
  p = POST_projects \/ (exists id, p = PUT_project id) ->
  hdr = ADMIN_PASSWORD e ->
  array_includes allowedTypes (part_mimetype f) = true ->
  let rq := Request (Protected p) hdr flds (Some f) in
  let params := storage_params (when_file_arrives (make_req rq) f) f in
  (exists rest,
     calls_since w (app e o rq w).2
     = cloudinary_upload (folder params) (resource_type params) :: rest) /\
  folder params <> "portfolio/projects" /\
  ("category" ∈ sent_before f ->
   folder params
   = (if bool_decide (flds !! "category" = Some "curriculum")
      then "portfolio/curriculum"
      else if bool_decide (flds !! "category" = Some "hobbies")
           then "portfolio/hobbies"
           else "portfolio")) /\
  ("category" ∉ sent_before f -> folder params = "portfolio").
Proof.
  intros Hp Hauth Hty rq params. split; [| split; [| split]].
  - unfold rq. rewrite app_authorized by done.
    destruct Hp as [-> | [id ->]]; cbn [after_authenticate];
      apply calls_after_upload; try done; intros r'.
    + apply appends_post_project.
    + apply appends_put_project.
  - unfold params, storage_params, strict_eq. cbn.
    repeat case_bool_decide; discriminate.
  - intros Hseen. unfold params, storage_params, strict_eq. cbn.
    by rewrite body_so_far_seen.
  - intros Hseen. unfold params, storage_params, strict_eq. cbn.
    by rewrite body_so_far_unseen.
Qed.

Lemma project_upload_folder_witness :
  exists rest,
    calls_since sample_world
      (app secret_env calm
           (Request (Protected POST_projects) (Some "s3cret") project_fields
                    (Some sample_png)) sample_world).2
    = cloudinary_upload "portfolio" "image" :: rest.
Proof.
  apply (proj1 (project_upload_folder secret_env calm POST_projects
                  (Some "s3cret") project_fields sample_png sample_world
                  (or_introl eq_refl) eq_refl eq_refl)).
Defined.

(** ** The update and delete handlers, case by case *)

Lemma getResourceType_Some (ft : string) (w : world) :
  getResourceType (Some ft) w = (Ok (resource_kind ft), w).
Proof.
  unfold getResourceType, resource_kind.
  destruct (startsWith ft "video/"); [done |].
  destruct (startsWith ft "image/"); done.
Qed.

Lemma deleteFromCloudinary_run (o : oracle) (publicId : option string)
    (resourceType : string) (w : world) :
  deleteFromCloudinary o publicId resourceType w
  = (Ok tt,
     World (contents w) (projects w) (next_id w) (clock w)
           (trace w ++ [cloudinary_destroy publicId resourceType;
                        destroy_report o publicId])).
Proof.
  unfold deleteFromCloudinary, cloudinary_uploader_destroy, destroy_report.
  unfold_M. cbn. destruct (destroy_throws o); cbn; by rewrite <- app_assoc.
Qed.

Lemma put_content_found (o : oracle) (n : nat) (r : req) (was : Content.t)
    (w : world) :
  contents w !! n = Some was ->
  (req_file r = None \/ is_Some (Content.fileType was)) ->
  let d := updated_Content r (clock w + elapsed1 o) was in
  let t := trace w ++ [db_findById ContentModel n] ++
           match req_file r, Content.fileType was with
           | Some _, Some ft =>
             [cloudinary_destroy (Content.publicId was) (resource_kind ft);
              destroy_report o (Content.publicId was)]
           | _, _ => []
           end in
  put_content o (ObjectId n) r w
  = match invalid_paths (Content.required d) with
    | [] =>
      (Ok (Resp 200 (JContent d)),
       World (<[Content._id was := d]> (contents w)) (projects w) (next_id w)
             (clock w + elapsed1 o)
             (t ++ [db_save ContentModel (Content._id was)]))
    | paths =>
      (Ok (Resp 500 (JError (MessageOf (ValidationError ContentModel paths)))),
       World (contents w) (projects w) (next_id w) (clock w + elapsed1 o) t)
    end.
Proof.
  intros Hw Hf d t. unfold put_content, respond_500, Content_findById, Content_save,
    validate, Date_now, emit, gets, set_contents.
  unfold try_catch, mbind, M_bind, mret, M_ret. cbn. rewrite Hw.
  subst d t. unfold updated_Content.
  destruct (req_file r) as [file |] eqn:Hfile.
  - destruct Hf as [Hf | [ft Hft]]; [discriminate |].
    cbn. rewrite Hft. rewrite getResourceType_Some.
    rewrite deleteFromCloudinary_run. cbn.
    match goal with |- context [invalid_paths ?l] =>
      destruct (invalid_paths l) end; cbn;
      rewrite <- ?app_assoc; reflexivity.
  - cbn.
    match goal with |- context [invalid_paths ?l] =>
      destruct (invalid_paths l) end; cbn;
      rewrite <- ?app_assoc; try reflexivity.
    all: destruct (Content.fileType was); cbn; rewrite ?app_nil_r; reflexivity.
Qed.

Lemma put_project_found (o : oracle) (n : nat) (r : req) (was : Project.t)
    (w : world) :
  projects w !! n = Some was ->
  (req_file r = None \/ is_Some (Project.fileType was)) ->
  let d := updated_Project r (clock w + elapsed1 o) was in
  let t := trace w ++ [db_findById ProjectModel n] ++
           match req_file r, Project.fileType was with
           | Some _, Some ft =>
             [cloudinary_destroy (Project.publicId was) (resource_kind ft);
              destroy_report o (Project.publicId was)]
           | _, _ => []
           end in
  put_project o (ObjectId n) r w
  = match invalid_paths (Project.required d) with
    | [] =>
      (Ok (Resp 200 (JProject d)),
       World (contents w) (<[Project._id was := d]> (projects w)) (next_id w)
             (clock w + elapsed1 o)
             (t ++ [db_save ProjectModel (Project._id was)]))
    | paths =>
      (Ok (Resp 500 (JError (MessageOf (ValidationError ProjectModel paths)))),
       World (contents w) (projects w) (next_id w) (clock w + elapsed1 o) t)
    end.
Proof.
  intros Hw Hf d t. unfold put_project, respond_500, Project_findById, Project_save,
    validate, Date_now, emit, gets, set_projects.
  unfold try_catch, mbind, M_bind, mret, M_ret. cbn. rewrite Hw.
  subst d t. unfold updated_Project.
  destruct (req_file r) as [file |] eqn:Hfile.
  - destruct Hf as [Hf | [ft Hft]]; [discriminate |].
    cbn. rewrite Hft. rewrite getResourceType_Some.
    rewrite deleteFromCloudinary_run. cbn.
    match goal with |- context [invalid_paths ?l] =>
      destruct (invalid_paths l) end; cbn;
      rewrite <- ?app_assoc; reflexivity.
  - cbn.
    match goal with |- context [invalid_paths ?l] =>
      destruct (invalid_paths l) end; cbn;
      rewrite <- ?app_assoc; try reflexivity.
    all: destruct (Project.fileType was); cbn; rewrite ?app_nil_r; reflexivity.
Qed.

Lemma delete_content_found (o : oracle) (n : nat) (was : Content.t) (ft : string)
    (w : world) :
  contents w !! n = Some was ->
  Content.fileType was = Some ft ->
  delete_content o (ObjectId n) w
  = (Ok (Resp 200 (JMessage "Content deleted successfully")),
     World (delete n (contents w)) (projects w) (next_id w) (clock w)
           (trace w ++ [db_findById ContentModel n;
                        cloudinary_destroy (Content.publicId was) (resource_kind ft);
                        destroy_report o (Content.publicId was);
                        db_findByIdAndDelete ContentModel n])).
Proof.
  intros Hw Hft. unfold delete_content, respond_500, Content_findById,
    Content_findByIdAndDelete, emit, gets, set_contents.
  unfold try_catch, mbind, M_bind, mret, M_ret. cbn. rewrite Hw, Hft.
  rewrite getResourceType_Some, deleteFromCloudinary_run. cbn.
  by rewrite <- !app_assoc.
Qed.

Lemma delete_project_found (o : oracle) (n : nat) (was : Project.t) (ft : string)
    (w : world) :
  projects w !! n = Some was ->
  Project.fileType was = Some ft ->
  delete_project o (ObjectId n) w
  = (Ok (Resp 200 (JMessage "Project deleted successfully")),
     World (contents w) (delete n (projects w)) (next_id w) (clock w)
           (trace w ++ [db_findById ProjectModel n;
                        cloudinary_destroy (Project.publicId was) (resource_kind ft);
                        destroy_report o (Project.publicId was);
                        db_findByIdAndDelete ProjectModel n])).
Proof.
  intros Hw Hft. unfold delete_project, respond_500, Project_findById,
    Project_findByIdAndDelete, emit, gets, set_projects.
  unfold try_catch, mbind, M_bind, mret, M_ret. cbn. rewrite Hw, Hft.
  rewrite getResourceType_Some, deleteFromCloudinary_run. cbn.
  by rewrite <- !app_assoc.
Qed.

Lemma get_content_item_missing (n : nat) (w : world) :
  contents w !! n = None ->
  (get_content_item (ObjectId n) w).1
  = Ok (Resp 404 (JError (Text "Content not found"))).
Proof.
  intros Hw. unfold get_content_item, Content_findById, emit, gets.
  unfold try_catch, mbind, M_bind, mret, M_ret. cbn. by rewrite Hw.
Qed.

Lemma get_project_missing (n : nat) (w : world) :
  projects w !! n = None ->
  (get_project (ObjectId n) w).1
  = Ok (Resp 404 (JError (Text "Project not found"))).
Proof.
  intros Hw. unfold get_project, Project_findById, emit, gets.
  unfold try_catch, mbind, M_bind, mret, M_ret. cbn. by rewrite Hw.
Qed.

Lemma valid_Content_fileType (d : Content.t) :
  valid_Content d -> is_Some (Content.fileType d).
Proof.
  unfold valid_Content. intros Hv.
  destruct (Content.fileType d) as [ft |] eqn:Hft; [by exists ft |].
  assert (Hin : In "fileType" (invalid_paths (Content.required d))).
  { apply (invalid_paths_In _ "fileType" (Content.fileType d));
      [simpl; tauto | by rewrite Hft]. }
  rewrite Hv in Hin. destruct Hin.
Qed.

Lemma valid_Project_fileType (d : Project.t) :
  valid_Project d -> is_Some (Project.fileType d).
Proof.
  unfold valid_Project. intros Hv.
  destruct (Project.fileType d) as [ft |] eqn:Hft; [by exists ft |].
  assert (Hin : In "fileType" (invalid_paths (Project.required d))).
  { apply (invalid_paths_In _ "fileType" (Project.fileType d));
      [simpl; tauto | by rewrite Hft]. }
  rewrite Hv in Hin. destruct Hin.
Qed.

Lemma calls_since_app (w : world) (t : list event) cs ps nid ck :
  calls_since w (World cs ps nid ck (trace w ++ t)) = t.
Proof. unfold calls_since. cbn. by rewrite drop_app_length. Qed.

(** An update that replaces the file, from the gate to the response. *)

Lemma app_put_content_with_file
    (e : env) (o : oracle) (hdr : option string) (flds : gmap string string)
    (f : file_part) (resp : upload_response) (n : nat) (was : Content.t)
    (ft : string) (w : world) :
  hdr = ADMIN_PASSWORD e ->
  array_includes allowedTypes (part_mimetype f) = true ->
  part_size f < limits_fileSize ->
  uploaded o = Some resp ->
  contents w !! n = Some was ->
  Content.fileType was = Some ft ->
  let r := Req EmptyString hdr flds (Some f) None in
  let r' := Req EmptyString hdr flds (Some f)
              (Some (File (secure_url resp) (part_mimetype f) (public_id resp))) in
  let d := updated_Content r' (clock w + elapsed1 o) was in
  let t := [ upload_call r f;
             db_findById ContentModel n;
             cloudinary_destroy (Content.publicId was) (resource_kind ft);
             destroy_report o (Content.publicId was) ] in
  app e o (Request (Protected (PUT_content (ObjectId n))) hdr flds (Some f)) w
  = match invalid_paths (Content.required d) with
    | [] =>
      (Ok (Resp 200 (JContent d)),
       World (<[Content._id was := d]> (contents w)) (projects w) (next_id w)
             (clock w + elapsed1 o)
             (trace w ++ t ++ [db_save ContentModel (Content._id was)]))
    | paths =>
      (Ok (Resp 500 (JError (MessageOf (ValidationError ContentModel paths)))),
       World (contents w) (projects w) (next_id w) (clock w + elapsed1 o)
             (trace w ++ t))
    end.
Proof.
  intros Hauth Hty Hsz Hup Hw Hft r r' d t.
  rewrite app_authorized by done. cbn [after_authenticate].
  unfold try_catch at 1, mbind, M_bind.
  rewrite (upload_single_stored o _ f resp) by done.
  erewrite put_content_found; [| exact Hw | right; by exists ft].
  cbn [req_file body contents projects next_id clock trace baseUrl
       headers_x_admin_password incoming]. rewrite Hft.
  fold r r'. fold d. subst t.
  destruct (invalid_paths (Content.required d)); cbn; by rewrite <- !app_assoc.
Qed.

Lemma app_put_project_with_file
    (e : env) (o : oracle) (hdr : option string) (flds : gmap string string)
    (f : file_part) (resp : upload_response) (n : nat) (was : Project.t)
    (ft : string) (w : world) :
  hdr = ADMIN_PASSWORD e ->
  array_includes allowedTypes (part_mimetype f) = true ->
  part_size f < limits_fileSize ->
  uploaded o = Some resp ->
  projects w !! n = Some was ->
  Project.fileType was = Some ft ->
  let r := Req EmptyString hdr flds (Some f) None in
  let r' := Req EmptyString hdr flds (Some f)
              (Some (File (secure_url resp) (part_mimetype f) (public_id resp))) in
  let d := updated_Project r' (clock w + elapsed1 o) was in
  let t := [ upload_call r f;
             db_findById ProjectModel n;
             cloudinary_destroy (Project.publicId was) (resource_kind ft);
             destroy_report o (Project.publicId was) ] in
  app e o (Request (Protected (PUT_project (ObjectId n))) hdr flds (Some f)) w
  = match invalid_paths (Project.required d) with
    | [] =>
      (Ok (Resp 200 (JProject d)),
       World (contents w) (<[Project._id was := d]> (projects w)) (next_id w)
             (clock w + elapsed1 o)
             (trace w ++ t ++ [db_save ProjectModel (Project._id was)]))
    | paths =>
      (Ok (Resp 500 (JError (MessageOf (ValidationError ProjectModel paths)))),
       World (contents w) (projects w) (next_id w) (clock w + elapsed1 o)
             (trace w ++ t))
    end.
Proof.
  intros Hauth Hty Hsz Hup Hw Hft r r' d t.
  rewrite app_authorized by done. cbn [after_authenticate].
  unfold try_catch at 1, mbind, M_bind.
  rewrite (upload_single_stored o _ f resp) by done.
  erewrite put_project_found; [| exact Hw | right; by exists ft].
  cbn [req_file body contents projects next_id clock trace baseUrl
       headers_x_admin_password incoming]. rewrite Hft.
  fold r r'. fold d. subst t.
  destruct (invalid_paths (Project.required d)); cbn; by rewrite <- !app_assoc.
Qed.

(** An update without a file, once past the gate. *)

Lemma app_put_content_without_file
    (e : env) (o : oracle) (hdr : option string) (flds : gmap string string)
    (n : nat) (was : Content.t) (w : world) :
  hdr = ADMIN_PASSWORD e ->
  contents w !! n = Some was ->
  let d := updated_Content (Req EmptyString hdr flds None None) (clock w + elapsed1 o) was in
  app e o (Request (Protected (PUT_content (ObjectId n))) hdr flds None) w
  = match invalid_paths (Content.required d) with
    | [] =>
      (Ok (Resp 200 (JContent d)),
       World (<[Content._id was := d]> (contents w)) (projects w) (next_id w)
             (clock w + elapsed1 o)
             (trace w ++ [db_findById ContentModel n;
                          db_save ContentModel (Content._id was)]))
    | paths =>
      (Ok (Resp 500 (JError (MessageOf (ValidationError ContentModel paths)))),
       World (contents w) (projects w) (next_id w) (clock w + elapsed1 o)
             (trace w ++ [db_findById ContentModel n]))
    end.
Proof.
  intros Hauth Hw d.
  rewrite app_authorized by done. cbn [after_authenticate].
  unfold try_catch at 1, mbind, M_bind.
  rewrite upload_single_no_file by done.
  erewrite put_content_found; [| exact Hw | by left].
  cbn [req_file]. fold d.
  destruct (invalid_paths (Content.required d)); cbn;
    rewrite ?app_nil_r, <- ?app_assoc; reflexivity.
Qed.

Lemma app_put_project_without_file
    (e : env) (o : oracle) (hdr : option string) (flds : gmap string string)
    (n : nat) (was : Project.t) (w : world) :
  hdr = ADMIN_PASSWORD e ->
  projects w !! n = Some was ->
  let d := updated_Project (Req EmptyString hdr flds None None) (clock w + elapsed1 o) was in
  app e o (Request (Protected (PUT_project (ObjectId n))) hdr flds None) w
  = match invalid_paths (Project.required d) with
    | [] =>
      (Ok (Resp 200 (JProject d)),
       World (contents w) (<[Project._id was := d]> (projects w)) (next_id w)
             (clock w + elapsed1 o)
             (trace w ++ [db_findById ProjectModel n;
                          db_save ProjectModel (Project._id was)]))
    | paths =>
      (Ok (Resp 500 (JError (MessageOf (ValidationError ProjectModel paths)))),
       World (contents w) (projects w) (next_id w) (clock w + elapsed1 o)
             (trace w ++ [db_findById ProjectModel n]))
    end.
Proof.
  intros Hauth Hw d.
  rewrite app_authorized by done. cbn [after_authenticate].
  unfold try_catch at 1, mbind, M_bind.
  rewrite upload_single_no_file by done.
  erewrite put_project_found; [| exact Hw | by left].
  cbn [req_file]. fold d.
  destruct (invalid_paths (Project.required d)); cbn;
    rewrite ?app_nil_r, <- ?app_assoc; reflexivity.
Qed.

(** ** Validity of documents *)

Lemma invalid_paths_nil (required : list (string * option string)) :
  invalid_paths required = [] <-> Forall (fun p => truthy p.2 = true) required.
Proof.
  unfold invalid_paths. induction required as [| p l IH].
  - split; [constructor | done].
  - rewrite filter_cons. destruct (decide (truthy p.2 = false)) as [Hp | Hp].
    + split; [discriminate |]. intros HF. inversion HF; subst. congruence.
    + rewrite IH. split.
      * intros HF. constructor; [by destruct (truthy p.2) | done].
      * intros HF. by inversion HF.
Qed.

Lemma truthy_js_or (a b : option string) :
  truthy b = true -> truthy (js_or a b) = true.
Proof. unfold js_or. intros Hb. by destruct (truthy a) eqn:Ha. Qed.

Lemma truthy_Some (s : string) : s <> EmptyString -> truthy (Some s) = true.
Proof.
  intros Hs. cbn. destruct (String.eqb_spec s EmptyString); [done | reflexivity].
Qed.

Lemma allowed_type_nonempty (mt : string) :
  array_includes allowedTypes mt = true -> mt <> EmptyString.
Proof. intros H ->. discriminate. Qed.

Lemma updated_Content_valid (r : req) (now : Z) (was : Content.t) :
  valid_Content was ->
  match req_file r with
  | Some f => path f <> EmptyString /\ mimetype f <> EmptyString /\ filename f <> EmptyString
  | None => True
  end ->
  valid_Content (updated_Content r now was).
Proof.
  unfold valid_Content. rewrite !invalid_paths_nil. intros Hv Hf.
  unfold Content.required in *.
  repeat match goal with
         | H : Forall _ (_ :: _) |- _ => inversion H; clear H; subst
         end.
  cbn [snd] in *. unfold updated_Content.
  destruct (req_file r) as [f |];
    cbn -[truthy js_or].
  - destruct Hf as (? & ? & ?).
    repeat constructor; cbn [snd]; auto using truthy_js_or, truthy_Some.
  - repeat constructor; cbn [snd]; auto using truthy_js_or.
Qed.

Lemma updated_Project_valid (r : req) (now : Z) (was : Project.t) :
  valid_Project was ->
  match req_file r with
  | Some f => path f <> EmptyString /\ mimetype f <> EmptyString /\ filename f <> EmptyString
  | None => True
  end ->
  valid_Project (updated_Project r now was).
Proof.
  unfold valid_Project. rewrite !invalid_paths_nil. intros Hv Hf.
  unfold Project.required in *.
  repeat match goal with
         | H : Forall _ (_ :: _) |- _ => inversion H; clear H; subst
         end.
  cbn [snd] in *. unfold updated_Project.
  destruct (req_file r) as [f |];
    cbn -[truthy js_or].
  - destruct Hf as (? & ? & ?).
    repeat constructor; cbn [snd]; auto using truthy_js_or, truthy_Some.
  - repeat constructor; cbn [snd]; auto using truthy_js_or.
Qed.

(** ** C2: what an update does to the file reference *)

(** C2.  An update of an existing record (PUT /api/content/:id and
    PUT /api/projects/:id alike): without a file in the request, the record
    found under that id afterwards has the fileUrl, fileType and publicId it
    had before; with a file that is accepted and stored, the public ID the
    record had is handed to [cloudinary.uploader.destroy] exactly once, that
    call comes before the save, and a record that is saved carries the new
    file's URL, MIME type and public ID.  And the record is saved: when
    Cloudinary answered with a URL and a public ID that are not empty, the
    request is answered 200, its calls end with the one save, after the
    destroy, and the record found under the id afterwards carries the new
    file's URL, MIME type and public ID. *)
Theorem update_file_reference
    (e : env) (o : oracle) (hdr : option string) (flds : gmap string string)
    (att : option file_part) (n : nat) (w : world) :
  (forall was : Content.t,
     contents w !! n = Some was ->
     let w' := (app e o (Request (Protected (PUT_content (ObjectId n))) hdr flds att) w).2 in
     (att = None ->
      exists d, contents w' !! n = Some d /\
        Content.fileUrl d = Content.fileUrl was /\
        Content.fileType d = Content.fileType was /\
        Content.publicId d = Content.publicId was) /\
     (forall f resp,
        att = Some f -> hdr = ADMIN_PASSWORD e ->
        array_includes allowedTypes (part_mimetype f) = true ->
        part_size f < limits_fileSize ->
        uploaded o = Some resp ->
        valid_Content was ->
        destroyed (calls_since w w') = [Content.publicId was] /\
        destroyed (before_first_save (calls_since w w')) = [Content.publicId was] /\
        (existsb is_db_save (calls_since w w') = true ->
         exists d, contents w' !! Content._id was = Some d /\
           Content.fileUrl d = Some (secure_url resp) /\
           Content.fileType d = Some (part_mimetype f) /\
           Content.publicId d = Some (public_id resp)) /\
        (secure_url resp <> EmptyString -> public_id resp <> EmptyString ->
         exists d,
           (app e o (Request (Protected (PUT_content (ObjectId n))) hdr flds att) w).1
           = Ok (Resp 200 (JContent d)) /\
           calls_since w w'
           = before_first_save (calls_since w w')
             ++ [db_save ContentModel (Content._id was)] /\
           contents w' !! Content._id was = Some d /\
           Content.fileUrl d = Some (secure_url resp) /\
           Content.fileType d = Some (part_mimetype f) /\
           Content.publicId d = Some (public_id resp)))) /\
  (forall was : Project.t,
     projects w !! n = Some was ->
     let w' := (app e o (Request (Protected (PUT_project (ObjectId n))) hdr flds att) w).2 in
     (att = None ->
      exists d, projects w' !! n = Some d /\
        Project.fileUrl d = Project.fileUrl was /\
        Project.fileType d = Project.fileType was /\
        Project.publicId d = Project.publicId was) /\
     (forall f resp,
        att = Some f -> hdr = ADMIN_PASSWORD e ->
        array_includes allowedTypes (part_mimetype f) = true ->
        part_size f < limits_fileSize ->
        uploaded o = Some resp ->
        valid_Project was ->
        destroyed (calls_since w w') = [Project.publicId was] /\
        destroyed (before_first_save (calls_since w w')) = [Project.publicId was] /\
        (existsb is_db_save (calls_since w w') = true ->
         exists d, projects w' !! Project._id was = Some d /\
           Project.fileUrl d = Some (secure_url resp) /\
           Project.fileType d = Some (part_mimetype f) /\
           Project.publicId d = Some (public_id resp)) /\
        (secure_url resp <> EmptyString -> public_id resp <> EmptyString ->
         exists d,
           (app e o (Request (Protected (PUT_project (ObjectId n))) hdr flds att) w).1
           = Ok (Resp 200 (JProject d)) /\
           calls_since w w'
           = before_first_save (calls_since w w')
             ++ [db_save ProjectModel (Project._id was)] /\
           projects w' !! Project._id was = Some d /\
           Project.fileUrl d = Some (secure_url resp) /\
           Project.fileType d = Some (part_mimetype f) /\
           Project.publicId d = Some (public_id resp)))).
Proof.
  split; intros was Hw w'; (split; [intros -> | intros f resp -> Hauth Hty Hsz Hup Hv]).
  - subst w'. destruct (decide (hdr = ADMIN_PASSWORD e)) as [Hauth | Hauth].
    + rewrite (app_put_content_without_file e o hdr flds n was w) by done.
      unfold updated_Content. cbn [req_file body].
      match goal with |- context [invalid_paths ?l] =>
        destruct (invalid_paths l) end; cbn [snd contents].
      * destruct (decide (Content._id was = n)) as [-> | Hne].
        -- rewrite lookup_insert_eq. eexists. split; [done |]. done.
        -- rewrite lookup_insert_ne by done. by exists was.
      * by exists was.
    + rewrite app_unauthorized by done. by exists was.
  - subst w'. destruct (valid_Content_fileType was Hv) as [ft Hft].
    rewrite (app_put_content_with_file e o hdr flds f resp n was ft w) by done.
    match goal with |- context [updated_Content ?r ?t was] =>
      pose proof (updated_Content_valid r t was Hv) as Hd end.
    cbn [req_file path mimetype filename] in Hd. unfold valid_Content in Hd.
    unfold updated_Content in *. cbn [req_file body path mimetype filename] in *.
    match goal with |- context [invalid_paths ?l] =>
      destruct (invalid_paths l) eqn:Hinv end; cbn [fst snd];
      rewrite calls_since_app;
      unfold destroy_report; destruct (destroy_throws o); cbn;
      (split; [done |]); (split; [done |]);
      (split;
       [ first [discriminate
               | intros _; rewrite lookup_insert_eq; eexists; split; [done |]; done]
       | intros Hurl Hpid;
         first [ discriminate Hd;
                   repeat split; try done; by apply allowed_type_nonempty
               | eexists; split; [reflexivity |]; split; [reflexivity |];
                 rewrite lookup_insert_eq; split; [reflexivity |]; done ] ]).
  - subst w'. destruct (decide (hdr = ADMIN_PASSWORD e)) as [Hauth | Hauth].
    + rewrite (app_put_project_without_file e o hdr flds n was w) by done.
      unfold updated_Project. cbn [req_file body].
      match goal with |- context [invalid_paths ?l] =>
        destruct (invalid_paths l) end; cbn [snd projects].
      * destruct (decide (Project._id was = n)) as [-> | Hne].
        -- rewrite lookup_insert_eq. eexists. split; [done |]. done.
        -- rewrite lookup_insert_ne by done. by exists was.
      * by exists was.
    + rewrite app_unauthorized by done. by exists was.
  - subst w'. destruct (valid_Project_fileType was Hv) as [ft Hft].
    rewrite (app_put_project_with_file e o hdr flds f resp n was ft w) by done.
    match goal with |- context [updated_Project ?r ?t was] =>
      pose proof (updated_Project_valid r t was Hv) as Hd end.
    cbn [req_file path mimetype filename] in Hd. unfold valid_Project in Hd.
    unfold updated_Project in *. cbn [req_file body path mimetype filename] in *.
    match goal with |- context [invalid_paths ?l] =>
      destruct (invalid_paths l) eqn:Hinv end; cbn [fst snd];
      rewrite calls_since_app;
      unfold destroy_report; destruct (destroy_throws o); cbn;
      (split; [done |]); (split; [done |]);
      (split;
       [ first [discriminate
               | intros _; rewrite lookup_insert_eq; eexists; split; [done |]; done]
       | intros Hurl Hpid;
         first [ discriminate Hd;
                   repeat split; try done; by apply allowed_type_nonempty
               | eexists; split; [reflexivity |]; split; [reflexivity |];
                 rewrite lookup_insert_eq; split; [reflexivity |]; done ] ]).
Qed.

Lemma update_file_reference_witness :
  destroyed
    (calls_since sample_world
       (app secret_env calm
            (Request (Protected (PUT_content (ObjectId 0))) (Some "s3cret") ∅
                     (Some sample_png)) sample_world).2)
  = [Some "portfolio/old"].
Proof.
  refine (proj1 (proj2 (proj1
    (update_file_reference secret_env calm (Some "s3cret") ∅ (Some sample_png)
       0%nat sample_world) sample_content _)
    sample_png sample_answer eq_refl eq_refl eq_refl _ eq_refl _)).
  - reflexivity.
  - unfold limits_fileSize. simpl. lia.
  - reflexivity.
Defined.

(** A delete, from the gate to the response. *)

Lemma app_delete_content
    (e : env) (o : oracle) (hdr : option string) (flds : gmap string string)
    (att : option file_part) (n : nat) (was : Content.t) (ft : string) (w : world) :
  hdr = ADMIN_PASSWORD e ->
  contents w !! n = Some was ->
  Content.fileType was = Some ft ->
  app e o (Request (Protected (DELETE_content (ObjectId n))) hdr flds att) w
  = (Ok (Resp 200 (JMessage "Content deleted successfully")),
     World (delete n (contents w)) (projects w) (next_id w) (clock w)
           (trace w ++ [db_findById ContentModel n;
                        cloudinary_destroy (Content.publicId was) (resource_kind ft);
                        destroy_report o (Content.publicId was);
                        db_findByIdAndDelete ContentModel n])).
Proof.
  intros Hauth Hw Hft. rewrite app_authorized by done. cbn [after_authenticate].
  unfold try_catch at 1. by rewrite (delete_content_found o n was ft w).
Qed.

Lemma app_delete_project
    (e : env) (o : oracle) (hdr : option string) (flds : gmap string string)
    (att : option file_part) (n : nat) (was : Project.t) (ft : string) (w : world) :
  hdr = ADMIN_PASSWORD e ->
  projects w !! n = Some was ->
  Project.fileType was = Some ft ->
  app e o (Request (Protected (DELETE_project (ObjectId n))) hdr flds att) w
  = (Ok (Resp 200 (JMessage "Project deleted successfully")),
     World (contents w) (delete n (projects w)) (next_id w) (clock w)
           (trace w ++ [db_findById ProjectModel n;
                        cloudinary_destroy (Project.publicId was) (resource_kind ft);
                        destroy_report o (Project.publicId was);
                        db_findByIdAndDelete ProjectModel n])).
Proof.
  intros Hauth Hw Hft. rewrite app_authorized by done. cbn [after_authenticate].
  unfold try_catch at 1. by rewrite (delete_project_found o n was ft w).
Qed.

Lemma app_get_content_item_missing (e : env) (o : oracle) (hdr : option string)
    (flds : gmap string string) (att : option file_part) (n : nat) (w : world) :
  contents w !! n = None ->
  (app e o (Request (GET_content_item (ObjectId n)) hdr flds att) w).1
  = Ok (Resp 404 (JError (Text "Content not found"))).
Proof.
  intros Hw. unfold app. cbn [target]. unfold try_catch at 1.
  pose proof (get_content_item_missing n w Hw) as H.
  destruct (get_content_item (ObjectId n) w) as [res w1].
  cbn in H. by rewrite H.
Qed.

Lemma app_get_project_missing (e : env) (o : oracle) (hdr : option string)
    (flds : gmap string string) (att : option file_part) (n : nat) (w : world) :
  projects w !! n = None ->
  (app e o (Request (GET_project (ObjectId n)) hdr flds att) w).1
  = Ok (Resp 404 (JError (Text "Project not found"))).
Proof.
  intros Hw. unfold app. cbn [target]. unfold try_catch at 1.
  pose proof (get_project_missing n w Hw) as H.
  destruct (get_project (ObjectId n) w) as [res w1].
  cbn in H. by rewrite H.
Qed.

(** ** C4: a failing remote delete *)

(** C4.  Whatever [cloudinary.uploader.destroy] does, rejecting included, a
    delete of an existing record answers 200 with the success message and
    removes the record, so that a GET of that id afterwards answers 404; and
    an update that replaces the file answers 200 with the updated record
    and stores it.  A rejection by destroy is caught inside
    [deleteFromCloudinary], which logs it with [console.error]. *)
Theorem remote_delete_failure_is_swallowed
    (e : env) (o : oracle) (hdr : option string) (flds : gmap string string)
    (n : nat) (w : world) :
  hdr = ADMIN_PASSWORD e ->
  (forall (was : Content.t) att,
     contents w !! n = Some was -> valid_Content was ->
     let out := app e o (Request (Protected (DELETE_content (ObjectId n))) hdr flds att) w in
     out.1 = Ok (Resp 200 (JMessage "Content deleted successfully")) /\
     contents out.2 !! n = None /\
     (forall o' hdr' flds' att',
        (app e o' (Request (GET_content_item (ObjectId n)) hdr' flds' att') out.2).1
        = Ok (Resp 404 (JError (Text "Content not found")))) /\
     (destroy_throws o = true ->
      In (console_error "Error deleting from Cloudinary:") (calls_since w out.2))) /\
  (forall (was : Project.t) att,
     projects w !! n = Some was -> valid_Project was ->
     let out := app e o (Request (Protected (DELETE_project (ObjectId n))) hdr flds att) w in
     out.1 = Ok (Resp 200 (JMessage "Project deleted successfully")) /\
     projects out.2 !! n = None /\
     (forall o' hdr' flds' att',
        (app e o' (Request (GET_project (ObjectId n)) hdr' flds' att') out.2).1
        = Ok (Resp 404 (JError (Text "Project not found")))) /\
     (destroy_throws o = true ->
      In (console_error "Error deleting from Cloudinary:") (calls_since w out.2))) /\
  (forall (was : Content.t) f resp,
     contents w !! n = Some was -> valid_Content was ->
     array_includes allowedTypes (part_mimetype f) = true ->
     part_size f < limits_fileSize ->
     uploaded o = Some resp -> secure_url resp <> EmptyString -> public_id resp <> EmptyString ->
     let out := app e o (Request (Protected (PUT_content (ObjectId n))) hdr flds (Some f)) w in
     exists d,
       out.1 = Ok (Resp 200 (JContent d)) /\
       contents out.2 !! Content._id was = Some d /\
       Content.fileUrl d = Some (secure_url resp) /\
       Content.publicId d = Some (public_id resp) /\
       (destroy_throws o = true ->
        In (console_error "Error deleting from Cloudinary:") (calls_since w out.2))) /\
  (forall (was : Project.t) f resp,
     projects w !! n = Some was -> valid_Project was ->
     array_includes allowedTypes (part_mimetype f) = true ->
     part_size f < limits_fileSize ->
     uploaded o = Some resp -> secure_url resp <> EmptyString -> public_id resp <> EmptyString ->
     let out := app e o (Request (Protected (PUT_project (ObjectId n))) hdr flds (Some f)) w in
     exists d,
       out.1 = Ok (Resp 200 (JProject d)) /\
       projects out.2 !! Project._id was = Some d /\
       Project.fileUrl d = Some (secure_url resp) /\
       Project.publicId d = Some (public_id resp) /\
       (destroy_throws o = true ->
        In (console_error "Error deleting from Cloudinary:") (calls_since w out.2))).
Proof.
  intros Hauth. repeat split.
  - destruct (valid_Content_fileType was) as [ft Hft]; [done |].
    by rewrite (app_delete_content e o hdr flds att n was ft w).
  - destruct (valid_Content_fileType was) as [ft Hft]; [done |].
    rewrite (app_delete_content e o hdr flds att n was ft w) by done.
    apply lookup_delete_eq.
  - intros o' hdr' flds' att'. apply app_get_content_item_missing.
    destruct (valid_Content_fileType was) as [ft Hft]; [done |].
    rewrite (app_delete_content e o hdr flds att n was ft w) by done.
    apply lookup_delete_eq.
  - intros Hthrow. destruct (valid_Content_fileType was) as [ft Hft]; [done |].
    rewrite (app_delete_content e o hdr flds att n was ft w) by done.
    cbn [snd]. rewrite calls_since_app. unfold destroy_report. rewrite Hthrow.
    simpl. tauto.
  - destruct (valid_Project_fileType was) as [ft Hft]; [done |].
    by rewrite (app_delete_project e o hdr flds att n was ft w).
  - destruct (valid_Project_fileType was) as [ft Hft]; [done |].
    rewrite (app_delete_project e o hdr flds att n was ft w) by done.
    apply lookup_delete_eq.
  - intros o' hdr' flds' att'. apply app_get_project_missing.
    destruct (valid_Project_fileType was) as [ft Hft]; [done |].
    rewrite (app_delete_project e o hdr flds att n was ft w) by done.
    apply lookup_delete_eq.
  - intros Hthrow. destruct (valid_Project_fileType was) as [ft Hft]; [done |].
    rewrite (app_delete_project e o hdr flds att n was ft w) by done.
    cbn [snd]. rewrite calls_since_app. unfold destroy_report. rewrite Hthrow.
    simpl. tauto.
  - intros was f resp Hw Hv Hty Hsz Hup Hurl Hpid out. subst out.
    destruct (valid_Content_fileType was) as [ft Hft]; [done |].
    rewrite (app_put_content_with_file e o hdr flds f resp n was ft w) by done.
    match goal with |- context [updated_Content ?r ?t was] =>
      pose proof (updated_Content_valid r t was Hv) as Hd end.
    cbn [req_file path mimetype filename] in Hd.
    unfold valid_Content in Hd. rewrite Hd
      by (repeat split; try done; by apply allowed_type_nonempty).
    eexists. split; [reflexivity |]. cbn [snd contents].
    split; [apply lookup_insert_eq |]. split; [reflexivity |].
    split; [reflexivity |].
    intros Hthrow. rewrite calls_since_app. unfold destroy_report.
    rewrite Hthrow. simpl. tauto.
  - intros was f resp Hw Hv Hty Hsz Hup Hurl Hpid out. subst out.
    destruct (valid_Project_fileType was) as [ft Hft]; [done |].
    rewrite (app_put_project_with_file e o hdr flds f resp n was ft w) by done.
    match goal with |- context [updated_Project ?r ?t was] =>
      pose proof (updated_Project_valid r t was Hv) as Hd end.
    cbn [req_file path mimetype filename] in Hd.
    unfold valid_Project in Hd. rewrite Hd
      by (repeat split; try done; by apply allowed_type_nonempty).
    eexists. split; [reflexivity |]. cbn [snd projects].
    split; [apply lookup_insert_eq |]. split; [reflexivity |].
    split; [reflexivity |].
    intros Hthrow. rewrite calls_since_app. unfold destroy_report.
    rewrite Hthrow. simpl. tauto.
Qed.

Lemma remote_delete_failure_is_swallowed_witness :
  (app secret_env destroy_fails
       (Request (Protected (DELETE_project (ObjectId 0))) (Some "s3cret") ∅ None)
       sample_world).1
  = Ok (Resp 200 (JMessage "Project deleted successfully")).
Proof.
  refine (proj1 (proj1 (proj2
    (remote_delete_failure_is_swallowed secret_env destroy_fails (Some "s3cret")
       ∅ 0%nat sample_world eq_refl)) sample_project None _ _));
    reflexivity.
Defined.

(** ** What a request does to the database *)

Ltac db_cases :=
  repeat (case_match; cbn in *; simplify_eq).

Ltac db_solve :=
  first
    [ by (apply db_same; cbn; unfold clock_read; cbn; auto with lia)
    | by (eapply db_content_created; cbn; eauto)
    | by (eapply db_project_created; cbn; eauto)
    | by (eapply db_content_updated; cbn; eauto)
    | by (eapply db_project_updated; cbn; eauto)
    | by (eapply db_content_deleted; cbn; eauto)
    | by (eapply db_project_deleted; cbn; eauto) ].

Lemma same_db_refl (w : world) : same_db w w.
Proof. by repeat split. Qed.

Lemma same_db_db_step (o : oracle) (w w' : world) : same_db w w' -> db_step o w w'.
Proof.
  intros (Hc & Hp & Hn & Hk). apply db_same; try done; [lia | by left].
Qed.

Lemma db_step_after_same_db (o : oracle) (w w1 w2 : world) :
  same_db w w1 -> db_step o w1 w2 -> db_step o w w2.
Proof.
  intros (Hc & Hp & Hn & Hk) Hstep.
  destruct Hstep; unfold clock_read in *; rewrite ?Hc, ?Hp, ?Hn, ?Hk in *.
  - by apply db_same.
  - by eapply db_content_created.
  - by eapply db_content_updated.
  - by eapply db_content_deleted.
  - by eapply db_project_created.
  - by eapply db_project_updated.
  - by eapply db_project_deleted.
Qed.

Lemma db_step_before_same_db (o : oracle) (w w1 w2 : world) :
  db_step o w w1 -> same_db w1 w2 -> db_step o w w2.
Proof.
  intros Hstep (Hc & Hp & Hn & Hk).
  destruct Hstep.
  - apply db_same; unfold clock_read in *; rewrite ?Hc, ?Hp, ?Hn, ?Hk; done.
  - eapply db_content_created; rewrite ?Hc, ?Hp, ?Hn, ?Hk; done.
  - eapply db_content_updated; rewrite ?Hc, ?Hp, ?Hn, ?Hk; done.
  - eapply db_content_deleted; rewrite ?Hc, ?Hp, ?Hn, ?Hk; done.
  - eapply db_project_created; rewrite ?Hc, ?Hp, ?Hn, ?Hk; done.
  - eapply db_project_updated; rewrite ?Hc, ?Hp, ?Hn, ?Hk; done.
  - eapply db_project_deleted; rewrite ?Hc, ?Hp, ?Hn, ?Hk; done.
Qed.

Lemma upload_single_same_db (o : oracle) (r : req) (w : world) :
  same_db w (upload_single o r w).2.
Proof.
  unfold upload_single.
  destruct (incoming r) as [f |]; [| apply same_db_refl].
  destruct (fileFilter r f) as [[|] | err]; try apply same_db_refl.
  unfold_M. cbn.
  destruct (bool_decide (limits_fileSize <= part_size f)); [by repeat split |].
  destruct (uploaded o); by repeat split.
Qed.

Lemma error_middleware_same_db (err : error) (w : world) :
  same_db w (error_middleware err w).2.
Proof. by repeat split. Qed.

Lemma guarded_db_step (o : oracle) (m : M response) (w : world) :
  (forall w, db_step o w (m w).2) ->
  db_step o w (try_catch m error_middleware w).2.
Proof.
  intros Hm. unfold try_catch. specialize (Hm w).
  destruct (m w) as [[res | err] w1]; [done |].
  eapply db_step_before_same_db; [exact Hm | apply error_middleware_same_db].
Qed.

Lemma upload_then_db_step (o : oracle) (r : req) (k : req -> M response) (w : world) :
  (forall r' w, db_step o w (k r' w).2) ->
  db_step o w ((upload_single o r ≫= k) w).2.
Proof.
  intros Hk. unfold mbind, M_bind.
  pose proof (upload_single_same_db o r w) as Hup.
  destruct (upload_single o r w) as [[r' | err] w1]; cbn [snd] in *.
  - eapply db_step_after_same_db; [exact Hup | apply Hk].
  - by apply same_db_db_step.
Qed.

Lemma post_content_db_step (o : oracle) (r : req) (w : world) :
  db_step o w (post_content o r w).2.
Proof. unfold post_content, respond_500. unfold_M. cbn. db_cases; db_solve. Qed.

Lemma post_project_db_step (o : oracle) (r : req) (w : world) :
  db_step o w (post_project o r w).2.
Proof. unfold post_project, respond_500. unfold_M. cbn. db_cases; db_solve. Qed.

Lemma put_content_db_step (o : oracle) (id : id_param) (r : req) (w : world) :
  db_step o w (put_content o id r w).2.
Proof. unfold put_content, respond_500. unfold_M. cbn. db_cases; db_solve. Qed.

Lemma put_project_db_step (o : oracle) (id : id_param) (r : req) (w : world) :
  db_step o w (put_project o id r w).2.
Proof. unfold put_project, respond_500. unfold_M. cbn. db_cases; db_solve. Qed.

Lemma delete_content_db_step (o : oracle) (id : id_param) (w : world) :
  db_step o w (delete_content o id w).2.
Proof. unfold delete_content, respond_500. unfold_M. cbn. db_cases; db_solve. Qed.

Lemma delete_project_db_step (o : oracle) (id : id_param) (w : world) :
  db_step o w (delete_project o id w).2.
Proof. unfold delete_project, respond_500. unfold_M. cbn. db_cases; db_solve. Qed.

Lemma app_db_step (e : env) (o : oracle) (rq : request) (w : world) :
  db_step o w (app e o rq w).2.
Proof.
  destruct rq as [[c | id | | id | | p] hdr flds att].
  1-5: unfold_chain; unfold_M; cbn; db_cases; db_solve.
  destruct (decide (hdr = ADMIN_PASSWORD e)) as [Hauth | Hauth].
  - rewrite app_authorized by done. apply guarded_db_step. clear w. intros w.
    destruct p as [| id | id | | id | id]; cbn [after_authenticate].
    + apply upload_then_db_step, post_content_db_step.
    + apply upload_then_db_step. intros r'. apply put_content_db_step.
    + apply delete_content_db_step.
    + apply upload_then_db_step, post_project_db_step.
    + apply upload_then_db_step. intros r'. apply put_project_db_step.
    + apply delete_project_db_step.
  - rewrite app_unauthorized by done. apply same_db_db_step, same_db_refl.
Qed.

(** ** Invariants of the database *)

Lemma consistent_empty_db (t : Z) : consistent (empty_db t).
Proof. split; intros n d H; cbn in H; by rewrite lookup_empty in H. Qed.

Lemma dates_ordered_empty_db (t : Z) : dates_ordered (empty_db t).
Proof. split; intros n d H; cbn in H; by rewrite lookup_empty in H. Qed.

Ltac lookup_cases Hx :=
  first
    [ apply lookup_insert_Some in Hx as [[? ?] | [? Hx]]
    | apply lookup_delete_Some in Hx as [? Hx]
    | idtac ].

Lemma consistent_db_step (o : oracle) (w w' : world) :
  consistent w -> db_step o w w' -> consistent w'.
Proof.
  intros [Hc Hp] Hstep. destruct Hstep as
    [Hcs Hps Hid _
    | d Hcs Hps Hid Hd _ _ _
    | m was d Hwas Hcs Hps Hid Hd _ _ _
    | m Hcs Hps Hid _
    | d Hps Hcs Hid Hd _ _ _
    | m was d Hwas Hps Hcs Hid Hd _ _ _
    | m Hps Hcs Hid _ ];
    split; intros n x Hx; rewrite ?Hcs, ?Hps in Hx; lookup_cases Hx; subst;
    try (pose proof (Hc _ _ Hwas) as [? ?]);
    try (pose proof (Hp _ _ Hwas) as [? ?]);
    try (pose proof (Hc _ _ Hx) as [? ?]);
    try (pose proof (Hp _ _ Hx) as [? ?]);
    split; congruence || lia.
Qed.

Lemma dates_ordered_db_step (o : oracle) (w w' : world) :
  0 <= elapsed1 o -> 0 <= elapsed2 o ->
  dates_ordered w -> db_step o w w' -> dates_ordered w'.
Proof.
  intros H1 H2 [Hc Hp] Hstep. destruct Hstep as
    [Hcs Hps _ Hck
    | d Hcs Hps _ _ Hcr Hupd Hck
    | m was d Hwas Hcs Hps _ _ Hcr Hupd Hck
    | m Hcs Hps _ Hck
    | d Hps Hcs _ _ Hcr Hupd Hck
    | m was d Hwas Hps Hcs _ _ Hcr Hupd Hck
    | m Hps Hcs _ Hck ];
    split; intros n x Hx; rewrite ?Hcs, ?Hps in Hx; lookup_cases Hx; subst;
    try (pose proof (Hc _ _ Hwas));
    try (pose proof (Hp _ _ Hwas));
    try (pose proof (Hc _ _ Hx));
    try (pose proof (Hp _ _ Hx));
    unfold clock_read in *; lia.
Qed.

Lemma keeps_createdAt_refl (w : world) : keeps_createdAt w w.
Proof. split; [lia |]. split; intros n d Hd _; by exists d. Qed.

Lemma keeps_createdAt_trans (w1 w2 w3 : world) :
  keeps_createdAt w1 w2 -> keeps_createdAt w2 w3 -> keeps_createdAt w1 w3.
Proof.
  intros (Hn12 & Hc12 & Hp12) (Hn23 & Hc23 & Hp23).
  split; [lia |]. split; intros n d3 Hd3 Hlt.
  - destruct (Hc23 n d3 Hd3) as (d2 & Hd2 & E23); [lia |].
    destruct (Hc12 n d2 Hd2 Hlt) as (d1 & Hd1 & E12).
    exists d1. split; [done | congruence].
  - destruct (Hp23 n d3 Hd3) as (d2 & Hd2 & E23); [lia |].
    destruct (Hp12 n d2 Hd2 Hlt) as (d1 & Hd1 & E12).
    exists d1. split; [done | congruence].
Qed.

Lemma keeps_createdAt_db_step (o : oracle) (w w' : world) :
  consistent w -> db_step o w w' -> keeps_createdAt w w'.
Proof.
  intros [Hc Hp] Hstep. destruct Hstep as
    [Hcs Hps Hid _
    | d Hcs Hps Hid Hd _ _ _
    | m was d Hwas Hcs Hps Hid Hd Hcr _ _
    | m Hcs Hps Hid _
    | d Hps Hcs Hid Hd _ _ _
    | m was d Hwas Hps Hcs Hid Hd Hcr _ _
    | m Hps Hcs Hid _ ];
    (split; [lia |]); split; intros n x Hx Hlt;
    rewrite ?Hcs, ?Hps in Hx; lookup_cases Hx; subst;
    try lia; try (by exists x);
    try (pose proof (Hc _ _ Hwas) as [? ?]);
    try (pose proof (Hp _ _ Hwas) as [? ?]);
    subst; by exists was.
Qed.

Lemma consistent_run (e : env) (xs : list (oracle * request)) (w : world) :
  consistent w -> consistent (run e xs w).
Proof.
  unfold run. revert w. induction xs as [| [o rq] xs IH]; intros w Hw; [done |].
  cbn [foldl]. apply IH. unfold step. cbn [fst snd].
  eapply consistent_db_step; [done | apply app_db_step].
Qed.

Lemma keeps_createdAt_run (e : env) (xs : list (oracle * request)) (w : world) :
  consistent w -> keeps_createdAt w (run e xs w).
Proof.
  unfold run. revert w. induction xs as [| [o rq] xs IH]; intros w Hw.
  - apply keeps_createdAt_refl.
  - cbn [foldl]. unfold step at 2. cbn [fst snd].
    pose proof (app_db_step e o rq w) as Hstep.
    eapply keeps_createdAt_trans.
    + eapply keeps_createdAt_db_step; [done | exact Hstep].
    + apply IH. eapply consistent_db_step; [done | exact Hstep].
Qed.

Lemma dates_ordered_run (e : env) (xs : list (oracle * request)) (w : world) :
  clock_never_set_back xs -> dates_ordered w -> dates_ordered (run e xs w).
Proof.
  unfold run, clock_never_set_back. revert w.
  induction xs as [| [o rq] xs IH]; intros w Hxs Hw; [done |].
  inversion Hxs as [| ? ? [H1 H2] Hxs']; subst. cbn [fst] in *.
  cbn [foldl]. apply IH; [done |]. unfold step. cbn [fst snd].
  eapply dates_ordered_db_step; [done | done | done | apply app_db_step].
Qed.

(** A create answered 201, traced back through the chain. *)

Lemma created_content (e : env) (o : oracle) (hdr : option string)
    (flds : gmap string string) (att : option file_part) (w w' : world)
    (d : Content.t) :
  app e o (Request (Protected POST_content) hdr flds att) w
  = (Ok (Resp 201 (JContent d)), w') ->
  exists resp,
    uploaded o = Some resp /\
    contents w' !! Content._id d = Some d /\
    Content.fileUrl d = Some (secure_url resp) /\
    Content.publicId d = Some (public_id resp) /\
    Content.createdAt d = clock w + elapsed1 o /\
    Content.updatedAt d = Content.createdAt d + elapsed2 o.
Proof.
  destruct (decide (hdr = ADMIN_PASSWORD e)) as [Hauth | Hauth];
    [| by rewrite app_unauthorized].
  rewrite app_authorized by done. cbn [after_authenticate].
  unfold try_catch at 1, mbind, M_bind.
  destruct att as [f |]; [| by rewrite upload_single_no_file].
  destruct (array_includes allowedTypes (part_mimetype f)) eqn:Hty;
    [| by rewrite (upload_single_bad_type o _ f)].
  destruct (Z_lt_ge_dec (part_size f) limits_fileSize) as [Hsz | Hsz];
    [| by rewrite (upload_single_too_large o _ f) by (done || lia)].
  destruct (uploaded o) as [resp |] eqn:Hup;
    [| by rewrite (upload_single_rejected_by_store o _ f)].
  rewrite (upload_single_stored o _ f resp) by done.
  erewrite post_content_with_file by reflexivity.
  cbn [body path mimetype filename next_id clock contents].
  match goal with |- context [invalid_paths ?l] =>
    destruct (invalid_paths l) end; [| discriminate].
  intros [= <- <-]. exists resp. cbn.
  split; [done |]. split; [apply lookup_insert_eq |]. done.
Qed.

Lemma created_project (e : env) (o : oracle) (hdr : option string)
    (flds : gmap string string) (att : option file_part) (w w' : world)
    (d : Project.t) :
  app e o (Request (Protected POST_projects) hdr flds att) w
  = (Ok (Resp 201 (JProject d)), w') ->
  exists resp,
    uploaded o = Some resp /\
    projects w' !! Project._id d = Some d /\
    Project.fileUrl d = Some (secure_url resp) /\
    Project.publicId d = Some (public_id resp) /\
    Project.createdAt d = clock w + elapsed1 o /\
    Project.updatedAt d = Project.createdAt d + elapsed2 o.
Proof.
  destruct (decide (hdr = ADMIN_PASSWORD e)) as [Hauth | Hauth];
    [| by rewrite app_unauthorized].
  rewrite app_authorized by done. cbn [after_authenticate].
  unfold try_catch at 1, mbind, M_bind.
  destruct att as [f |]; [| by rewrite upload_single_no_file].
  destruct (array_includes allowedTypes (part_mimetype f)) eqn:Hty;
    [| by rewrite (upload_single_bad_type o _ f)].
  destruct (Z_lt_ge_dec (part_size f) limits_fileSize) as [Hsz | Hsz];
    [| by rewrite (upload_single_too_large o _ f) by (done || lia)].
  destruct (uploaded o) as [resp |] eqn:Hup;
    [| by rewrite (upload_single_rejected_by_store o _ f)].
  rewrite (upload_single_stored o _ f resp) by done.
  erewrite post_project_with_file by reflexivity.
  cbn [body path mimetype filename next_id clock projects].
  match goal with |- context [invalid_paths ?l] =>
    destruct (invalid_paths l) end; [| discriminate].
  intros [= <- <-]. exists resp. cbn.
  split; [done |]. split; [apply lookup_insert_eq |]. done.
Qed.

(** ** C6: what a created record holds, and the two dates *)

(** C6, as amended.  A record created with 201 is stored under its id with
    the URL and public ID that Cloudinary returned for the upload; its
    createdAt and updatedAt are the two successive readings of the clock
    taken when the document is built, so updatedAt is createdAt plus the
    time that passed between the two readings.  In every world reached from
    an empty database, no later sequence of requests changes the createdAt
    of a record that is still stored; and when the clock is never set back,
    every stored record has createdAt <= updatedAt. *)
Theorem created_record_and_dates (e : env) :
  (forall o hdr flds att w w' (d : Content.t),
     app e o (Request (Protected POST_content) hdr flds att) w
     = (Ok (Resp 201 (JContent d)), w') ->
     exists resp,
       uploaded o = Some resp /\
       contents w' !! Content._id d = Some d /\
       Content.fileUrl d = Some (secure_url resp) /\
       Content.publicId d = Some (public_id resp) /\
       Content.createdAt d = clock w + elapsed1 o /\
       Content.updatedAt d = Content.createdAt d + elapsed2 o) /\
  (forall o hdr flds att w w' (d : Project.t),
     app e o (Request (Protected POST_projects) hdr flds att) w
     = (Ok (Resp 201 (JProject d)), w') ->
     exists resp,
       uploaded o = Some resp /\
       projects w' !! Project._id d = Some d /\
       Project.fileUrl d = Some (secure_url resp) /\
       Project.publicId d = Some (public_id resp) /\
       Project.createdAt d = clock w + elapsed1 o /\
       Project.updatedAt d = Project.createdAt d + elapsed2 o) /\
  (forall t xs ys,
     let w := run e xs (empty_db t) in
     let w' := run e ys w in
     (forall n (d d' : Content.t),
        contents w !! n = Some d -> contents w' !! n = Some d' ->
        Content.createdAt d' = Content.createdAt d) /\
     (forall n (d d' : Project.t),
        projects w !! n = Some d -> projects w' !! n = Some d' ->
        Project.createdAt d' = Project.createdAt d)) /\
  (forall t xs,
     clock_never_set_back xs ->
     let w := run e xs (empty_db t) in
     (forall n (d : Content.t),
        contents w !! n = Some d -> Content.createdAt d <= Content.updatedAt d) /\
     (forall n (d : Project.t),
        projects w !! n = Some d -> Project.createdAt d <= Project.updatedAt d)).
Proof.
  split; [| split; [| split]].
  - intros. by eapply created_content.
  - intros. by eapply created_project.
  - intros t xs ys w w'.
    assert (Hw : consistent w) by apply consistent_run, consistent_empty_db.
    destruct (keeps_createdAt_run e ys w Hw) as (_ & Hc & Hp). fold w' in Hc, Hp.
    split; intros n d d' Hd Hd'.
    + destruct (proj1 Hw n d Hd) as [_ Hlt].
      destruct (Hc n d' Hd' Hlt) as (d0 & Hd0 & E). congruence.
    + destruct (proj2 Hw n d Hd) as [_ Hlt].
      destruct (Hp n d' Hd' Hlt) as (d0 & Hd0 & E). congruence.
  - intros t xs Hxs w.
    destruct (dates_ordered_run e xs (empty_db t) Hxs (dates_ordered_empty_db t))
      as [Hc Hp]. fold w in Hc, Hp.
    split; intros n d Hd.
    + specialize (Hc n d Hd). lia.
    + specialize (Hp n d Hd). lia.
Qed.

Lemma created_record_and_dates_witness :
  clock_never_set_back [(ticking, create_content)] /\
  contents (run secret_env [(ticking, create_content)] (empty_db 1000)) !! 0%nat
  = Some created_while_ticking /\
  Content.createdAt created_while_ticking <= Content.updatedAt created_while_ticking.
Proof.
  assert (H : clock_never_set_back [(ticking, create_content)]).
  { repeat constructor; simpl; lia. }
  split; [exact H |]. split; [by vm_compute |].
  refine (proj1 (proj2 (proj2 (proj2 (created_record_and_dates secret_env)))
            1000 [(ticking, create_content)] H) 0%nat created_while_ticking _).
  by vm_compute.
Defined.

(** C6 as stated fails.  The two dates are two separate defaults, each its
    own call of [Date.now]: when the clock advances by a millisecond between
    the two, a record is created with createdAt 1000 and updatedAt 1001.
    And an update takes updatedAt from the clock as it is then: after the
    clock was set back, a record created at 1000 is updated to
    updatedAt 995. *)
Lemma createdAt_differs_from_updatedAt_counterexample :
  (exists w',
     app secret_env ticking create_content (empty_db 1000)
     = (Ok (Resp 201 (JContent created_while_ticking)), w') /\
     contents w' !! 0%nat = Some created_while_ticking /\
     Content.createdAt created_while_ticking = 1000 /\
     Content.updatedAt created_while_ticking = 1001 /\
     Content.createdAt created_while_ticking
     <> Content.updatedAt created_while_ticking) /\
  (exists d w',
     app secret_env set_back
         (Request (Protected (PUT_content (ObjectId 0))) (Some "s3cret")
                  {[ "description" := "new" ]} None) sample_world
     = (Ok (Resp 200 (JContent d)), w') /\
     contents w' !! 0%nat = Some d /\
     Content.createdAt d = 1000 /\
     Content.updatedAt d = 995 /\
     ~ Content.createdAt d <= Content.updatedAt d).
Proof.
  split.
  - eexists. split; [by vm_compute |]. by vm_compute.
  - eexists _, _. split; [by vm_compute |]. by vm_compute.
Qed.

(** * Further properties of the code *)

(** ** Helper lemmas *)

Lemma calls_since_same (w : world) cs ps nid ck :
  calls_since w (World cs ps nid ck (trace w)) = [].
Proof. unfold calls_since. cbn. by rewrite drop_all. Qed.


Lemma app_get_content_item (e : env) (o : oracle) (hdr : option string)
    (flds : gmap string string) (att : option file_part) (n : nat) (w : world) :
  app e o (Request (GET_content_item (ObjectId n)) hdr flds att) w
  = (Ok (match contents w !! n with
         | Some d => Resp 200 (JContent d)
         | None => Resp 404 (JError (Text "Content not found"))
         end),
     World (contents w) (projects w) (next_id w) (clock w)
           (trace w ++ [db_findById ContentModel n])).
Proof.
  unfold app, get_content_item, Content_findById, respond_500. unfold_M. cbn.
  by destruct (contents w !! n).
Qed.

Lemma app_get_project (e : env) (o : oracle) (hdr : option string)
    (flds : gmap string string) (att : option file_part) (n : nat) (w : world) :
  app e o (Request (GET_project (ObjectId n)) hdr flds att) w
  = (Ok (match projects w !! n with
         | Some d => Resp 200 (JProject d)
         | None => Resp 404 (JError (Text "Project not found"))
         end),
     World (contents w) (projects w) (next_id w) (clock w)
           (trace w ++ [db_findById ProjectModel n])).
Proof.
  unfold app, get_project, Project_findById, respond_500. unfold_M. cbn.
  by destruct (projects w !! n).
Qed.

Lemma app_get_content_by_category (e : env) (o : oracle) (hdr : option string)
    (flds : gmap string string) (att : option file_part) (category : string)
    (w : world) :
  app e o (Request (GET_content_category category) hdr flds att) w
  = (Ok (Resp 200 (JContents
           (newest_first Content.createdAt
              (filter (fun d => Content.category d = Some category)
                      (stored_contents w))))),
     World (contents w) (projects w) (next_id w) (clock w)
           (trace w ++ [db_find ContentModel])).
Proof. reflexivity. Qed.

Lemma app_get_projects (e : env) (o : oracle) (hdr : option string)
    (flds : gmap string string) (att : option file_part) (w : world) :
  app e o (Request GET_projects hdr flds att) w
  = (Ok (Resp 200 (JProjects
           (newest_first Project.createdAt (map_to_list (projects w)).*2))),
     World (contents w) (projects w) (next_id w) (clock w)
           (trace w ++ [db_find ProjectModel])).
Proof. reflexivity. Qed.

Lemma app_verify_admin (e : env) (o : oracle) (hdr : option string)
    (flds : gmap string string) (att : option file_part) (w : world) :
  app e o (Request POST_verify_admin hdr flds att) w
  = (Ok (Resp 200 (JValid (bool_decide (flds !! "password" = ADMIN_PASSWORD e)))),
     w).
Proof.
  unfold app, verify_admin, strict_eq, make_req. cbn.
  by destruct (bool_decide (flds !! "password" = ADMIN_PASSWORD e)).
Qed.

Lemma app_get_malformed (e : env) (o : oracle) (hdr : option string)
    (flds : gmap string string) (att : option file_part) (w : world) :
  app e o (Request (GET_content_item Malformed) hdr flds att) w
  = (Ok (Resp 500 (JError (MessageOf (CastError ContentModel)))), w) /\
  app e o (Request (GET_project Malformed) hdr flds att) w
  = (Ok (Resp 500 (JError (MessageOf (CastError ProjectModel)))), w).
Proof. split; reflexivity. Qed.

(** A create answered 201, read back in full. *)

Lemma created_content_inv (e : env) (o : oracle) (hdr : option string)
    (flds : gmap string string) (att : option file_part) (w w' : world)
    (d : Content.t) :
  app e o (Request (Protected POST_content) hdr flds att) w
  = (Ok (Resp 201 (JContent d)), w') ->
  exists f resp,
    att = Some f /\ hdr = ADMIN_PASSWORD e /\
    array_includes allowedTypes (part_mimetype f) = true /\
    uploaded o = Some resp /\
    d = Content.Build (next_id w) (flds !! "title") (flds !! "description")
          (Some (secure_url resp)) (Some (part_mimetype f))
          (Some (public_id resp)) (flds !! "category")
          (clock w + elapsed1 o) (clock w + elapsed1 o + elapsed2 o) /\
    valid_Content d /\
    w' = World (<[next_id w := d]> (contents w)) (projects w) (S (next_id w))
               (clock w + elapsed1 o + elapsed2 o)
               (trace w ++
                [cloudinary_upload
                   (folder (storage_params
                             (when_file_arrives (Req EmptyString hdr flds att None) f) f))
                   (resource_kind (part_mimetype f));
                 db_save ContentModel (next_id w)]).
Proof.
  destruct (decide (hdr = ADMIN_PASSWORD e)) as [Hauth | Hauth];
    [| by rewrite app_unauthorized].
  rewrite app_authorized by done. cbn [after_authenticate].
  unfold try_catch at 1, mbind, M_bind.
  destruct att as [f |]; [| by rewrite upload_single_no_file].
  destruct (array_includes allowedTypes (part_mimetype f)) eqn:Hty;
    [| by rewrite (upload_single_bad_type o _ f)].
  destruct (Z_lt_ge_dec (part_size f) limits_fileSize) as [Hsz | Hsz];
    [| by rewrite (upload_single_too_large o _ f) by (done || lia)].
  destruct (uploaded o) as [resp |] eqn:Hup;
    [| by rewrite (upload_single_rejected_by_store o _ f)].
  rewrite (upload_single_stored o _ f resp) by done.
  erewrite post_content_with_file by reflexivity.
  cbn [body path mimetype filename next_id clock contents projects trace].
  match goal with |- context [invalid_paths ?l] =>
    destruct (invalid_paths l) eqn:Hv end; [| discriminate].
  intros [= <- <-]. exists f, resp. rewrite <- app_assoc.
  repeat split; done.
Qed.

Lemma created_project_inv (e : env) (o : oracle) (hdr : option string)
    (flds : gmap string string) (att : option file_part) (w w' : world)
    (d : Project.t) :
  app e o (Request (Protected POST_projects) hdr flds att) w
  = (Ok (Resp 201 (JProject d)), w') ->
  exists f resp,
    att = Some f /\ hdr = ADMIN_PASSWORD e /\
    array_includes allowedTypes (part_mimetype f) = true /\
    uploaded o = Some resp /\
    d = Project.Build (next_id w) (flds !! "projectTitle")
          (flds !! "studentName") (flds !! "rollNo") (flds !! "department")
          (flds !! "year") (flds !! "description")
          (Some (secure_url resp)) (Some (part_mimetype f))
          (Some (public_id resp))
          (clock w + elapsed1 o) (clock w + elapsed1 o + elapsed2 o) /\
    valid_Project d /\
    w' = World (contents w) (<[next_id w := d]> (projects w)) (S (next_id w))
               (clock w + elapsed1 o + elapsed2 o)
               (trace w ++
                [cloudinary_upload
                   (folder (storage_params
                             (when_file_arrives (Req EmptyString hdr flds att None) f) f))
                   (resource_kind (part_mimetype f));
                 db_save ProjectModel (next_id w)]).
Proof.
  destruct (decide (hdr = ADMIN_PASSWORD e)) as [Hauth | Hauth];
    [| by rewrite app_unauthorized].
  rewrite app_authorized by done. cbn [after_authenticate].
  unfold try_catch at 1, mbind, M_bind.
  destruct att as [f |]; [| by rewrite upload_single_no_file].
  destruct (array_includes allowedTypes (part_mimetype f)) eqn:Hty;
    [| by rewrite (upload_single_bad_type o _ f)].
  destruct (Z_lt_ge_dec (part_size f) limits_fileSize) as [Hsz | Hsz];
    [| by rewrite (upload_single_too_large o _ f) by (done || lia)].
  destruct (uploaded o) as [resp |] eqn:Hup;
    [| by rewrite (upload_single_rejected_by_store o _ f)].
  rewrite (upload_single_stored o _ f resp) by done.
  erewrite post_project_with_file by reflexivity.
  cbn [body path mimetype filename next_id clock contents projects trace].
  match goal with |- context [invalid_paths ?l] =>
    destruct (invalid_paths l) eqn:Hv end; [| discriminate].
  intros [= <- <-]. exists f, resp. rewrite <- app_assoc.
  repeat split; done.
Qed.

(** ** Reading: the public routes *)

(** X1.  A record created with 201 can be read back: a GET of its id on the
    world the create left answers 200 with exactly that record, and the
    listing of its category (for a project, the listing of all projects)
    contains it. *)
Theorem created_record_can_be_read_back
    (e : env) (o : oracle) (hdr : option string) (flds : gmap string string)
    (att : option file_part) (w : world) :
  (forall d : Content.t,
     (app e o (Request (Protected POST_content) hdr flds att) w).1
     = Ok (Resp 201 (JContent d)) ->
     let w' := (app e o (Request (Protected POST_content) hdr flds att) w).2 in
     (forall o' hdr' flds' att',
        (app e o' (Request (GET_content_item (ObjectId (Content._id d)))
                           hdr' flds' att') w').1
        = Ok (Resp 200 (JContent d))) /\
     (forall o' hdr' flds' att' c,
        Content.category d = Some c ->
        exists l,
          (app e o' (Request (GET_content_category c) hdr' flds' att') w').1
          = Ok (Resp 200 (JContents l)) /\ In d l)) /\
  (forall d : Project.t,
     (app e o (Request (Protected POST_projects) hdr flds att) w).1
     = Ok (Resp 201 (JProject d)) ->
     let w' := (app e o (Request (Protected POST_projects) hdr flds att) w).2 in
     (forall o' hdr' flds' att',
        (app e o' (Request (GET_project (ObjectId (Project._id d)))
                           hdr' flds' att') w').1
        = Ok (Resp 200 (JProject d))) /\
     (forall o' hdr' flds' att',
        exists l,
          (app e o' (Request GET_projects hdr' flds' att') w').1
          = Ok (Resp 200 (JProjects l)) /\ In d l)).
Proof.
  split; intros d Hres w'; subst w'.
  - destruct (app e o (Request (Protected POST_content) hdr flds att) w)
      as [res w'] eqn:Happ. cbn [fst snd] in *. subst res.
    destruct (created_content e o hdr flds att w w' d Happ)
      as (resp & _ & Hd & _).
    split.
    + intros o' hdr' flds' att'. rewrite app_get_content_item. cbn [fst].
      by rewrite Hd.
    + intros o' hdr' flds' att' c Hc. rewrite app_get_content_by_category.
      eexists. split; [reflexivity |].
      apply list_elem_of_In. rewrite newest_first_Permutation.
      apply list_elem_of_filter. split; [done |].
      apply elem_of_stored_contents. by exists (Content._id d).
  - destruct (app e o (Request (Protected POST_projects) hdr flds att) w)
      as [res w'] eqn:Happ. cbn [fst snd] in *. subst res.
    destruct (created_project e o hdr flds att w w' d Happ)
      as (resp & _ & Hd & _).
    split.
    + intros o' hdr' flds' att'. rewrite app_get_project. cbn [fst].
      by rewrite Hd.
    + intros o' hdr' flds' att'. rewrite app_get_projects.
      eexists. split; [reflexivity |].
      apply list_elem_of_In. rewrite newest_first_Permutation.
      apply list_elem_of_fmap. exists (Project._id d, d). split; [done |].
      by apply elem_of_map_to_list.
Qed.

Lemma created_record_can_be_read_back_witness :
  (app secret_env calm create_content (empty_db 1000)).1
  = Ok (Resp 201 (JContent created_while_calm)) /\
  (app secret_env calm
       (Request (GET_content_item (ObjectId 0)) None ∅ None)
       (app secret_env calm create_content (empty_db 1000)).2).1
  = Ok (Resp 200 (JContent created_while_calm)).
Proof.
  assert (H : (app secret_env calm create_content (empty_db 1000)).1
              = Ok (Resp 201 (JContent created_while_calm))) by by vm_compute.
  split; [exact H |].
  exact (proj1 (proj1 (created_record_can_be_read_back secret_env calm
                         (Some "s3cret") content_fields (Some sample_png)
                         (empty_db 1000)) created_while_calm H)
               calm None ∅ None).
Defined.

(** X2.  GET /api/projects answers 200 with all stored projects, each as
    often as it is stored and nothing else, newest first by createdAt; it
    makes one database call and leaves both collections as they were. *)
Theorem list_projects_newest_first
    (e : env) (o : oracle) (hdr : option string) (flds : gmap string string)
    (att : option file_part) (w : world) :
  exists l w',
    app e o (Request GET_projects hdr flds att) w
    = (Ok (Resp 200 (JProjects l)), w') /\
    same_db w w' /\
    calls_since w w' = [db_find ProjectModel] /\
    l ≡ₚ (map_to_list (projects w)).*2 /\
    (forall d, In d l <-> exists n, projects w !! n = Some d) /\
    StronglySorted (fun a b => Project.createdAt b <= Project.createdAt a) l.
Proof.
  eexists _, _. split; [apply app_get_projects |].
  split; [by repeat split |].
  split; [apply calls_since_app |].
  split; [apply newest_first_Permutation |].
  split; [| apply newest_first_sorted].
  intros d. rewrite <- list_elem_of_In, newest_first_Permutation.
  rewrite list_elem_of_fmap. split.
  - intros ([n d'] & -> & Hin). exists n. by apply elem_of_map_to_list.
  - intros (n & Hn). exists (n, d). split; [done |]. by apply elem_of_map_to_list.
Qed.



(** X4.  GET /api/content/item/:id and GET /api/projects/:id: a stored id is
    answered 200 with its record, a well-formed id that is not stored 404
    with "Content not found" / "Project not found", and an id that is not a
    well-formed ObjectId 500 with the message of the cast error, without
    any database call. *)
Theorem get_by_id_outcomes
    (e : env) (o : oracle) (hdr : option string) (flds : gmap string string)
    (att : option file_part) (w : world) :
  (forall n,
     let out := app e o (Request (GET_content_item (ObjectId n)) hdr flds att) w in
     out.1 = Ok (match contents w !! n with
                 | Some d => Resp 200 (JContent d)
                 | None => Resp 404 (JError (Text "Content not found"))
                 end) /\
     calls_since w out.2 = [db_findById ContentModel n]) /\
  (forall n,
     let out := app e o (Request (GET_project (ObjectId n)) hdr flds att) w in
     out.1 = Ok (match projects w !! n with
                 | Some d => Resp 200 (JProject d)
                 | None => Resp 404 (JError (Text "Project not found"))
                 end) /\
     calls_since w out.2 = [db_findById ProjectModel n]) /\
  app e o (Request (GET_content_item Malformed) hdr flds att) w
  = (Ok (Resp 500 (JError (MessageOf (CastError ContentModel)))), w) /\
  app e o (Request (GET_project Malformed) hdr flds att) w
  = (Ok (Resp 500 (JError (MessageOf (CastError ProjectModel)))), w).
Proof.
  split; [| split; [| apply app_get_malformed]].
  - intros n out. subst out. rewrite app_get_content_item.
    split; [done | apply calls_since_app].
  - intros n out. subst out. rewrite app_get_project.
    split; [done | apply calls_since_app].
Qed.

(** ** Updating: how the body is merged *)

Lemma js_or_kept (a v : option string) :
  a = None \/ a = Some EmptyString -> js_or a v = v.
Proof. by intros [-> | ->]. Qed.

Lemma js_or_taken (s : string) (v : option string) :
  s <> EmptyString -> js_or (Some s) v = Some s.
Proof. intros Hs. unfold js_or. by rewrite truthy_Some. Qed.

(** X5.  PUT /api/content/:id without a file, on a stored record that
    passes validation, always answers 200 and stores the result, whatever
    the body holds.  title and description are replaced by the body's value
    when that is a non-empty string and kept otherwise, so neither can be
    cleared; category, _id and createdAt are never changed, even when the
    body carries a category; updatedAt is the reading of the clock; and the
    record stored still passes validation. *)
Theorem update_content_merges_body
    (e : env) (o : oracle) (hdr : option string) (flds : gmap string string)
    (n : nat) (was : Content.t) (w : world) :
  hdr = ADMIN_PASSWORD e ->
  contents w !! n = Some was ->
  valid_Content was ->
  let out := app e o (Request (Protected (PUT_content (ObjectId n))) hdr flds None) w in
  exists d,
    out.1 = Ok (Resp 200 (JContent d)) /\
    contents out.2 !! Content._id was = Some d /\
    valid_Content d /\
    Content.title d = js_or (flds !! "title") (Content.title was) /\
    Content.description d
    = js_or (flds !! "description") (Content.description was) /\
    Content.category d = Content.category was /\
    Content._id d = Content._id was /\
    Content.createdAt d = Content.createdAt was /\
    Content.updatedAt d = clock w + elapsed1 o /\
    (forall k v, flds !! k = None \/ flds !! k = Some EmptyString ->
                 js_or (flds !! k) v = v) /\
    (forall k s v, flds !! k = Some s -> s <> EmptyString ->
                   js_or (flds !! k) v = Some s).
Proof.
  intros Hauth Hw Hv out. subst out.
  rewrite (app_put_content_without_file e o hdr flds n was w) by done.
  match goal with |- context [updated_Content ?r ?t was] =>
    pose proof (updated_Content_valid r t was Hv I) as Hd end.
  pose proof Hd as Hd'. unfold valid_Content in Hd'. rewrite Hd'.
  eexists. split; [reflexivity |]. cbn [snd contents].
  split; [apply lookup_insert_eq |]. split; [exact Hd |].
  repeat (split; [reflexivity |]).
  split.
  - intros k v. apply js_or_kept.
  - intros k s v -> Hs. by apply js_or_taken.
Qed.

Lemma update_content_merges_body_witness :
  exists d,
    (app secret_env calm
         (Request (Protected (PUT_content (ObjectId 0))) (Some "s3cret")
                  {[ "title" := EmptyString; "description" := "new" ]} None)
         sample_world).1
    = Ok (Resp 200 (JContent d)) /\
    Content.title d = Some "A" /\
    Content.description d = Some "new".
Proof.
  destruct (update_content_merges_body secret_env calm (Some "s3cret")
              {[ "title" := EmptyString; "description" := "new" ]}
              0%nat sample_content sample_world eq_refl eq_refl eq_refl)
    as (d & H1 & _ & _ & Ht & Hd & _).
  exists d. split; [exact H1 |]. split; [exact Ht | exact Hd].
Defined.

(** X6.  PUT /api/projects/:id without a file, on a stored project that
    passes validation, always answers 200 and stores the result.  Each of
    projectTitle, studentName, rollNo, department, year and description is
    replaced by the body's value when that is a non-empty string and kept
    otherwise; _id, createdAt and the file reference are never changed;
    updatedAt is the reading of the clock; and the project stored still
    passes validation. *)
Theorem update_project_merges_body
    (e : env) (o : oracle) (hdr : option string) (flds : gmap string string)
    (n : nat) (was : Project.t) (w : world) :
  hdr = ADMIN_PASSWORD e ->
  projects w !! n = Some was ->
  valid_Project was ->
  let out := app e o (Request (Protected (PUT_project (ObjectId n))) hdr flds None) w in
  exists d,
    out.1 = Ok (Resp 200 (JProject d)) /\
    projects out.2 !! Project._id was = Some d /\
    valid_Project d /\
    Project.projectTitle d
    = js_or (flds !! "projectTitle") (Project.projectTitle was) /\
    Project.studentName d
    = js_or (flds !! "studentName") (Project.studentName was) /\
    Project.rollNo d = js_or (flds !! "rollNo") (Project.rollNo was) /\
    Project.department d
    = js_or (flds !! "department") (Project.department was) /\
    Project.year d = js_or (flds !! "year") (Project.year was) /\
    Project.description d
    = js_or (flds !! "description") (Project.description was) /\
    Project._id d = Project._id was /\
    Project.createdAt d = Project.createdAt was /\
    Project.fileUrl d = Project.fileUrl was /\
    Project.fileType d = Project.fileType was /\
    Project.publicId d = Project.publicId was /\
    Project.updatedAt d = clock w + elapsed1 o /\
    (forall k v, flds !! k = None \/ flds !! k = Some EmptyString ->
                 js_or (flds !! k) v = v) /\
    (forall k s v, flds !! k = Some s -> s <> EmptyString ->
                   js_or (flds !! k) v = Some s).
Proof.
  intros Hauth Hw Hv out. subst out.
  rewrite (app_put_project_without_file e o hdr flds n was w) by done.
  match goal with |- context [updated_Project ?r ?t was] =>
    pose proof (updated_Project_valid r t was Hv I) as Hd end.
  pose proof Hd as Hd'. unfold valid_Project in Hd'. rewrite Hd'.
  eexists. split; [reflexivity |]. cbn [snd projects].
  split; [apply lookup_insert_eq |]. split; [exact Hd |].
  repeat (split; [reflexivity |]).
  split.
  - intros k v. apply js_or_kept.
  - intros k s v -> Hs. by apply js_or_taken.
Qed.

Lemma update_project_merges_body_witness :
  exists d,
    (app secret_env calm
         (Request (Protected (PUT_project (ObjectId 0))) (Some "s3cret")
                  {[ "year" := "2025" ]} None)
         sample_world).1
    = Ok (Resp 200 (JProject d)) /\
    Project.year d = Some "2025" /\
    Project.rollNo d = Some "7".
Proof.
  destruct (update_project_merges_body secret_env calm (Some "s3cret")
              {[ "year" := "2025" ]}
              0%nat sample_project sample_world eq_refl eq_refl eq_refl)
    as (d & H1 & _ & _ & _ & _ & Hr & _ & Hy & _).
  exists d. split; [exact H1 |]. split; [exact Hy | exact Hr].
Defined.

(** ** Ids that are not stored, ids that are not ObjectIds *)

Lemma put_content_missing (o : oracle) (n : nat) (r : req) (w : world) :
  contents w !! n = None ->
  put_content o (ObjectId n) r w
  = (Ok (Resp 404 (JError (Text "Content not found"))),
     World (contents w) (projects w) (next_id w) (clock w)
           (trace w ++ [db_findById ContentModel n])).
Proof.
  intros Hw. unfold put_content, Content_findById, respond_500. unfold_M. cbn.
  by rewrite Hw.
Qed.

Lemma put_project_missing (o : oracle) (n : nat) (r : req) (w : world) :
  projects w !! n = None ->
  put_project o (ObjectId n) r w
  = (Ok (Resp 404 (JError (Text "Project not found"))),
     World (contents w) (projects w) (next_id w) (clock w)
           (trace w ++ [db_findById ProjectModel n])).
Proof.
  intros Hw. unfold put_project, Project_findById, respond_500. unfold_M. cbn.
  by rewrite Hw.
Qed.

Lemma delete_content_missing (o : oracle) (n : nat) (w : world) :
  contents w !! n = None ->
  delete_content o (ObjectId n) w
  = (Ok (Resp 404 (JError (Text "Content not found"))),
     World (contents w) (projects w) (next_id w) (clock w)
           (trace w ++ [db_findById ContentModel n])).
Proof.
  intros Hw. unfold delete_content, Content_findById, respond_500. unfold_M. cbn.
  by rewrite Hw.
Qed.

Lemma delete_project_missing (o : oracle) (n : nat) (w : world) :
  projects w !! n = None ->
  delete_project o (ObjectId n) w
  = (Ok (Resp 404 (JError (Text "Project not found"))),
     World (contents w) (projects w) (next_id w) (clock w)
           (trace w ++ [db_findById ProjectModel n])).
Proof.
  intros Hw. unfold delete_project, Project_findById, respond_500. unfold_M. cbn.
  by rewrite Hw.
Qed.

(** X7.  PUT and DELETE on a well-formed id that is not stored, past the
    gate: the answer is 404 with "Content not found" / "Project not found",
    the only database call is the lookup, nothing is written and nothing is
    destroyed on Cloudinary.  A file sent with such a PUT has already been
    uploaded by then and is left on Cloudinary, with no record pointing
    to it. *)
Theorem unknown_id_is_answered_404
    (e : env) (o : oracle) (hdr : option string) (flds : gmap string string)
    (n : nat) (w : world) :
  hdr = ADMIN_PASSWORD e ->
  (contents w !! n = None ->
   let gone := Resp 404 (JError (Text "Content not found")) in
   let after t := World (contents w) (projects w) (next_id w) (clock w)
                        (trace w ++ t) in
   (forall att,
      app e o (Request (Protected (DELETE_content (ObjectId n))) hdr flds att) w
      = (Ok gone, after [db_findById ContentModel n])) /\
   app e o (Request (Protected (PUT_content (ObjectId n))) hdr flds None) w
   = (Ok gone, after [db_findById ContentModel n]) /\
   (forall f resp,
      array_includes allowedTypes (part_mimetype f) = true ->
      part_size f < limits_fileSize ->
      uploaded o = Some resp ->
      exists dir,
        app e o (Request (Protected (PUT_content (ObjectId n))) hdr flds (Some f)) w
        = (Ok gone,
           after [cloudinary_upload dir (resource_kind (part_mimetype f));
                  db_findById ContentModel n]))) /\
  (projects w !! n = None ->
   let gone := Resp 404 (JError (Text "Project not found")) in
   let after t := World (contents w) (projects w) (next_id w) (clock w)
                        (trace w ++ t) in
   (forall att,
      app e o (Request (Protected (DELETE_project (ObjectId n))) hdr flds att) w
      = (Ok gone, after [db_findById ProjectModel n])) /\
   app e o (Request (Protected (PUT_project (ObjectId n))) hdr flds None) w
   = (Ok gone, after [db_findById ProjectModel n]) /\
   (forall f resp,
      array_includes allowedTypes (part_mimetype f) = true ->
      part_size f < limits_fileSize ->
      uploaded o = Some resp ->
      exists dir,
        app e o (Request (Protected (PUT_project (ObjectId n))) hdr flds (Some f)) w
        = (Ok gone,
           after [cloudinary_upload dir (resource_kind (part_mimetype f));
                  db_findById ProjectModel n]))).
Proof.
  intros Hauth. split; intros Hw gone after; subst gone after; cbv beta.
  - split; [| split].
    + intros att. rewrite app_authorized by done. cbn [after_authenticate].
      unfold try_catch at 1. by rewrite delete_content_missing.
    + rewrite app_authorized by done. cbn [after_authenticate].
      unfold try_catch at 1, mbind, M_bind.
      rewrite upload_single_no_file by done. by rewrite put_content_missing.
    + intros f resp Hty Hsz Hup. eexists.
      rewrite app_authorized by done. cbn [after_authenticate].
      unfold try_catch at 1, mbind, M_bind.
      rewrite (upload_single_stored o _ f resp) by done.
      rewrite put_content_missing by done. cbn. by rewrite <- app_assoc.
  - split; [| split].
    + intros att. rewrite app_authorized by done. cbn [after_authenticate].
      unfold try_catch at 1. by rewrite delete_project_missing.
    + rewrite app_authorized by done. cbn [after_authenticate].
      unfold try_catch at 1, mbind, M_bind.
      rewrite upload_single_no_file by done. by rewrite put_project_missing.
    + intros f resp Hty Hsz Hup. eexists.
      rewrite app_authorized by done. cbn [after_authenticate].
      unfold try_catch at 1, mbind, M_bind.
      rewrite (upload_single_stored o _ f resp) by done.
      rewrite put_project_missing by done. cbn. by rewrite <- app_assoc.
Qed.

Lemma unknown_id_is_answered_404_witness :
  app secret_env calm
      (Request (Protected (DELETE_content (ObjectId 7))) (Some "s3cret") ∅ None)
      sample_world
  = (Ok (Resp 404 (JError (Text "Content not found"))),
     World (contents sample_world) (projects sample_world) 1 1000
           [db_findById ContentModel 7]).
Proof.
  refine (proj1 (proj1 (unknown_id_is_answered_404 secret_env calm
            (Some "s3cret") ∅ 7%nat sample_world eq_refl) _) None).
  reflexivity.
Defined.

Lemma app_put_malformed_with_file
    (e : env) (o : oracle) (hdr : option string) (flds : gmap string string)
    (f : file_part) (w : world) (p : protected_route) :
  hdr = ADMIN_PASSWORD e ->
  p = PUT_content Malformed \/ p = PUT_project Malformed ->
  exists res t,
    app e o (Request (Protected p) hdr flds (Some f)) w
    = (Ok res,
       World (contents w) (projects w) (next_id w) (clock w) (trace w ++ t)) /\
    status res = 500%nat /\
    filter is_db_call t = [].
Proof.
  intros Hauth Hp. rewrite app_authorized by done.
  destruct Hp as [-> | ->]; cbn [after_authenticate];
    unfold try_catch at 1, mbind, M_bind;
    (destruct (array_includes allowedTypes (part_mimetype f)) eqn:Hty;
     [ destruct (Z_lt_ge_dec (part_size f) limits_fileSize) as [Hsz | Hsz];
       [ destruct (uploaded o) as [resp |] eqn:Hup;
         [ rewrite (upload_single_stored o _ f resp) by done
         | rewrite (upload_single_rejected_by_store o _ f) by done ]
       | rewrite (upload_single_too_large o _ f) by (done || lia) ]
     | rewrite (upload_single_bad_type o _ f) by done ]);
    unfold error_middleware, put_content, put_project, Content_findById,
      Project_findById, respond_500; unfold_M;
    cbn; rewrite <- ?app_assoc; eexists _, _; (split; [reflexivity |]); done.
Qed.

(** X8.  PUT and DELETE with an id that is not a well-formed ObjectId, past
    the gate: [findById] raises a cast error, which the handler's [catch]
    answers with 500 and the error's message, not with 404.  A DELETE, and
    a PUT without a file, leave the world exactly as it was: no database
    call, nothing destroyed.  A PUT with a file is answered 500 as well,
    makes no database call and leaves the collections as they were. *)
Theorem malformed_id_is_answered_500
    (e : env) (o : oracle) (hdr : option string) (flds : gmap string string)
    (w : world) :
  hdr = ADMIN_PASSWORD e ->
  (forall att,
     app e o (Request (Protected (DELETE_content Malformed)) hdr flds att) w
     = (Ok (Resp 500 (JError (MessageOf (CastError ContentModel)))), w)) /\
  (forall att,
     app e o (Request (Protected (DELETE_project Malformed)) hdr flds att) w
     = (Ok (Resp 500 (JError (MessageOf (CastError ProjectModel)))), w)) /\
  app e o (Request (Protected (PUT_content Malformed)) hdr flds None) w
  = (Ok (Resp 500 (JError (MessageOf (CastError ContentModel)))), w) /\
  app e o (Request (Protected (PUT_project Malformed)) hdr flds None) w
  = (Ok (Resp 500 (JError (MessageOf (CastError ProjectModel)))), w) /\
  (forall f,
     let out := app e o (Request (Protected (PUT_content Malformed)) hdr flds (Some f)) w in
     same_db w out.2 /\
     filter is_db_call (calls_since w out.2) = [] /\
     exists res, out.1 = Ok res /\ status res = 500%nat) /\
  (forall f,
     let out := app e o (Request (Protected (PUT_project Malformed)) hdr flds (Some f)) w in
     same_db w out.2 /\
     filter is_db_call (calls_since w out.2) = [] /\
     exists res, out.1 = Ok res /\ status res = 500%nat).
Proof.
  intros Hauth.
  split; [intros att; by rewrite app_authorized |].
  split; [intros att; by rewrite app_authorized |].
  split; [by rewrite app_authorized |].
  split; [by rewrite app_authorized |].
  split; intros f out; subst out.
  - destruct (app_put_malformed_with_file e o hdr flds f w (PUT_content Malformed))
      as (res & t & -> & Hres & Hdb); [done | by left |].
    cbn [fst snd]. rewrite calls_since_app.
    split; [by repeat split |]. split; [done |]. by exists res.
  - destruct (app_put_malformed_with_file e o hdr flds f w (PUT_project Malformed))
      as (res & t & -> & Hres & Hdb); [done | by right |].
    cbn [fst snd]. rewrite calls_since_app.
    split; [by repeat split |]. split; [done |]. by exists res.
Qed.

Lemma malformed_id_is_answered_500_witness :
  app secret_env calm
      (Request (Protected (DELETE_project Malformed)) (Some "s3cret") ∅ None)
      sample_world
  = (Ok (Resp 500 (JError (MessageOf (CastError ProjectModel)))), sample_world).
Proof.
  exact (proj1 (proj2 (malformed_id_is_answered_500 secret_env calm
           (Some "s3cret") ∅ sample_world eq_refl)) None).
Defined.

(** ** Errors of the upload stage *)

Lemma app_upload_refused
    (e : env) (o : oracle) (p : protected_route) (hdr : option string)
    (flds : gmap string string) (f : file_part) (w : world) (err : error) (w1 : world) :
  hdr = ADMIN_PASSWORD e ->
  (p = POST_content \/ p = POST_projects \/
   (exists id, p = PUT_content id) \/ (exists id, p = PUT_project id)) ->
  upload_single o (Req EmptyString hdr flds (Some f) None) w = (Throw err, w1) ->
  app e o (Request (Protected p) hdr flds (Some f)) w
  = (Ok (Resp 500 (JError (error_message err))),
     World (contents w1) (projects w1) (next_id w1) (clock w1)
           (trace w1 ++ [console_error "Error:"])).
Proof.
  intros Hauth Hp Hup. rewrite app_authorized by done.
  destruct Hp as [-> | [-> | [[id ->] | [id ->]]]]; cbn [after_authenticate];
    unfold try_catch at 1, mbind, M_bind; by rewrite Hup.
Qed.

(** X9.  On the four routes that take a file (POST and PUT, content and
    projects), past the gate, an error of the upload stage goes to the
    error-handling middleware and is answered 500, not 400: a MIME type
    that is not listed gives the message of [fileFilter] before anything
    is sent to Cloudinary, a file that reaches the size limit the message
    of multer's LIMIT_FILE_SIZE error, after the upload was opened and what
    it stored removed again, an upload that Cloudinary rejects the message
    of that error.  In each case the route's handler does not run: no
    database call is made and the collections are as they were. *)
Theorem upload_errors_are_answered_500
    (e : env) (o : oracle) (p : protected_route) (hdr : option string)
    (flds : gmap string string) (f : file_part) (w : world) :
  hdr = ADMIN_PASSWORD e ->
  (p = POST_content \/ p = POST_projects \/
   (exists id, p = PUT_content id) \/ (exists id, p = PUT_project id)) ->
  let out := app e o (Request (Protected p) hdr flds (Some f)) w in
  (array_includes allowedTypes (part_mimetype f) = false ->
   out = (Ok (Resp 500 (JError (Text
            "Invalid file type. Only images, videos, PDFs, and Word documents are allowed."))),
          World (contents w) (projects w) (next_id w) (clock w)
                (trace w ++ [console_error "Error:"]))) /\
  (array_includes allowedTypes (part_mimetype f) = true ->
   limits_fileSize <= part_size f ->
   out.1 = Ok (Resp 500 (JError (MessageOf (MulterError "LIMIT_FILE_SIZE")))) /\
   same_db w out.2 /\ filter is_db_call (calls_since w out.2) = [] /\
   calls_since w out.2
   = [ upload_call (Req EmptyString hdr flds (Some f) None) f;
       cloudinary_remove (public_id <$> uploaded o);
       console_error "Error:" ]) /\
  (array_includes allowedTypes (part_mimetype f) = true ->
   part_size f < limits_fileSize ->
   uploaded o = None ->
   out.1 = Ok (Resp 500 (JError (MessageOf CloudinaryError))) /\
   same_db w out.2 /\ filter is_db_call (calls_since w out.2) = []).
Proof.
  intros Hauth Hp out. subst out. split; [| split].
  - intros Hty.
    by rewrite (app_upload_refused e o p hdr flds f w _ _ Hauth Hp
                  (upload_single_bad_type o (Req EmptyString hdr flds (Some f) None) f w
                     eq_refl Hty)).
  - intros Hty Hsz.
    rewrite (app_upload_refused e o p hdr flds f w _ _ Hauth Hp
               (upload_single_too_large o (Req EmptyString hdr flds (Some f) None) f w
                  eq_refl Hty Hsz)).
    cbn [fst snd contents projects next_id clock trace].
    rewrite <- app_assoc, calls_since_app.
    split; [done |]. split; [by repeat split | done].
  - intros Hty Hsz Hup.
    rewrite (app_upload_refused e o p hdr flds f w _ _ Hauth Hp
               (upload_single_rejected_by_store o
                  (Req EmptyString hdr flds (Some f) None) f w eq_refl Hty Hsz Hup)).
    cbn [fst snd contents projects next_id clock trace].
    rewrite <- app_assoc, calls_since_app.
    split; [done |]. split; [by repeat split | done].
Qed.

Lemma upload_errors_are_answered_500_witness :
  app secret_env calm
      (Request (Protected (PUT_project (ObjectId 0))) (Some "s3cret") ∅
               (Some sample_zip)) sample_world
  = (Ok (Resp 500 (JError (Text
       "Invalid file type. Only images, videos, PDFs, and Word documents are allowed."))),
     World (contents sample_world) (projects sample_world) 1 1000
           [console_error "Error:"]).
Proof.
  refine (proj1 (upload_errors_are_answered_500 secret_env calm
            (PUT_project (ObjectId 0)) (Some "s3cret") ∅ sample_zip sample_world
            eq_refl _) eq_refl).
  right. right. right. by exists (ObjectId 0).
Defined.

(** ** The credential *)



Lemma rejected_or_public_calls (e : env) (o : oracle) (rq : request) (w : world) :
  x_admin_password rq <> ADMIN_PASSWORD e \/ (forall p, target rq <> Protected p) ->
  exists t,
    (app e o rq w).2
    = World (contents w) (projects w) (next_id w) (clock w) (trace w ++ t) /\
    filter is_cloudinary_call t = [] /\ destroyed t = [].
Proof.
  destruct rq as [[c | [n |] | | [n |] | | p] hdr flds att]; cbn [target x_admin_password];
    intros Hrq.
  - rewrite app_get_content_by_category. by eexists.
  - rewrite app_get_content_item. by eexists.
  - rewrite (proj1 (app_get_malformed e o hdr flds att w)).
    exists []. rewrite app_nil_r. by destruct w.
  - rewrite app_get_projects. by eexists.
  - rewrite app_get_project. by eexists.
  - rewrite (proj2 (app_get_malformed e o hdr flds att w)).
    exists []. rewrite app_nil_r. by destruct w.
  - rewrite app_verify_admin. exists []. rewrite app_nil_r. by destruct w.
  - destruct Hrq as [Hrq | Hrq]; [| by destruct (Hrq p)].
    rewrite app_unauthorized by done.
    exists []. rewrite app_nil_r. by destruct w.
Qed.

(** X11.  Without the secret nothing can be changed: over any sequence of
    requests in which no request carries an [x-admin-password] header equal
    to the configured secret, whatever the routes, bodies and files, both
    collections, the ObjectId generator and the clock are at the end what
    they were at the start, and nothing has been uploaded to or destroyed
    on Cloudinary. *)
Theorem wrong_credential_changes_nothing
    (e : env) (xs : list (oracle * request)) (w : world) :
  Forall (fun x => x_admin_password x.2 <> ADMIN_PASSWORD e) xs ->
  same_db w (run e xs w) /\
  filter is_cloudinary_call (calls_since w (run e xs w)) = [].
Proof.
  intros Hxs.
  assert (H : exists t,
            run e xs w
            = World (contents w) (projects w) (next_id w) (clock w) (trace w ++ t) /\
            filter is_cloudinary_call t = []).
  { unfold run. revert w. induction Hxs as [| [o rq] xs Hx _ IH]; intros w.
    - exists []. rewrite app_nil_r. by destruct w.
    - cbn [foldl]. unfold step at 2. cbn [fst snd] in *.
      destruct (rejected_or_public_calls e o rq w (or_introl Hx))
        as (t1 & -> & Ht1 & _).
      destruct (IH (World (contents w) (projects w) (next_id w) (clock w)
                          (trace w ++ t1))) as (t2 & -> & Ht2).
      cbn [contents projects next_id clock trace].
      exists (t1 ++ t2). rewrite app_assoc. split; [done |].
      by rewrite filter_app, Ht1, Ht2. }
  destruct H as (t & -> & Ht). rewrite calls_since_app.
  split; [by repeat split | done].
Qed.

Lemma wrong_credential_changes_nothing_witness :
  same_db sample_world
    (run secret_env
         [ (calm, Request (Protected (DELETE_content (ObjectId 0))) None ∅ None);
           (calm, Request (Protected POST_content) (Some "guess") content_fields
                          (Some sample_png)) ]
         sample_world).
Proof.
  refine (proj1 (wrong_credential_changes_nothing secret_env _ sample_world _)).
  repeat constructor; discriminate.
Defined.

(** ** One request, one document *)

(** X12.  A request changes at most one document: whatever the request,
    one of the two collections is left entirely as it was, and in the other
    there is an id such that every other id holds afterwards what it held
    before. *)
Theorem request_changes_at_most_one_document
    (e : env) (o : oracle) (rq : request) (w : world) :
  let w' := (app e o rq w).2 in
  (projects w' = projects w /\
   exists n, forall m, m <> n -> contents w' !! m = contents w !! m) \/
  (contents w' = contents w /\
   exists n, forall m, m <> n -> projects w' !! m = projects w !! m).
Proof.
  intros w'. subst w'.
  destruct (app_db_step e o rq w) as
    [Hcs Hps _ _
    | d Hcs Hps _ _ _ _ _
    | n was d Hwas Hcs Hps _ _ _ _ _
    | n Hcs Hps _ _
    | d Hps Hcs _ _ _ _ _
    | n was d Hwas Hps Hcs _ _ _ _ _
    | n Hps Hcs _ _ ].
  - left. split; [done |]. exists 0%nat. intros m _. by rewrite Hcs.
  - left. split; [done |]. exists (next_id w). intros m Hm.
    rewrite Hcs. by apply lookup_insert_ne.
  - left. split; [done |]. exists (Content._id was). intros m Hm.
    rewrite Hcs. by apply lookup_insert_ne.
  - left. split; [done |]. exists n. intros m Hm.
    rewrite Hcs. by apply lookup_delete_ne.
  - right. split; [done |]. exists (next_id w). intros m Hm.
    rewrite Hps. by apply lookup_insert_ne.
  - right. split; [done |]. exists (Project._id was). intros m Hm.
    rewrite Hps. by apply lookup_insert_ne.
  - right. split; [done |]. exists n. intros m Hm.
    rewrite Hps. by apply lookup_delete_ne.
Qed.

(** ** The handlers, in every case *)

Lemma put_content_outcome (o : oracle) (id : id_param) (r : req) (w : world) :
  put_content o id r w
  = match id with
    | Malformed => (Ok (Resp 500 (JError (MessageOf (CastError ContentModel)))), w)
    | ObjectId n =>
      let found := World (contents w) (projects w) (next_id w) (clock w)
                         (trace w ++ [db_findById ContentModel n]) in
      match contents w !! n with
      | None => (Ok (Resp 404 (JError (Text "Content not found"))), found)
      | Some was =>
        let d := updated_Content r (clock w + elapsed1 o) was in
        match req_file r, Content.fileType was with
        | Some _, None =>
          (Ok (Resp 500 (JError (MessageOf TypeError))),
           World (contents w) (projects w) (next_id w) (clock w + elapsed1 o)
                 (trace found))
        | file, ft =>
          let t := trace found ++
                   match file, ft with
                   | Some _, Some ft =>
                     [cloudinary_destroy (Content.publicId was) (resource_kind ft);
                      destroy_report o (Content.publicId was)]
                   | _, _ => []
                   end in
          match invalid_paths (Content.required d) with
          | [] =>
            (Ok (Resp 200 (JContent d)),
             World (<[Content._id was := d]> (contents w)) (projects w)
                   (next_id w) (clock w + elapsed1 o)
                   (t ++ [db_save ContentModel (Content._id was)]))
          | paths =>
            (Ok (Resp 500 (JError (MessageOf (ValidationError ContentModel paths)))),
             World (contents w) (projects w) (next_id w) (clock w + elapsed1 o) t)
          end
        end
      end
    end.
Proof.
  destruct id as [n |]; [| reflexivity]. cbv zeta.
  destruct (contents w !! n) as [was |] eqn:Hw; [| by apply put_content_missing].
  destruct (req_file r) as [f |] eqn:Hf.
  - destruct (Content.fileType was) as [ft |] eqn:Hft.
    + rewrite (put_content_found o n r was w Hw) by (right; by exists ft).
      rewrite Hf, Hft. cbn [trace]. by rewrite <- !app_assoc.
    + unfold put_content, respond_500, Content_findById, Date_now, emit, gets.
      unfold try_catch, mbind, M_bind, mret, M_ret. cbn. rewrite Hw. cbn.
      rewrite Hf. cbn. by rewrite Hft.
  - rewrite (put_content_found o n r was w Hw) by (by left).
    rewrite Hf. cbn [trace]. rewrite <- !app_assoc.
    by destruct (Content.fileType was).
Qed.

Lemma put_project_outcome (o : oracle) (id : id_param) (r : req) (w : world) :
  put_project o id r w
  = match id with
    | Malformed => (Ok (Resp 500 (JError (MessageOf (CastError ProjectModel)))), w)
    | ObjectId n =>
      let found := World (contents w) (projects w) (next_id w) (clock w)
                         (trace w ++ [db_findById ProjectModel n]) in
      match projects w !! n with
      | None => (Ok (Resp 404 (JError (Text "Project not found"))), found)
      | Some was =>
        let d := updated_Project r (clock w + elapsed1 o) was in
        match req_file r, Project.fileType was with
        | Some _, None =>
          (Ok (Resp 500 (JError (MessageOf TypeError))),
           World (contents w) (projects w) (next_id w) (clock w + elapsed1 o)
                 (trace found))
        | file, ft =>
          let t := trace found ++
                   match file, ft with
                   | Some _, Some ft =>
                     [cloudinary_destroy (Project.publicId was) (resource_kind ft);
                      destroy_report o (Project.publicId was)]
                   | _, _ => []
                   end in
          match invalid_paths (Project.required d) with
          | [] =>
            (Ok (Resp 200 (JProject d)),
             World (contents w) (<[Project._id was := d]> (projects w))
                   (next_id w) (clock w + elapsed1 o)
                   (t ++ [db_save ProjectModel (Project._id was)]))
          | paths =>
            (Ok (Resp 500 (JError (MessageOf (ValidationError ProjectModel paths)))),
             World (contents w) (projects w) (next_id w) (clock w + elapsed1 o) t)
          end
        end
      end
    end.
Proof.
  destruct id as [n |]; [| reflexivity]. cbv zeta.
  destruct (projects w !! n) as [was |] eqn:Hw; [| by apply put_project_missing].
  destruct (req_file r) as [f |] eqn:Hf.
  - destruct (Project.fileType was) as [ft |] eqn:Hft.
    + rewrite (put_project_found o n r was w Hw) by (right; by exists ft).
      rewrite Hf, Hft. cbn [trace]. by rewrite <- !app_assoc.
    + unfold put_project, respond_500, Project_findById, Date_now, emit, gets.
      unfold try_catch, mbind, M_bind, mret, M_ret. cbn. rewrite Hw. cbn.
      rewrite Hf. cbn. by rewrite Hft.
  - rewrite (put_project_found o n r was w Hw) by (by left).
    rewrite Hf. cbn [trace]. rewrite <- !app_assoc.
    by destruct (Project.fileType was).
Qed.

Lemma delete_content_outcome (o : oracle) (id : id_param) (w : world) :
  delete_content o id w
  = match id with
    | Malformed => (Ok (Resp 500 (JError (MessageOf (CastError ContentModel)))), w)
    | ObjectId n =>
      let found := World (contents w) (projects w) (next_id w) (clock w)
                         (trace w ++ [db_findById ContentModel n]) in
      match contents w !! n with
      | None => (Ok (Resp 404 (JError (Text "Content not found"))), found)
      | Some was =>
        match Content.fileType was with
        | None => (Ok (Resp 500 (JError (MessageOf TypeError))), found)
        | Some ft =>
          (Ok (Resp 200 (JMessage "Content deleted successfully")),
           World (delete n (contents w)) (projects w) (next_id w) (clock w)
                 (trace w ++ [db_findById ContentModel n;
                              cloudinary_destroy (Content.publicId was)
                                                 (resource_kind ft);
                              destroy_report o (Content.publicId was);
                              db_findByIdAndDelete ContentModel n]))
        end
      end
    end.
Proof.
  destruct id as [n |]; [| reflexivity]. cbv zeta.
  destruct (contents w !! n) as [was |] eqn:Hw; [| by apply delete_content_missing].
  destruct (Content.fileType was) as [ft |] eqn:Hft;
    [by apply delete_content_found |].
  unfold delete_content, respond_500, Content_findById, emit, gets.
  unfold try_catch, mbind, M_bind, mret, M_ret. cbn. rewrite Hw. cbn.
  by rewrite Hft.
Qed.

Lemma delete_project_outcome (o : oracle) (id : id_param) (w : world) :
  delete_project o id w
  = match id with
    | Malformed => (Ok (Resp 500 (JError (MessageOf (CastError ProjectModel)))), w)
    | ObjectId n =>
      let found := World (contents w) (projects w) (next_id w) (clock w)
                         (trace w ++ [db_findById ProjectModel n]) in
      match projects w !! n with
      | None => (Ok (Resp 404 (JError (Text "Project not found"))), found)
      | Some was =>
        match Project.fileType was with
        | None => (Ok (Resp 500 (JError (MessageOf TypeError))), found)
        | Some ft =>
          (Ok (Resp 200 (JMessage "Project deleted successfully")),
           World (contents w) (delete n (projects w)) (next_id w) (clock w)
                 (trace w ++ [db_findById ProjectModel n;
                              cloudinary_destroy (Project.publicId was)
                                                 (resource_kind ft);
                              destroy_report o (Project.publicId was);
                              db_findByIdAndDelete ProjectModel n]))
        end
      end
    end.
Proof.
  destruct id as [n |]; [| reflexivity]. cbv zeta.
  destruct (projects w !! n) as [was |] eqn:Hw; [| by apply delete_project_missing].
  destruct (Project.fileType was) as [ft |] eqn:Hft;
    [by apply delete_project_found |].
  unfold delete_project, respond_500, Project_findById, emit, gets.
  unfold try_catch, mbind, M_bind, mret, M_ret. cbn. rewrite Hw. cbn.
  by rewrite Hft.
Qed.

Lemma post_content_outcome (o : oracle) (r : req) (w : world) :
  post_content o r w
  = match req_file r with
    | None => (Ok (Resp 400 (JError (Text "No file uploaded"))), w)
    | Some f =>
      let d := Content.Build (next_id w) (body r !! "title")
                 (body r !! "description") (Some (path f)) (Some (mimetype f))
                 (Some (filename f)) (body r !! "category")
                 (clock w + elapsed1 o) (clock w + elapsed1 o + elapsed2 o) in
      match invalid_paths (Content.required d) with
      | [] =>
        (Ok (Resp 201 (JContent d)),
         World (<[next_id w := d]> (contents w)) (projects w) (S (next_id w))
               (clock w + elapsed1 o + elapsed2 o)
               (trace w ++ [db_save ContentModel (next_id w)]))
      | paths =>
        (Ok (Resp 500 (JError (MessageOf (ValidationError ContentModel paths)))),
         World (contents w) (projects w) (S (next_id w))
               (clock w + elapsed1 o + elapsed2 o) (trace w))
      end
    end.
Proof.
  destruct (req_file r) as [f |] eqn:Hf.
  - by apply post_content_with_file.
  - unfold post_content. by rewrite Hf.
Qed.

Lemma post_project_outcome (o : oracle) (r : req) (w : world) :
  post_project o r w
  = match req_file r with
    | None => (Ok (Resp 400 (JError (Text "No file uploaded"))), w)
    | Some f =>
      let d := Project.Build (next_id w) (body r !! "projectTitle")
                 (body r !! "studentName") (body r !! "rollNo")
                 (body r !! "department") (body r !! "year")
                 (body r !! "description") (Some (path f)) (Some (mimetype f))
                 (Some (filename f))
                 (clock w + elapsed1 o) (clock w + elapsed1 o + elapsed2 o) in
      match invalid_paths (Project.required d) with
      | [] =>
        (Ok (Resp 201 (JProject d)),
         World (contents w) (<[next_id w := d]> (projects w)) (S (next_id w))
               (clock w + elapsed1 o + elapsed2 o)
               (trace w ++ [db_save ProjectModel (next_id w)]))
      | paths =>
        (Ok (Resp 500 (JError (MessageOf (ValidationError ProjectModel paths)))),
         World (contents w) (projects w) (S (next_id w))
               (clock w + elapsed1 o + elapsed2 o) (trace w))
      end
    end.
Proof.
  destruct (req_file r) as [f |] eqn:Hf.
  - by apply post_project_with_file.
  - unfold post_project. by rewrite Hf.
Qed.

(** ** Every request is answered *)

Ltac answers_cases :=
  intros w; cbv zeta; repeat case_match;
  eexists _, _; (split; [reflexivity |]); cbn [status answer_codes In]; tauto.

Lemma answers_post_content (o : oracle) (r : req) : answers (post_content o r).
Proof. intros w. rewrite post_content_outcome. revert w. answers_cases. Qed.

Lemma answers_post_project (o : oracle) (r : req) : answers (post_project o r).
Proof. intros w. rewrite post_project_outcome. revert w. answers_cases. Qed.

Lemma answers_put_content (o : oracle) (id : id_param) (r : req) :
  answers (put_content o id r).
Proof. intros w. rewrite put_content_outcome. revert w. answers_cases. Qed.

Lemma answers_put_project (o : oracle) (id : id_param) (r : req) :
  answers (put_project o id r).
Proof. intros w. rewrite put_project_outcome. revert w. answers_cases. Qed.

Lemma answers_delete_content (o : oracle) (id : id_param) :
  answers (delete_content o id).
Proof. intros w. rewrite delete_content_outcome. revert w. answers_cases. Qed.

Lemma answers_delete_project (o : oracle) (id : id_param) :
  answers (delete_project o id).
Proof. intros w. rewrite delete_project_outcome. revert w. answers_cases. Qed.

Lemma answers_guarded (m : M response) :
  answers m -> answers (try_catch m error_middleware).
Proof.
  intros Hm w. unfold try_catch. destruct (Hm w) as (res & w' & -> & Hres).
  by exists res, w'.
Qed.

Lemma answers_after_upload (o : oracle) (r : req) (k : req -> M response) :
  (forall r', answers (k r')) ->
  answers (try_catch (upload_single o r ≫= k) error_middleware).
Proof.
  intros Hk w. unfold try_catch, mbind, M_bind.
  destruct (upload_single o r w) as [[r' | err] w1].
  - destruct (Hk r' w1) as (res & w' & -> & Hres). by exists res, w'.
  - eexists _, _. split; [reflexivity |]. cbn. tauto.
Qed.

(** X13.  Every request is answered: whatever the request, the state of
    the database and the behaviour of Cloudinary, the application ends with
    a response and not with an uncaught exception, and the status of the
    response is one of 200, 201, 400, 401, 404 and 500. *)
Theorem every_request_is_answered
    (e : env) (o : oracle) (rq : request) (w : world) :
  exists res w',
    app e o rq w = (Ok res, w') /\
    In (status res) [200; 201; 400; 401; 404; 500]%nat.
Proof.
  destruct rq as [[c | [n |] | | [n |] | | p] hdr flds att].
  - rewrite app_get_content_by_category. eexists _, _. split; [done |]. cbn. tauto.
  - rewrite app_get_content_item. eexists _, _. split; [done |].
    destruct (contents w !! n); cbn; tauto.
  - rewrite (proj1 (app_get_malformed e o hdr flds att w)).
    eexists _, _. split; [done |]. cbn. tauto.
  - rewrite app_get_projects. eexists _, _. split; [done |]. cbn. tauto.
  - rewrite app_get_project. eexists _, _. split; [done |].
    destruct (projects w !! n); cbn; tauto.
  - rewrite (proj2 (app_get_malformed e o hdr flds att w)).
    eexists _, _. split; [done |]. cbn. tauto.
  - rewrite app_verify_admin. eexists _, _. split; [done |]. cbn. tauto.
  - destruct (decide (hdr = ADMIN_PASSWORD e)) as [Hauth | Hauth].
    + rewrite app_authorized by done.
      destruct p as [| id | id | | id | id]; cbn [after_authenticate].
      * apply answers_after_upload, answers_post_content.
      * apply answers_after_upload. intros r'. apply answers_put_content.
      * apply answers_guarded, answers_delete_content.
      * apply answers_after_upload, answers_post_project.
      * apply answers_after_upload. intros r'. apply answers_put_project.
      * apply answers_guarded, answers_delete_project.
    + rewrite app_unauthorized by done. eexists _, _. split; [done |]. cbn. tauto.
Qed.

(** ** From upload to destroy *)

(** X14.  The file that is destroyed is the file that was uploaded.  The
    resource type [params] gives an upload is the one [getResourceType]
    computes from the same MIME type, so never 'auto'.  And when a create
    is answered 201, the calls it made are the upload and the save; a later
    DELETE of that record hands [cloudinary.uploader.destroy] the public ID
    Cloudinary returned for that upload, with the resource type the upload
    was made with. *)
Theorem created_file_is_destroyed_as_uploaded
    (e : env) (o : oracle) (hdr : option string) (flds : gmap string string)
    (att : option file_part) (w : world) :
  (forall r f, resource_type (storage_params r f) = resource_kind (part_mimetype f) /\
               resource_type (storage_params r f) <> "auto") /\
  (forall d : Content.t,
     (app e o (Request (Protected POST_content) hdr flds att) w).1
     = Ok (Resp 201 (JContent d)) ->
     let w' := (app e o (Request (Protected POST_content) hdr flds att) w).2 in
     exists dir kind resp,
       uploaded o = Some resp /\
       calls_since w w'
       = [cloudinary_upload dir kind; db_save ContentModel (Content._id d)] /\
       forall o' flds' att',
         calls_since w'
           (app e o' (Request (Protected (DELETE_content (ObjectId (Content._id d))))
                              hdr flds' att') w').2
         = [ db_findById ContentModel (Content._id d);
             cloudinary_destroy (Some (public_id resp)) kind;
             destroy_report o' (Some (public_id resp));
             db_findByIdAndDelete ContentModel (Content._id d) ]) /\
  (forall d : Project.t,
     (app e o (Request (Protected POST_projects) hdr flds att) w).1
     = Ok (Resp 201 (JProject d)) ->
     let w' := (app e o (Request (Protected POST_projects) hdr flds att) w).2 in
     exists dir kind resp,
       uploaded o = Some resp /\
       calls_since w w'
       = [cloudinary_upload dir kind; db_save ProjectModel (Project._id d)] /\
       forall o' flds' att',
         calls_since w'
           (app e o' (Request (Protected (DELETE_project (ObjectId (Project._id d))))
                              hdr flds' att') w').2
         = [ db_findById ProjectModel (Project._id d);
             cloudinary_destroy (Some (public_id resp)) kind;
             destroy_report o' (Some (public_id resp));
             db_findByIdAndDelete ProjectModel (Project._id d) ]).
Proof.
  split; [| split].
  - intros r f. split; [reflexivity |].
    unfold storage_params. cbn [resource_type].
    destruct (startsWith (part_mimetype f) "video/"); [discriminate |].
    destruct (startsWith (part_mimetype f) "image/"); discriminate.
  - intros d Hres w'. subst w'.
    destruct (app e o (Request (Protected POST_content) hdr flds att) w)
      as [res w'] eqn:Happ. cbn [fst snd] in *. subst res.
    destruct (created_content_inv e o hdr flds att w w' d Happ)
      as (f & resp & -> & Hauth & Hty & Hup & Hd & Hv & ->).
    eexists _, _, resp. split; [done |].
    split; [rewrite calls_since_app; by rewrite Hd |].
    intros o' flds' att'.
    rewrite (app_delete_content e o' hdr flds' att' (Content._id d) d
               (part_mimetype f)); [| done | | by rewrite Hd].
    + apply calls_since_trace. by rewrite Hd.
    + cbn [contents]. rewrite Hd at 1. cbn [Content._id]. apply lookup_insert_eq.
  - intros d Hres w'. subst w'.
    destruct (app e o (Request (Protected POST_projects) hdr flds att) w)
      as [res w'] eqn:Happ. cbn [fst snd] in *. subst res.
    destruct (created_project_inv e o hdr flds att w w' d Happ)
      as (f & resp & -> & Hauth & Hty & Hup & Hd & Hv & ->).
    eexists _, _, resp. split; [done |].
    split; [rewrite calls_since_app; by rewrite Hd |].
    intros o' flds' att'.
    rewrite (app_delete_project e o' hdr flds' att' (Project._id d) d
               (part_mimetype f)); [| done | | by rewrite Hd].
    + apply calls_since_trace. by rewrite Hd.
    + cbn [projects]. rewrite Hd at 1. cbn [Project._id]. apply lookup_insert_eq.
Qed.

Lemma created_file_is_destroyed_as_uploaded_witness :
  (app secret_env calm create_content (empty_db 1000)).1
  = Ok (Resp 201 (JContent created_while_calm)) /\
  exists dir kind resp,
    uploaded calm = Some resp /\
    calls_since (empty_db 1000)
      (app secret_env calm create_content (empty_db 1000)).2
    = [cloudinary_upload dir kind;
       db_save ContentModel (Content._id created_while_calm)] /\
    forall o' flds' att',
      calls_since (app secret_env calm create_content (empty_db 1000)).2
        (app secret_env o'
           (Request (Protected (DELETE_content
                                  (ObjectId (Content._id created_while_calm))))
                    (Some "s3cret") flds' att')
           (app secret_env calm create_content (empty_db 1000)).2).2
      = [ db_findById ContentModel (Content._id created_while_calm);
          cloudinary_destroy (Some (public_id resp)) kind;
          destroy_report o' (Some (public_id resp));
          db_findByIdAndDelete ContentModel (Content._id created_while_calm) ].
Proof.
  assert (H : (app secret_env calm create_content (empty_db 1000)).1
              = Ok (Resp 201 (JContent created_while_calm))) by by vm_compute.
  split; [exact H |].
  exact (proj1 (proj2 (created_file_is_destroyed_as_uploaded secret_env calm
                         (Some "s3cret") content_fields (Some sample_png)
                         (empty_db 1000))) created_while_calm H).
Defined.

(** ** Through the chain of a protected route *)

Section Chain.
Variable R : world -> world -> Prop.
Hypothesis R_refl : forall w, R w w.
Hypothesis R_after_same : forall w w1 w2, same_db w w1 -> R w1 w2 -> R w w2.
Hypothesis R_before_same : forall w w1 w2, R w w1 -> same_db w1 w2 -> R w w2.

Lemma chain_guarded (m : M response) (w : world) :
  (forall w, R w (m w).2) -> R w (try_catch m error_middleware w).2.
Proof.
  intros Hm. unfold try_catch. specialize (Hm w).
  destruct (m w) as [[res | err] w1]; [done |].
  eapply R_before_same; [exact Hm | apply error_middleware_same_db].
Qed.

Lemma chain_after_upload (o : oracle) (r : req) (k : req -> M response) (w : world) :
  (forall r' w, R w (k r' w).2) ->
  R w (try_catch (upload_single o r ≫= k) error_middleware w).2.
Proof.
  intros Hk. unfold try_catch, mbind, M_bind.
  pose proof (upload_single_same_db o r w) as Hup.
  destruct (upload_single o r w) as [[r' | err] w1]; cbn [snd] in Hup.
  - specialize (Hk r' w1).
    destruct (k r' w1) as [[res | err] w2]; cbn [snd] in *.
    + by eapply R_after_same.
    + eapply R_after_same; [exact Hup |].
      eapply R_before_same; [exact Hk | apply error_middleware_same_db].
  - eapply R_before_same; [apply R_refl |].
    destruct Hup as (? & ? & ? & ?). by repeat split.
Qed.
End Chain.

(** ** Stored records stay valid *)

Lemma truthy_nonempty (v : option string) :
  truthy v = true <-> exists s, v = Some s /\ s <> EmptyString.
Proof.
  split.
  - destruct v as [s |]; [| discriminate]. cbn. intros H. exists s. split; [done |].
    intros ->. discriminate.
  - intros (s & -> & Hs). by apply truthy_Some.
Qed.

Ltac valid_db_cases Hc Hp :=
  cbv zeta; repeat case_match; cbn [snd]; split; intros k x Hx;
  cbn [contents projects] in Hx;
  try (apply lookup_insert_Some in Hx as [[<- <-] | [_ Hx]]);
  try (apply lookup_delete_Some in Hx as [_ Hx]);
  first [done | by eapply Hc | by eapply Hp].

Lemma valid_db_post_content (o : oracle) (r : req) (w : world) :
  valid_db w -> valid_db (post_content o r w).2.
Proof. intros [Hc Hp]. rewrite post_content_outcome. valid_db_cases Hc Hp. Qed.

Lemma valid_db_post_project (o : oracle) (r : req) (w : world) :
  valid_db w -> valid_db (post_project o r w).2.
Proof. intros [Hc Hp]. rewrite post_project_outcome. valid_db_cases Hc Hp. Qed.

Lemma valid_db_put_content (o : oracle) (id : id_param) (r : req) (w : world) :
  valid_db w -> valid_db (put_content o id r w).2.
Proof. intros [Hc Hp]. rewrite put_content_outcome. valid_db_cases Hc Hp. Qed.

Lemma valid_db_put_project (o : oracle) (id : id_param) (r : req) (w : world) :
  valid_db w -> valid_db (put_project o id r w).2.
Proof. intros [Hc Hp]. rewrite put_project_outcome. valid_db_cases Hc Hp. Qed.

Lemma valid_db_delete_content (o : oracle) (id : id_param) (w : world) :
  valid_db w -> valid_db (delete_content o id w).2.
Proof. intros [Hc Hp]. rewrite delete_content_outcome. valid_db_cases Hc Hp. Qed.

Lemma valid_db_delete_project (o : oracle) (id : id_param) (w : world) :
  valid_db w -> valid_db (delete_project o id w).2.
Proof. intros [Hc Hp]. rewrite delete_project_outcome. valid_db_cases Hc Hp. Qed.

Lemma valid_db_same_db (w w' : world) : same_db w w' -> valid_db w -> valid_db w'.
Proof.
  intros (Hc & Hp & _) [H1 H2]. split; intros n d Hd.
  - rewrite Hc in Hd. by eapply H1.
  - rewrite Hp in Hd. by eapply H2.
Qed.

Lemma valid_db_rejected_or_public (e : env) (o : oracle) (rq : request) (w : world) :
  x_admin_password rq <> ADMIN_PASSWORD e \/ (forall p, target rq <> Protected p) ->
  valid_db w -> valid_db (app e o rq w).2.
Proof.
  intros Hrq Hw.
  destruct (rejected_or_public_calls e o rq w Hrq) as (t & Heq & _).
  rewrite Heq. exact Hw.
Qed.

Lemma valid_db_app (e : env) (o : oracle) (rq : request) (w : world) :
  valid_db w -> valid_db (app e o rq w).2.
Proof.
  destruct (decide (x_admin_password rq = ADMIN_PASSWORD e)) as [Hauth | Hauth];
    [| apply valid_db_rejected_or_public; by left].
  destruct rq as [rt hdr flds att]. cbn [x_admin_password] in Hauth.
  destruct rt as [c | id | | id | | p];
    try (apply valid_db_rejected_or_public; right; intros p; discriminate).
  rewrite app_authorized by done. revert w.
  assert (Hrefl : forall w, valid_db w -> valid_db w) by (intros w H; exact H).
  assert (Hl : forall w w1 w2, same_db w w1 ->
            (valid_db w1 -> valid_db w2) -> valid_db w -> valid_db w2).
  { intros w w1 w2 Hs H Hw. apply H, (valid_db_same_db w w1); assumption. }
  assert (Hr : forall w w1 w2, (valid_db w -> valid_db w1) -> same_db w1 w2 ->
            valid_db w -> valid_db w2).
  { intros w w1 w2 H Hs Hw. apply (valid_db_same_db w1 w2); [assumption |].
    apply H, Hw. }
  destruct p as [| id | id | | id | id]; cbn [after_authenticate]; intros w.
  - apply (chain_after_upload _ Hrefl Hl Hr). intros r' w0.
    apply valid_db_post_content.
  - apply (chain_after_upload _ Hrefl Hl Hr). intros r' w0.
    apply valid_db_put_content.
  - apply (chain_guarded _ Hr). intros w0. apply valid_db_delete_content.
  - apply (chain_after_upload _ Hrefl Hl Hr). intros r' w0.
    apply valid_db_post_project.
  - apply (chain_after_upload _ Hrefl Hl Hr). intros r' w0.
    apply valid_db_put_project.
  - apply (chain_guarded _ Hr). intros w0. apply valid_db_delete_project.
Qed.

(** X15.  The collections only ever hold valid records: in every world
    reached from an empty database by any sequence of requests, each path
    the schema declares [required] holds a non-empty string in every stored
    Content record and every stored Project record.  No update or failed
    request leaves a record with a required field missing or empty. *)
Theorem stored_records_are_valid
    (e : env) (t : Z) (xs : list (oracle * request)) :
  let w := run e xs (empty_db t) in
  (forall n (d : Content.t) name v,
     contents w !! n = Some d -> In (name, v) (Content.required d) ->
     exists s, v = Some s /\ s <> EmptyString) /\
  (forall n (d : Project.t) name v,
     projects w !! n = Some d -> In (name, v) (Project.required d) ->
     exists s, v = Some s /\ s <> EmptyString).
Proof.
  intros w.
  assert (Hw : valid_db w).
  { subst w. unfold run.
    assert (H0 : valid_db (empty_db t))
      by (split; intros n d H; cbn in H; by rewrite lookup_empty in H).
    revert H0. generalize (empty_db t).
    induction xs as [| [o rq] xs IH]; intros w0 H0; [done |].
    cbn [foldl]. apply IH. unfold step. cbn [fst snd]. by apply valid_db_app. }
  destruct Hw as [Hc Hp]. split; intros n d name v Hd Hin.
  - specialize (Hc n d Hd). unfold valid_Content in Hc.
    apply invalid_paths_nil in Hc. rewrite Forall_forall in Hc.
    apply truthy_nonempty. apply (Hc (name, v)). by apply list_elem_of_In.
  - specialize (Hp n d Hd). unfold valid_Project in Hp.
    apply invalid_paths_nil in Hp. rewrite Forall_forall in Hp.
    apply truthy_nonempty. apply (Hp (name, v)). by apply list_elem_of_In.
Qed.

Lemma stored_records_are_valid_witness :
  contents (run secret_env [(calm, create_content)] (empty_db 1000)) !! 0%nat
  = Some created_while_calm /\
  exists s, Content.category created_while_calm = Some s /\ s <> EmptyString.
Proof.
  assert (H : contents (run secret_env [(calm, create_content)] (empty_db 1000))
              !! 0%nat = Some created_while_calm) by by vm_compute.
  split; [exact H |].
  refine (proj1 (stored_records_are_valid secret_env 1000 [(calm, create_content)])
            0%nat created_while_calm "category" _ H _).
  simpl. tauto.
Defined.

(** ** ObjectIds *)

Lemma consistent_fresh (w : world) :
  consistent w ->
  contents w !! next_id w = None /\ projects w !! next_id w = None.
Proof.
  intros [Hc Hp]. split.
  - destruct (contents w !! next_id w) as [d |] eqn:Hd; [| done].
    destruct (Hc _ _ Hd). lia.
  - destruct (projects w !! next_id w) as [d |] eqn:Hd; [| done].
    destruct (Hp _ _ Hd). lia.
Qed.

(** X16.  ObjectIds are never reused.  In every world reached from an
    empty database, each record is stored under its own [_id]; and a create
    answered 201 there gives the new record an [_id] under which neither
    collection held anything, and leaves every record that was stored
    before exactly as it was. *)
Theorem object_ids_are_never_reused
    (e : env) (t : Z) (xs : list (oracle * request)) :
  let w := run e xs (empty_db t) in
  (forall n (d : Content.t), contents w !! n = Some d -> Content._id d = n) /\
  (forall n (d : Project.t), projects w !! n = Some d -> Project._id d = n) /\
  (forall o hdr flds att (d : Content.t),
     (app e o (Request (Protected POST_content) hdr flds att) w).1
     = Ok (Resp 201 (JContent d)) ->
     let w' := (app e o (Request (Protected POST_content) hdr flds att) w).2 in
     contents w !! Content._id d = None /\
     projects w !! Content._id d = None /\
     projects w' = projects w /\
     forall m x, contents w !! m = Some x -> contents w' !! m = Some x) /\
  (forall o hdr flds att (d : Project.t),
     (app e o (Request (Protected POST_projects) hdr flds att) w).1
     = Ok (Resp 201 (JProject d)) ->
     let w' := (app e o (Request (Protected POST_projects) hdr flds att) w).2 in
     projects w !! Project._id d = None /\
     contents w !! Project._id d = None /\
     contents w' = contents w /\
     forall m x, projects w !! m = Some x -> projects w' !! m = Some x).
Proof.
  intros w.
  assert (Hw : consistent w) by apply consistent_run, consistent_empty_db.
  destruct (consistent_fresh w Hw) as [Hfc Hfp].
  split; [intros n d Hd; by destruct (proj1 Hw n d Hd) |].
  split; [intros n d Hd; by destruct (proj2 Hw n d Hd) |].
  split.
  - intros o hdr flds att d Hres w'. subst w'.
    destruct (app e o (Request (Protected POST_content) hdr flds att) w)
      as [res w'] eqn:Happ. cbn [fst snd] in *. subst res.
    destruct (created_content_inv e o hdr flds att w w' d Happ)
      as (f & resp & _ & _ & _ & _ & Hd & _ & ->).
    assert (Hid : Content._id d = next_id w) by by rewrite Hd.
    rewrite Hid. cbn [contents projects].
    repeat (split; [done |]).
    intros m x Hx. rewrite lookup_insert_ne; [done |].
    intros <-. rewrite Hfc in Hx. discriminate.
  - intros o hdr flds att d Hres w'. subst w'.
    destruct (app e o (Request (Protected POST_projects) hdr flds att) w)
      as [res w'] eqn:Happ. cbn [fst snd] in *. subst res.
    destruct (created_project_inv e o hdr flds att w w' d Happ)
      as (f & resp & _ & _ & _ & _ & Hd & _ & ->).
    assert (Hid : Project._id d = next_id w) by by rewrite Hd.
    rewrite Hid. cbn [contents projects].
    repeat (split; [done |]).
    intros m x Hx. rewrite lookup_insert_ne; [done |].
    intros <-. rewrite Hfp in Hx. discriminate.
Qed.

Lemma object_ids_are_never_reused_witness :
  (app secret_env calm create_content (run secret_env [] (empty_db 1000))).1
  = Ok (Resp 201 (JContent created_while_calm)) /\
  contents (run secret_env [] (empty_db 1000))
    !! Content._id created_while_calm = None.
Proof.
  assert (H : (app secret_env calm create_content
                   (run secret_env [] (empty_db 1000))).1
              = Ok (Resp 201 (JContent created_while_calm))) by by vm_compute.
  split; [exact H |].
  exact (proj1 (proj1 (proj2 (proj2 (object_ids_are_never_reused secret_env 1000 [])))
                      calm (Some "s3cret") content_fields (Some sample_png)
                      created_while_calm H)).
Defined.

(** ** Only the addressed record *)

Lemma put_content_other_ids (o : oracle) (n m : nat) (r : req) (w : world) :
  (forall d, contents w !! n = Some d -> Content._id d = n) ->
  m <> n ->
  contents (put_content o (ObjectId n) r w).2 !! m = contents w !! m /\
  projects (put_content o (ObjectId n) r w).2 = projects w.
Proof.
  intros Hid Hm. rewrite put_content_outcome. cbv zeta.
  destruct (contents w !! n) as [was |] eqn:Hw; [| done].
  specialize (Hid was eq_refl).
  repeat case_match; cbn [snd contents projects]; (split; [| done]); try done.
  all: rewrite lookup_insert_ne; [done | congruence].
Qed.

Lemma put_project_other_ids (o : oracle) (n m : nat) (r : req) (w : world) :
  (forall d, projects w !! n = Some d -> Project._id d = n) ->
  m <> n ->
  projects (put_project o (ObjectId n) r w).2 !! m = projects w !! m /\
  contents (put_project o (ObjectId n) r w).2 = contents w.
Proof.
  intros Hid Hm. rewrite put_project_outcome. cbv zeta.
  destruct (projects w !! n) as [was |] eqn:Hw; [| done].
  specialize (Hid was eq_refl).
  repeat case_match; cbn [snd contents projects]; (split; [| done]); try done.
  all: rewrite lookup_insert_ne; [done | congruence].
Qed.

Lemma delete_content_other_ids (o : oracle) (n m : nat) (w : world) :
  m <> n ->
  contents (delete_content o (ObjectId n) w).2 !! m = contents w !! m /\
  projects (delete_content o (ObjectId n) w).2 = projects w.
Proof.
  intros Hm. rewrite delete_content_outcome. cbv zeta.
  repeat case_match; cbn [snd contents projects]; (split; [| done]); try done.
  by rewrite lookup_delete_ne.
Qed.

Lemma delete_project_other_ids (o : oracle) (n m : nat) (w : world) :
  m <> n ->
  projects (delete_project o (ObjectId n) w).2 !! m = projects w !! m /\
  contents (delete_project o (ObjectId n) w).2 = contents w.
Proof.
  intros Hm. rewrite delete_project_outcome. cbv zeta.
  repeat case_match; cbn [snd contents projects]; (split; [| done]); try done.
  by rewrite lookup_delete_ne.
Qed.

Lemma app_content_other_ids
    (e : env) (o : oracle) (hdr : option string) (flds : gmap string string)
    (att : option file_part) (n m : nat) (p : protected_route) (w : world) :
  m <> n ->
  p = PUT_content (ObjectId n) \/ p = DELETE_content (ObjectId n) ->
  (forall d, contents w !! n = Some d -> Content._id d = n) ->
  contents (app e o (Request (Protected p) hdr flds att) w).2 !! m
  = contents w !! m /\
  projects (app e o (Request (Protected p) hdr flds att) w).2 = projects w.
Proof.
  intros Hm Hp.
  destruct (decide (hdr = ADMIN_PASSWORD e)) as [Hauth | Hauth];
    [| by rewrite app_unauthorized].
  rewrite app_authorized by done.
  set (R := fun w w' : world =>
         (forall d, contents w !! n = Some d -> Content._id d = n) ->
         contents w' !! m = contents w !! m /\ projects w' = projects w).
  assert (Hrefl : forall w, R w w) by (by intros w0 H0).
  assert (Hl : forall w w1 w2, same_db w w1 -> R w1 w2 -> R w w2).
  { intros w0 w1 w2 (Hc & Hp' & _) H H0. rewrite <- Hc, <- Hp'. apply H.
    by rewrite Hc. }
  assert (Hr : forall w w1 w2, R w w1 -> same_db w1 w2 -> R w w2).
  { intros w0 w1 w2 H (Hc & Hp' & _) H0. rewrite Hc, Hp'. by apply H. }
  change (R w (try_catch (after_authenticate o p (Req EmptyString hdr flds att None))
                         error_middleware w).2).
  destruct Hp as [-> | ->]; cbn [after_authenticate].
  - apply (chain_after_upload R Hrefl Hl Hr). intros r' w0 H0.
    exact (put_content_other_ids o n m r' w0 H0 Hm).
  - apply (chain_guarded R Hr). intros w0 H0.
    exact (delete_content_other_ids o n m w0 Hm).
Qed.

Lemma app_project_other_ids
    (e : env) (o : oracle) (hdr : option string) (flds : gmap string string)
    (att : option file_part) (n m : nat) (p : protected_route) (w : world) :
  m <> n ->
  p = PUT_project (ObjectId n) \/ p = DELETE_project (ObjectId n) ->
  (forall d, projects w !! n = Some d -> Project._id d = n) ->
  projects (app e o (Request (Protected p) hdr flds att) w).2 !! m
  = projects w !! m /\
  contents (app e o (Request (Protected p) hdr flds att) w).2 = contents w.
Proof.
  intros Hm Hp.
  destruct (decide (hdr = ADMIN_PASSWORD e)) as [Hauth | Hauth];
    [| by rewrite app_unauthorized].
  rewrite app_authorized by done.
  set (R := fun w w' : world =>
         (forall d, projects w !! n = Some d -> Project._id d = n) ->
         projects w' !! m = projects w !! m /\ contents w' = contents w).
  assert (Hrefl : forall w, R w w) by (by intros w0 H0).
  assert (Hl : forall w w1 w2, same_db w w1 -> R w1 w2 -> R w w2).
  { intros w0 w1 w2 (Hc & Hp' & _) H H0. rewrite <- Hc, <- Hp'. apply H.
    by rewrite Hp'. }
  assert (Hr : forall w w1 w2, R w w1 -> same_db w1 w2 -> R w w2).
  { intros w0 w1 w2 H (Hc & Hp' & _) H0. rewrite Hc, Hp'. by apply H. }
  change (R w (try_catch (after_authenticate o p (Req EmptyString hdr flds att None))
                         error_middleware w).2).
  destruct Hp as [-> | ->]; cbn [after_authenticate].
  - apply (chain_after_upload R Hrefl Hl Hr). intros r' w0 H0.
    exact (put_project_other_ids o n m r' w0 H0 Hm).
  - apply (chain_guarded R Hr). intros w0 H0.
    exact (delete_project_other_ids o n m w0 Hm).
Qed.

(** X17.  An update or a delete touches only the record it addresses: in
    every world reached from an empty database, after PUT or DELETE on
    /api/content/:id every other id of the Content collection holds what it
    held before and the Project collection is unchanged, whatever the
    outcome of the request; and the same with the two collections
    exchanged for /api/projects/:id. *)
Theorem update_and_delete_touch_only_their_record
    (e : env) (t : Z) (xs : list (oracle * request)) (o : oracle)
    (hdr : option string) (flds : gmap string string) (att : option file_part)
    (n m : nat) :
  m <> n ->
  let w := run e xs (empty_db t) in
  (forall p, p = PUT_content (ObjectId n) \/ p = DELETE_content (ObjectId n) ->
     contents (app e o (Request (Protected p) hdr flds att) w).2 !! m
     = contents w !! m /\
     projects (app e o (Request (Protected p) hdr flds att) w).2 = projects w) /\
  (forall p, p = PUT_project (ObjectId n) \/ p = DELETE_project (ObjectId n) ->
     projects (app e o (Request (Protected p) hdr flds att) w).2 !! m
     = projects w !! m /\
     contents (app e o (Request (Protected p) hdr flds att) w).2 = contents w).
Proof.
  intros Hm w.
  assert (Hw : consistent w) by apply consistent_run, consistent_empty_db.
  split; intros p Hp.
  - apply (app_content_other_ids e o hdr flds att n m p w Hm Hp).
    intros d Hd. by destruct (proj1 Hw n d Hd).
  - apply (app_project_other_ids e o hdr flds att n m p w Hm Hp).
    intros d Hd. by destruct (proj2 Hw n d Hd).
Qed.

Lemma update_and_delete_touch_only_their_record_witness :
  contents
    (app secret_env calm
         (Request (Protected (DELETE_content (ObjectId 1))) (Some "s3cret") ∅ None)
         (run secret_env [(calm, create_content)] (empty_db 1000))).2 !! 0%nat
  = contents (run secret_env [(calm, create_content)] (empty_db 1000)) !! 0%nat.
Proof.
  refine (proj1 (proj1 (update_and_delete_touch_only_their_record secret_env 1000
            [(calm, create_content)] calm (Some "s3cret") ∅ None 1%nat 0%nat _)
            (DELETE_content (ObjectId 1)) (or_intror eq_refl))).
  lia.
Defined.

(** ** What is destroyed on Cloudinary *)













